(** * Piggy Tracker: the offline-first data layer and its cloud synchronisation

    A shallow embedding of the validation layer ([app/lib/validation.ts]),
    the Realm repositories ([app/db/repository.ts]), the category and
    transaction services, the Supabase synchronisation engine
    ([app/services/supabaseSync.ts]) and the maintenance job, followed by
    the properties established about them. *)

From Stdlib Require Import ZArith String Ascii List Bool Lia SpecFloat.
From stdpp Require Import base option list sorting gmap strings fin_maps.

Local Open Scope string_scope.
Local Open Scope Z_scope.

(** ** JavaScript numbers

    A JS [number] is an IEEE-754 binary64 value.  The standard library's
    [spec_float] is used at precision 53 and maximal exponent 1024, so that
    every operation below rounds exactly as the engine does (to nearest,
    ties to even). *)

Module Float64.

Definition prec : Z := 53.
Definition emax : Z := 1024.

Abbreviation number := spec_float.

Definition NaN : number := S754_nan.

(** [n / d] rounded to the nearest binary64, for [0 <= n] and [0 < d].
    This is the division core of the floating-point division, run on
    integers of any size. *)
Definition of_ratio (neg : bool) (n d : Z) : number :=
  if n =? 0 then S754_zero neg
  else
    let '(q, e, l) := SFdiv_core_binary prec emax n 0 d 0 in
    binary_round_aux prec emax neg q e l.

Definition of_Z (z : Z) : number := binary_normalize prec emax z 0 false.

(** [Number.isFinite] *)
Definition isFinite (x : number) : bool :=
  match x with
  | S754_zero _ | S754_finite _ _ _ => true
  | S754_infinity _ | S754_nan => false
  end.

Definition isNaN (x : number) : bool :=
  match x with S754_nan => true | _ => false end.

(** [Math.abs], [*], [>=] and [<] *)
Definition abs (x : number) : number := SFabs x.
Definition mul (x y : number) : number := SFmul prec emax x y.
Definition geb (x y : number) : bool := SFleb y x.
Definition ltb (x y : number) : bool := SFltb x y.

(** The mathematical integer [floor (x + 1/2)] of a finite number. *)
Definition round_half_up (s : bool) (m : positive) (e : Z) : Z :=
  let mz := if s then Z.neg m else Z.pos m in
  if 0 <=? e then mz * 2 ^ e
  else (2 * mz + 2 ^ (- e)) / 2 ^ (- e + 1).

(** [Math.round]: the integral number closest to [x], the one towards
    +infinity on a tie; zeros, infinities and NaN are returned as they
    are, and a result of zero keeps the sign of [x]. *)
Definition round (x : number) : number :=
  match x with
  | S754_finite s m e =>
      let r := round_half_up s m e in
      if r =? 0 then S754_zero s else binary_normalize prec emax r 0 s
  | _ => x
  end.

(** The integer an integral finite number stands for. *)
Definition to_Z (x : number) : option Z :=
  match x with
  | S754_zero _ => Some 0
  | S754_finite s m e =>
      if 0 <=? e then Some ((if s then Z.neg m else Z.pos m) * 2 ^ e)
      else if (Z.pos m mod 2 ^ (- e) =? 0)
           then Some ((if s then Z.neg m else Z.pos m) / 2 ^ (- e))
           else None
  | _ => None
  end.

(** The literals of the validation module. *)
Definition lit_0_01 : number := S754_finite false 5764607523034235 (-59).
Definition lit_100 : number := S754_finite false 7036874417766400 (-46).

(** *** [Number.parseFloat]

    The longest prefix of the string that is a decimal literal is
    converted; there is no such prefix exactly when no digit is found,
    and the result is then NaN.  The callers below pass strings over the
    alphabet [0-9 . , -], so that leading white space, exponent parts
    and the word Infinity cannot occur and are not scanned for. *)

Definition is_digit (c : ascii) : bool :=
  let n := N_of_ascii c in ((48 <=? n) && (n <=? 57))%N.

Definition digit_value (c : ascii) : Z := Z.of_N (N_of_ascii c) - 48.

(** [span_digits s] splits [s] after its leading digits. *)
Fixpoint span_digits (s : string) : string * string :=
  match s with
  | String c r =>
      if is_digit c
      then let '(ds, rest) := span_digits r in (String c ds, rest)
      else (EmptyString, s)
  | EmptyString => (EmptyString, EmptyString)
  end.

(** The natural number written by a string of digits, most significant
    first, continuing from [acc]. *)
Fixpoint digits_value (acc : Z) (ds : string) : Z :=
  match ds with
  | String c r => digits_value (10 * acc + digit_value c) r
  | EmptyString => acc
  end.

Definition parseFloat (s : string) : number :=
  let '(neg, body) :=
    match s with
    | String "-" r => (true, r)
    | String "+" r => (false, r)
    | _ => (false, s)
    end in
  let '(ip, after_ip) := span_digits body in
  let fp :=
    match after_ip with
    | String "." r => fst (span_digits r)
    | _ => EmptyString
    end in
  match ip, fp with
  | EmptyString, EmptyString => NaN
  | _, _ =>
      of_ratio neg (digits_value 0 (ip ++ fp))
                   (10 ^ Z.of_nat (String.length fp))
  end.

End Float64.

(** ** Object models ([app/db/realmSchemas.ts])

    A [Date] is the number of milliseconds since the epoch of a valid
    time value; [int] properties are integers. *)

Module Schemas.

Inductive TransactionType := expense | income.
Inductive SyncStatus := local | synced.

Module Transaction.
Record t := mk {
  id : string;
  type : TransactionType;
  amountCents : Z;
  categoryId : string;
  timestamp : Z;
  updatedAt : Z;
  syncStatus : SyncStatus;
  deleted : bool
}.
End Transaction.

Module Category.
Record t := mk {
  id : string;
  name : string;
  icon : string;
  userDefined : bool;
  createdAt : Z;
  updatedAt : Z
}.
End Category.

#[global] Instance TransactionType_eq_dec : EqDecision TransactionType.
Proof. solve_decision. Defined.
#[global] Instance SyncStatus_eq_dec : EqDecision SyncStatus.
Proof. solve_decision. Defined.
#[global] Instance Transaction_eq_dec : EqDecision Transaction.t.
Proof. solve_decision. Defined.

End Schemas.

(** ** Validation layer ([app/lib/validation.ts]) *)

Module Validation.
Import Float64 Schemas.

(** The values a field of the [unknown] input can hold. *)
Inductive value :=
| Undefined
| Null
| Boolean (b : bool)
| Number (x : number)
| Str (s : string)
| DateObj (t : option Z)      (* [None] is the Invalid Date *)
| Object.

(** The input of [validateTransactionDraft], an object read at the five
    keys of the schema; an absent key reads [Undefined]. *)
Record RawDraft := {
  raw_id : value;
  raw_type : value;
  raw_amount : value;
  raw_categoryId : value;
  raw_timestamp : value
}.

Record ValidatedTransactionDraft := {
  id : option string;
  type : TransactionType;
  amountCents : number;
  categoryId : string;
  timestamp : Z
}.

Record issue := { path : string; message : string }.

(** [schema.parse] returns, throws a [ZodError] carrying the issues found,
    or lets through the [Error] thrown by a transform. *)
Inductive outcome (A : Type) :=
| Valid (a : A)
| ZodError (issues : list issue)
| Threw (msg : string).
Arguments Valid {A} a.
Arguments ZodError {A} issues.
Arguments Threw {A} msg.

(** *** [amountInputSchema] *)

(** [/[^0-9.,-]/g]: the characters the first [replace] leaves in place. *)
Definition amount_char (c : ascii) : bool :=
  is_digit c || Ascii.eqb c "." || Ascii.eqb c "," || Ascii.eqb c "-".

(** [value.replace(/[^0-9.,-]/g, '')] *)
Fixpoint strip_non_amount (s : string) : string :=
  match s with
  | String c r =>
      if amount_char c then String c (strip_non_amount r)
      else strip_non_amount r
  | EmptyString => EmptyString
  end.

(** [.replace(',', '.')]: a string pattern replaces its first occurrence
    only. *)
Fixpoint replace_first_comma (s : string) : string :=
  match s with
  | String c r =>
      if Ascii.eqb c "," then String "." r
      else String c (replace_first_comma r)
  | EmptyString => EmptyString
  end.

Definition normalize (s : string) : string :=
  replace_first_comma (strip_non_amount s).

(** The union [z.number() | z.string().min(1)] followed by the first
    transform: the number the amount is read as, when the union accepts
    the value ([z.number()] refuses NaN). *)
Definition amount_number (v : value) : option number :=
  match v with
  | Number x => if isNaN x then None else Some x
  | Str s =>
      match s with
      | EmptyString => None
      | _ => Some (parseFloat (normalize s))
      end
  | _ => None
  end.

(** The piped schema: [z.number()], the two refinements, the transform. *)
Definition amount_pipe (x : number) : list string + number :=
  if isNaN x then inl ["Amount must be a number"]
  else
    match ((if isFinite x then [] else ["Amount must be finite"])
           ++ (if geb (abs x) lit_0_01 then []
               else ["Amount must be at least 0.01"]))%list with
    | [] => inr (round (mul (abs x) lit_100))
    | msgs => inl msgs
    end.

Definition amountInputSchema (v : value) : list string + number :=
  match amount_number v with
  | None => inl ["Invalid input"]
  | Some x => amount_pipe x
  end.

Definition isValidAmountInput (v : value) : bool :=
  match amountInputSchema v with inr _ => true | inl _ => false end.

(** *** [transactionDraftSchema] and [validateTransactionDraft] *)

Section Schema.
(** The UUID pattern of [z.string().uuid()], the parser behind
    [new Date(string)] ([None] when the time value is NaN) and the
    reading of [new Date()] taken by the default of [timestamp]. *)
Variable is_uuid : string -> bool.
Variable Date_parse : string -> option Z.
Variable now : Z.

Definition idSchema (v : value) : list string + option string :=
  match v with
  | Undefined => inr None
  | Str s => if is_uuid s then inr (Some s) else inl ["Invalid uuid"]
  | _ => inl ["Expected string"]
  end.

Definition transactionTypeSchema (v : value)
  : list string + TransactionType :=
  match v with
  | Str "expense" => inr expense
  | Str "income" => inr income
  | _ => inl ["Invalid transaction type"]
  end.

Definition categoryIdSchema (v : value) : list string + string :=
  match v with
  | Str EmptyString => inl ["Category is required"]
  | Str s => inr s
  | Undefined => inl ["Required"]
  | _ => inl ["Expected string"]
  end.

(** [timestampSchema.default(() => new Date())]; the inner [outcome]
    is [Threw] when the transform throws. *)
Definition timestampSchema (v : value) : outcome Z :=
  match v with
  | Undefined => Valid now
  | DateObj (Some t) => Valid t
  | DateObj None => ZodError [{| path := "timestamp"; message := "Invalid date" |}]
  | Str EmptyString =>
      ZodError [{| path := "timestamp"; message := "Invalid input" |}]
  | Str s =>
      match Date_parse s with
      | Some t => Valid t
      | None => Threw "Invalid timestamp"
      end
  | _ => ZodError [{| path := "timestamp"; message := "Invalid input" |}]
  end.

Definition at_path {A} (p : string) (r : list string + A) : list issue :=
  match r with
  | inl msgs => map (fun m => {| path := p; message := m |}) msgs
  | inr _ => []
  end.

(** The keys are parsed in the order of the schema; the issues of all
    of them are collected, and a throwing transform ends the parse. *)
Definition validateTransactionDraft (input : RawDraft)
  : outcome ValidatedTransactionDraft :=
  let r_id := idSchema (raw_id input) in
  let r_type := transactionTypeSchema (raw_type input) in
  let r_amount := amountInputSchema (raw_amount input) in
  let r_cat := categoryIdSchema (raw_categoryId input) in
  match timestampSchema (raw_timestamp input) with
  | Threw msg => Threw msg
  | r_ts =>
      match r_id, r_type, r_amount, r_cat, r_ts with
      | inr i, inr ty, inr cents, inr cat, Valid ts =>
          Valid {| id := i; type := ty; amountCents := cents;
                   categoryId := cat; timestamp := ts |}
      | _, _, _, _, _ =>
          ZodError (at_path "id" r_id ++ at_path "type" r_type
                    ++ at_path "amount" r_amount
                    ++ at_path "categoryId" r_cat
                    ++ match r_ts with ZodError l => l | _ => [] end)%list
      end
  end.
End Schema.

End Validation.


(** ** The remote boundary ([app/services/supabase.ts])

    The Supabase client is an external collaborator.  What the engine sends
    to it is recorded as a [Request]; what it answers is given by a
    [Backend], a function of the requests sent so far. *)

Module Supabase.
Import Schemas.

(** A row of [transactions] as [select('*')] and the change stream return
    it. *)
Module TransactionRow.
Record t := mk {
  id : string;
  user_id : string;
  type : TransactionType;
  amount_cents : Z;
  category_id : string;
  timestamp : Z;
  deleted_at : option Z;
  created_at : Z;
  updated_at : Z
}.
End TransactionRow.

Module CategoryRow.
Record t := mk {
  id : string;
  user_id : string;
  name : string;
  icon : string;
  deleted_at : option Z;
  created_at : Z;
  updated_at : Z
}.
End CategoryRow.

(** The objects handed to [upsert(rows, { onConflict: 'id' })]. *)
Module TransactionPayload.
Record t := mk {
  id : string;
  user_id : string;
  type : TransactionType;
  amount_cents : Z;
  category_id : string;
  timestamp : Z;
  deleted_at : option Z;
  updated_at : Z
}.
End TransactionPayload.

Module CategoryPayload.
Record t := mk {
  id : string;
  user_id : string;
  name : string;
  icon : string;
  deleted_at : option Z;
  updated_at : Z
}.
End CategoryPayload.

(** The filters of the query builder.  The operand of [gt] is the ISO
    string of a date, kept as the date it writes. *)
Inductive query_filter :=
| eq (column : string) (value : string)
| gt (column : string) (value : Z)
| is_null (column : string).

Record Query := { table : string; filters : list query_filter }.

Inductive Request :=
| GetUser
| Select (q : Query)
| UpsertTransactions (rows : list TransactionPayload.t)
| UpsertCategories (rows : list CategoryPayload.t).

(** The cell a row holds in a column. *)
Inductive cell :=
| Text (s : string)
| Time (t : Z)
| Int (n : Z)
| NullCell.

Definition type_name (ty : TransactionType) : string :=
  match ty with expense => "expense" | income => "income" end.

Definition time_or_null (o : option Z) : cell :=
  match o with Some t => Time t | None => NullCell end.

Definition transaction_cell (column : string) (r : TransactionRow.t)
  : option cell :=
  if String.eqb column "id" then Some (Text (TransactionRow.id r))
  else if String.eqb column "user_id" then Some (Text (TransactionRow.user_id r))
  else if String.eqb column "type" then Some (Text (type_name (TransactionRow.type r)))
  else if String.eqb column "amount_cents" then Some (Int (TransactionRow.amount_cents r))
  else if String.eqb column "category_id" then Some (Text (TransactionRow.category_id r))
  else if String.eqb column "timestamp" then Some (Time (TransactionRow.timestamp r))
  else if String.eqb column "deleted_at" then Some (time_or_null (TransactionRow.deleted_at r))
  else if String.eqb column "created_at" then Some (Time (TransactionRow.created_at r))
  else if String.eqb column "updated_at" then Some (Time (TransactionRow.updated_at r))
  else None.

(** Whether a row passes a filter: [eq] compares a text column with its
    operand, [gt] asks for a time strictly after its operand, [is_null]
    for a null cell. *)
Definition cell_passes (f : query_filter) (c : option cell) : bool :=
  match f, c with
  | eq _ v, Some (Text s) => String.eqb s v
  | gt _ v, Some (Time t) => v <? t
  | is_null _, Some NullCell => true
  | _, _ => false
  end.

Definition filter_column (f : query_filter) : string :=
  match f with eq c _ | gt c _ | is_null c => c end.

Definition transaction_passes (f : query_filter) (r : TransactionRow.t) : bool :=
  cell_passes f (transaction_cell (filter_column f) r).

(** The rows of [transactions] a query asks for. *)
Definition requests_transaction (q : Query) (r : TransactionRow.t) : bool :=
  String.eqb (table q) "transactions"
  && forallb (fun f => transaction_passes f r) (filters q).

(** What a call can complete with: a value, or a thrown value, which is
    an [Error] object with its message or anything else. *)
Inductive thrown :=
| ErrorObject (message : string)
| OtherValue.

Inductive completion (A : Type) :=
| Returns (a : A)
| Throws (e : thrown).
Arguments Returns {A} a.
Arguments Throws {A} e.

Record User := { uid : string }.

(** [{ data, error }] of a select, [{ error }] of an upsert; [error] is
    kept as its message. *)
Record SelectReply (R : Type) := {
  data : option (list R);
  select_error : option string
}.
Arguments data {R} _.
Arguments select_error {R} _.

Record UpsertReply := { upsert_error : option string }.

Record Backend := {
  auth_getUser : list Request -> completion (option User);
  select_transactions :
    list Request -> Query -> completion (SelectReply TransactionRow.t);
  select_categories :
    list Request -> Query -> completion (SelectReply CategoryRow.t);
  upsert_transactions :
    list Request -> list TransactionPayload.t -> completion UpsertReply;
  upsert_categories :
    list Request -> list CategoryPayload.t -> completion UpsertReply
}.

End Supabase.

(** ** The running application

    The state every hook works on: the two Realm tables keyed by primary
    key, the number of readings of [new Date()] and of generated UUIDs so
    far, the requests sent to the remote, and the synchronisation
    callbacks entered (kept for the statements about their order). *)

Module Runtime.
Import Schemas Supabase.

Inductive Phase :=
| PullCategories
| PullTransactions
| PushCategories
| PushTransactions.

(** [localTZA] is the time zone of the host: the offset of local time
    from UTC, in milliseconds, at a time value that is read as UTC when
    the flag is true and as a local time when it is false (the LocalTZA
    of ECMAScript). *)
Record Env := {
  wall_clock : nat -> Z;
  fresh_uuid : nat -> string;
  backend : Backend;
  localTZA : Z -> bool -> Z
}.

Record World := {
  transactions : gmap string Transaction.t;
  categories : gmap string Category.t;
  clock_reads : nat;
  uuids_made : nat;
  requests : list Request;
  entered : list Phase
}.

Definition set_transactions (f : gmap string Transaction.t -> gmap string Transaction.t)
  (w : World) : World :=
  {| transactions := f (transactions w); categories := categories w;
     clock_reads := clock_reads w; uuids_made := uuids_made w;
     requests := requests w; entered := entered w |}.

Definition set_categories (f : gmap string Category.t -> gmap string Category.t)
  (w : World) : World :=
  {| transactions := transactions w; categories := f (categories w);
     clock_reads := clock_reads w; uuids_made := uuids_made w;
     requests := requests w; entered := entered w |}.

Definition sent (r : Request) (w : World) : World :=
  {| transactions := transactions w; categories := categories w;
     clock_reads := clock_reads w; uuids_made := uuids_made w;
     requests := requests w ++ [r]; entered := entered w |}.

Definition enter (p : Phase) (w : World) : World :=
  {| transactions := transactions w; categories := categories w;
     clock_reads := clock_reads w; uuids_made := uuids_made w;
     requests := requests w; entered := entered w ++ [p] |}.

(** [new Date()] *)
Definition now (env : Env) (w : World) : Z * World :=
  (wall_clock env (clock_reads w),
   {| transactions := transactions w; categories := categories w;
      clock_reads := S (clock_reads w); uuids_made := uuids_made w;
      requests := requests w; entered := entered w |}).

(** [new Realm.BSON.UUID().toString()] *)
Definition generateId (env : Env) (w : World) : string * World :=
  (fresh_uuid env (uuids_made w),
   {| transactions := transactions w; categories := categories w;
      clock_reads := clock_reads w; uuids_made := S (uuids_made w);
      requests := requests w; entered := entered w |}).

Definition fresh_world : World :=
  {| transactions := ∅; categories := ∅; clock_reads := 0%nat;
     uuids_made := 0%nat; requests := []; entered := [] |}.

End Runtime.

(** ** Repository layer ([app/db/repository.ts])

    [realm.write] runs its callback as one transaction: each function
    below that writes is a single step from one [World] to the next.
    [realm.create(.., UpdateMode.Modified)] stores the object under its
    primary key, replacing the fields of an object already there; every
    call site gives all the fields.  Iterating a Realm collection visits
    the objects it held when the iteration started. *)

Module Repository.
Import Schemas Runtime.

Module TransactionDraft.
Record t := mk {
  id : option string;
  type : TransactionType;
  amountCents : Z;
  categoryId : string;
  timestamp : Z;
  syncStatus : option SyncStatus;
  deleted : option bool
}.
End TransactionDraft.

Module CategoryDraft.
Record t := mk {
  id : option string;
  name : string;
  icon : string;
  userDefined : option bool;
  createdAt : option Z;
  updatedAt : option Z
}.
End CategoryDraft.

(** The truthiness of an optional string argument: [undefined] and the
    empty string are falsy. *)
Definition truthy (o : option string) : bool :=
  match o with
  | Some (String _ _) => true
  | _ => false
  end.

(** [transactions.sorted('timestamp', true)] and
    [categories.sorted('name', false)], read as arrays. *)
Definition later_first (a b : Transaction.t) : Prop :=
  Transaction.timestamp b <= Transaction.timestamp a.

Definition name_ascending (a b : Category.t) : Prop :=
  String.leb (Category.name a) (Category.name b) = true.

#[global] Instance later_first_dec a b : Decision (later_first a b).
Proof. unfold later_first. apply _. Defined.

#[global] Instance name_ascending_dec a b : Decision (name_ascending a b).
Proof. unfold name_ascending. apply _. Defined.

Definition orderedTransactions (w : World) : list Transaction.t :=
  merge_sort later_first (map snd (map_to_list (transactions w))).

Definition orderedCategories (w : World) : list Category.t :=
  merge_sort name_ascending (map snd (map_to_list (categories w))).

Section WithEnv.
Variable env : Env.

(** [TransactionDraft] makes [timestamp] mandatory, so that the fallback
    of [draft.timestamp ?? now()] is never taken and the clock is read
    once, for [updatedAt]. *)
Definition upsertTransaction (draft : TransactionDraft.t) (w : World)
  : string * World :=
  let '(id, w1) :=
    match TransactionDraft.id draft with
    | Some i => (i, w)
    | None => generateId env w
    end in
  let timestamp := TransactionDraft.timestamp draft in
  let '(updatedAt, w2) := now env w1 in
  (id,
   set_transactions
     (insert id
        {| Transaction.id := id;
           Transaction.type := TransactionDraft.type draft;
           Transaction.amountCents := TransactionDraft.amountCents draft;
           Transaction.categoryId := TransactionDraft.categoryId draft;
           Transaction.timestamp := timestamp;
           Transaction.updatedAt := updatedAt;
           Transaction.syncStatus :=
             default local (TransactionDraft.syncStatus draft);
           Transaction.deleted :=
             default false (TransactionDraft.deleted draft) |})
     w2).

Definition mark_deleted (updatedAt : Z) (txn : Transaction.t) : Transaction.t :=
  {| Transaction.id := Transaction.id txn;
     Transaction.type := Transaction.type txn;
     Transaction.amountCents := Transaction.amountCents txn;
     Transaction.categoryId := Transaction.categoryId txn;
     Transaction.timestamp := Transaction.timestamp txn;
     Transaction.updatedAt := updatedAt;
     Transaction.syncStatus := local;
     Transaction.deleted := true |}.

Definition softDeleteTransaction (id : string) (w : World) : bool * World :=
  match transactions w !! id with
  | None => (false, w)
  | Some txn =>
      let '(t, w1) := now env w in
      (true, set_transactions (insert id (mark_deleted t txn)) w1)
  end.

Definition purgeTransaction (id : string) (w : World) : bool * World :=
  match transactions w !! id with
  | None => (false, w)
  | Some _ => (true, set_transactions (delete id) w)
  end.

Definition upsertCategory (draft : CategoryDraft.t) (w : World)
  : string * World :=
  let '(id, w1) :=
    match CategoryDraft.id draft with
    | Some i => (i, w)
    | None => generateId env w
    end in
  let '(timestamp, w2) := now env w1 in
  let existing := categories w2 !! id in
  let createdAt :=
    match existing with
    | Some c => Category.createdAt c
    | None => default timestamp (CategoryDraft.createdAt draft)
    end in
  let updatedAt := default timestamp (CategoryDraft.updatedAt draft) in
  (id,
   set_categories
     (insert id
        {| Category.id := id;
           Category.name := CategoryDraft.name draft;
           Category.icon := CategoryDraft.icon draft;
           Category.userDefined :=
             default true (CategoryDraft.userDefined draft);
           Category.createdAt := createdAt;
           Category.updatedAt := updatedAt |})
     w2).

(** The three assignments made to each affected transaction. *)
Definition reassigned (categoryId : string) (updatedAt : Z)
  (txn : Transaction.t) : Transaction.t :=
  {| Transaction.id := Transaction.id txn;
     Transaction.type := Transaction.type txn;
     Transaction.amountCents := Transaction.amountCents txn;
     Transaction.categoryId := categoryId;
     Transaction.timestamp := Transaction.timestamp txn;
     Transaction.updatedAt := updatedAt;
     Transaction.syncStatus := local;
     Transaction.deleted := Transaction.deleted txn |}.

Definition reassign_one (reassignedCategoryId : string) (w : World)
  (key : string) : World :=
  let '(t, w1) := now env w in
  set_transactions (alter (reassigned reassignedCategoryId t) key) w1.

(** [realm.objects(Transaction).filtered('categoryId == $0', id)] *)
Definition affected (id : string) (w : World) : gmap string Transaction.t :=
  filter (fun kv => Transaction.categoryId (snd kv) = id) (transactions w).

Definition deleteCategory (id : string) (reassignedCategoryId : option string)
  (w : World) : bool * World :=
  match categories w !! id with
  | None => (false, w)
  | Some _ =>
      let w1 :=
        match reassignedCategoryId with
        | Some r =>
            if truthy reassignedCategoryId
            then foldl (reassign_one r) w
                       (map fst (map_to_list (affected id w)))
            else w
        | None => w
        end in
      (true, set_categories (delete id) w1)
  end.

End WithEnv.
End Repository.

(** ** Category service ([app/services/categories.ts]) *)

Module CategoriesService.
Import Schemas Runtime Repository.

Record DefaultCategory := {
  default_id : string;
  default_name : string;
  default_icon : string
}.

Definition DEFAULT_CATEGORIES : list DefaultCategory :=
  [ {| default_id := "cat-food"; default_name := "Food & Drink";
       default_icon := "fast-food-outline" |};
    {| default_id := "cat-transport"; default_name := "Transport";
       default_icon := "bus-outline" |};
    {| default_id := "cat-entertainment"; default_name := "Entertainment";
       default_icon := "game-controller-outline" |};
    {| default_id := "cat-school"; default_name := "School";
       default_icon := "book-outline" |};
    {| default_id := "cat-shopping"; default_name := "Shopping";
       default_icon := "cart-outline" |};
    {| default_id := "cat-other"; default_name := "Other";
       default_icon := "apps-outline" |} ].

Section WithEnv.
Variable env : Env.

(** The body of the [forEach] of the seeding effect: the category is
    created only when no object has its id. *)
Definition seed_one (w : World) (category : DefaultCategory) : World :=
  match categories w !! default_id category with
  | Some _ => w
  | None =>
      let '(createdAt, w1) := now env w in
      let '(updatedAt, w2) := now env w1 in
      set_categories
        (insert (default_id category)
           {| Category.id := default_id category;
              Category.name := default_name category;
              Category.icon := default_icon category;
              Category.userDefined := false;
              Category.createdAt := createdAt;
              Category.updatedAt := updatedAt |})
        w2
  end.

(** The seeding effect of [useCategoriesService]: [seededRef] is the
    flag of the hook instance, returned as the effect leaves it. *)
Definition seeding_effect (seededRef : bool) (w : World) : bool * World :=
  if seededRef then (seededRef, w)
  else (true, foldl seed_one w DEFAULT_CATEGORIES).

Definition getTransactionCount (categoryId : string) (w : World) : nat :=
  size (filter (fun kv => Transaction.categoryId (snd kv) = categoryId
                          /\ Transaction.deleted (snd kv) = false)
               (transactions w)).

Definition addCategory (name icon : string) (w : World) : string * World :=
  let '(id, w1) := generateId env w in
  let '(_, w2) :=
    upsertCategory env
      {| CategoryDraft.id := Some id; CategoryDraft.name := name;
         CategoryDraft.icon := icon; CategoryDraft.userDefined := Some true;
         CategoryDraft.createdAt := None; CategoryDraft.updatedAt := None |}
      w1 in
  (id, w2).

Definition renameCategory (id name : string) (w : World) : bool * World :=
  match categories w !! id with
  | None => (false, w)
  | Some existing =>
      let '(_, w1) :=
        upsertCategory env
          {| CategoryDraft.id := Some id; CategoryDraft.name := name;
             CategoryDraft.icon := Category.icon existing;
             CategoryDraft.userDefined := Some (Category.userDefined existing);
             CategoryDraft.createdAt := Some (Category.createdAt existing);
             CategoryDraft.updatedAt := None |}
          w in
      (true, w1)
  end.

Definition removeCategory (id : string) (replacementId : option string)
  (w : World) : bool * World :=
  deleteCategory env id replacementId w.

End WithEnv.
End CategoriesService.

(** ** The category screen ([ManageCategoriesScreen]): the handler of the
    confirmation of a deletion *)

Module ManageCategoriesScreen.
Import Schemas Runtime Repository CategoriesService.

Record DeleteState := {
  delete_id : string;
  delete_name : string;
  delete_count : nat
}.

(** [handleConfirmDelete] with the [deleteState] and [replacementId] of
    the screen: the message it sets in [deleteError], if any, and the
    resulting store. *)
Definition handleConfirmDelete (env : Env) (deleteState : option DeleteState)
  (replacementId : option string) (w : World) : option string * World :=
  match deleteState with
  | None => (None, w)
  | Some ds =>
      if (0 <? delete_count ds)%nat && negb (truthy replacementId)
      then (Some "Select a replacement category", w)
      else (None, snd (removeCategory env (delete_id ds) replacementId w))
  end.

End ManageCategoriesScreen.

(** ** Transaction service ([app/services/transactions.ts]) *)

Module TransactionsService.
Import Schemas Runtime Repository.

(** [transactions.filtered('deleted == false')] *)
Definition activeTransactions (w : World) : gmap string Transaction.t :=
  filter (fun kv => Transaction.deleted (snd kv) = false) (transactions w).

(** [.sum('amountCents')] *)
Definition sum_amountCents (source : gmap string Transaction.t) : Z :=
  map_fold (fun _ txn acc => Transaction.amountCents txn + acc) 0 source.

Definition of_type (ty : TransactionType) (source : gmap string Transaction.t)
  : gmap string Transaction.t :=
  filter (fun kv => Transaction.type (snd kv) = ty) source.

(** The aggregates take an optional collection, the active transactions
    by default. *)
Definition totalIncomeCents (source : option (gmap string Transaction.t))
  (w : World) : Z :=
  sum_amountCents (of_type income (default (activeTransactions w) source)).

Definition totalExpenseCents (source : option (gmap string Transaction.t))
  (w : World) : Z :=
  sum_amountCents (of_type expense (default (activeTransactions w) source)).

Definition remainingBalanceCents (source : option (gmap string Transaction.t))
  (w : World) : Z :=
  let source := default (activeTransactions w) source in
  totalIncomeCents (Some source) w - totalExpenseCents (Some source) w.

Definition markDeleted (env : Env) (id : string) (w : World) : bool * World :=
  softDeleteTransaction env id w.

Definition removePermanently (id : string) (w : World) : bool * World :=
  purgeTransaction id w.

(** [realm.objectForPrimaryKey(Transaction, id)] *)
Definition getTransactionById (id : string) (w : World)
  : option Transaction.t :=
  transactions w !! id.

End TransactionsService.

(** ** Calls that may throw

    A computation runs on the [World] and completes with a value or with a
    thrown value; what it did to the world before throwing stays done.
    An [await] of a call to the remote records the request and completes
    as the backend says. *)

Module Control.
Import Supabase Runtime.

Definition M (A : Type) : Type := World -> completion A * World.

Definition ret {A} (a : A) : M A := fun w => (Returns a, w).

Definition bind {A B} (m : M A) (k : A -> M B) : M B :=
  fun w =>
    match m w with
    | (Returns a, w1) => k a w1
    | (Throws e, w1) => (Throws e, w1)
    end.

Definition try_catch {A} (body : M A) (handler : thrown -> M A) : M A :=
  fun w =>
    match body w with
    | (Returns a, w1) => (Returns a, w1)
    | (Throws e, w1) => handler e w1
    end.

Definition lift {A} (f : World -> A * World) : M A :=
  fun w => let '(a, w1) := f w in (Returns a, w1).

Definition await {A} (r : Request) (answer : list Request -> completion A)
  : M A :=
  fun w => (answer (requests w), sent r w).

Declare Scope control_scope.
Delimit Scope control_scope with control.
Notation "'let!' x ':=' m 'in' k" := (bind m (fun x => k))
  (at level 10, x name, m at level 100, k at level 200) : control_scope.
Notation "'run!' m 'in' k" := (bind m (fun _ => k))
  (at level 10, m at level 100, k at level 200) : control_scope.

End Control.

(** ** Synchronisation engine ([app/services/supabaseSync.ts]) *)

Module SupabaseSync.
Import Schemas Supabase Runtime Repository Control.
Local Open Scope control_scope.

Record SyncResult := { success : bool; error : option string }.

Definition succeeded : SyncResult := {| success := true; error := None |}.
Definition failed (msg : string) : SyncResult :=
  {| success := false; error := Some msg |}.

(** The payload of a change event of the realtime channel. *)
Inductive EventType := INSERT | UPDATE | DELETE.

Record Payload (R : Type) := { eventType : EventType; new : R }.
Arguments eventType {R} _.
Arguments new {R} _.

(** [error instanceof Error ? error.message : fallback] *)
Definition message_or (fallback : string) (e : thrown) : string :=
  match e with
  | ErrorObject msg => msg
  | OtherValue => fallback
  end.

Section WithEnv.
Variable env : Env.

Definition getUser : M (option User) :=
  await GetUser (auth_getUser (backend env)).

(** The row pushed for a local transaction; a tombstone reads the clock
    for its [deleted_at]. *)
Definition transaction_payload (user : User) (txn : Transaction.t) (w : World)
  : TransactionPayload.t * World :=
  let '(deleted_at, w1) :=
    if Transaction.deleted txn
    then let '(t, w1) := now env w in (Some t, w1)
    else (None, w) in
  ({| TransactionPayload.id := Transaction.id txn;
      TransactionPayload.user_id := uid user;
      TransactionPayload.type := Transaction.type txn;
      TransactionPayload.amount_cents := Transaction.amountCents txn;
      TransactionPayload.category_id := Transaction.categoryId txn;
      TransactionPayload.timestamp := Transaction.timestamp txn;
      TransactionPayload.deleted_at := deleted_at;
      TransactionPayload.updated_at := Transaction.updatedAt txn |},
   w1).

Fixpoint transaction_payloads (user : User) (txns : list Transaction.t)
  (w : World) : list TransactionPayload.t * World :=
  match txns with
  | [] => ([], w)
  | txn :: rest =>
      let '(p, w1) := transaction_payload user txn w in
      let '(ps, w2) := transaction_payloads user rest w1 in
      (p :: ps, w2)
  end.

Definition pushTransactions : M SyncResult :=
  fun w0 =>
  try_catch
    (let! user := getUser in
     match user with
     | None => ret (failed "Not authenticated")
     | Some user =>
         let! localTransactions :=
           lift (fun w => transaction_payloads user (orderedTransactions w) w) in
         let! reply := await (UpsertTransactions localTransactions)
                        (fun sent_before =>
                           upsert_transactions (backend env) sent_before
                                               localTransactions) in
         match upsert_error reply with
         | Some msg => ret (failed msg)
         | None => ret succeeded
         end
     end)
    (fun e => ret (failed (message_or "Failed to sync transactions" e)))
    (enter PushTransactions w0).

(** The draft a remote transaction row is applied with. *)
Definition transaction_draft_of_row (txn : TransactionRow.t)
  : TransactionDraft.t :=
  {| TransactionDraft.id := Some (TransactionRow.id txn);
     TransactionDraft.type := TransactionRow.type txn;
     TransactionDraft.amountCents := TransactionRow.amount_cents txn;
     TransactionDraft.categoryId := TransactionRow.category_id txn;
     TransactionDraft.timestamp := TransactionRow.timestamp txn;
     TransactionDraft.syncStatus := Some synced;
     TransactionDraft.deleted :=
       Some (bool_decide (TransactionRow.deleted_at txn <> None)) |}.

Definition apply_transaction_row (w : World) (txn : TransactionRow.t) : World :=
  snd (upsertTransaction env (transaction_draft_of_row txn) w).

(** The query of [pullTransactions]: the rows of the user, and with
    [since] those updated after it. *)
Definition transactions_query (user : User) (since : option Z) : Query :=
  {| table := "transactions";
     filters :=
       eq "user_id" (uid user)
       :: match since with
          | Some t => [gt "updated_at" t]
          | None => []
          end |}.

Definition pullTransactions (since : option Z) : M SyncResult :=
  fun w0 =>
  try_catch
    (let! user := getUser in
     match user with
     | None => ret (failed "Not authenticated")
     | Some user =>
         let query := transactions_query user since in
         let! reply := await (Select query)
                        (fun sent_before =>
                           select_transactions (backend env) sent_before query) in
         match select_error reply with
         | Some msg => ret (failed msg)
         | None =>
             run! lift (fun w =>
                     (tt, foldl apply_transaction_row w
                                (default [] (data reply)))) in
             ret succeeded
         end
     end)
    (fun e => ret (failed (message_or "Failed to sync transactions" e)))
    (enter PullTransactions w0).

Definition category_payload (user : User) (cat : Category.t)
  : CategoryPayload.t :=
  {| CategoryPayload.id := Category.id cat;
     CategoryPayload.user_id := uid user;
     CategoryPayload.name := Category.name cat;
     CategoryPayload.icon := Category.icon cat;
     CategoryPayload.deleted_at := None;
     CategoryPayload.updated_at := Category.updatedAt cat |}.

Definition pushCategories : M SyncResult :=
  fun w0 =>
  try_catch
    (let! user := getUser in
     match user with
     | None => ret (failed "Not authenticated")
     | Some user =>
         let! localCategories :=
           lift (fun w =>
                   (map (category_payload user)
                        (filter (fun cat => Category.userDefined cat = true)
                                (orderedCategories w)),
                    w)) in
         match localCategories with
         | [] => ret succeeded
         | _ =>
             let! reply := await (UpsertCategories localCategories)
                            (fun sent_before =>
                               upsert_categories (backend env) sent_before
                                                 localCategories) in
             match upsert_error reply with
             | Some msg => ret (failed msg)
             | None => ret succeeded
             end
         end
     end)
    (fun e => ret (failed (message_or "Failed to sync categories" e)))
    (enter PushCategories w0).

(** The draft a remote category row is applied with. *)
Definition category_draft_of_row (cat : CategoryRow.t) : CategoryDraft.t :=
  {| CategoryDraft.id := Some (CategoryRow.id cat);
     CategoryDraft.name := CategoryRow.name cat;
     CategoryDraft.icon := CategoryRow.icon cat;
     CategoryDraft.userDefined := Some true;
     CategoryDraft.createdAt := Some (CategoryRow.created_at cat);
     CategoryDraft.updatedAt := Some (CategoryRow.updated_at cat) |}.

Definition apply_category_row (w : World) (cat : CategoryRow.t) : World :=
  snd (upsertCategory env (category_draft_of_row cat) w).

Definition categories_query (user : User) : Query :=
  {| table := "categories";
     filters := [eq "user_id" (uid user); is_null "deleted_at"] |}.

Definition pullCategories : M SyncResult :=
  fun w0 =>
  try_catch
    (let! user := getUser in
     match user with
     | None => ret (failed "Not authenticated")
     | Some user =>
         let query := categories_query user in
         let! reply := await (Select query)
                        (fun sent_before =>
                           select_categories (backend env) sent_before query) in
         match select_error reply with
         | Some msg => ret (failed msg)
         | None =>
             run! lift (fun w =>
                     (tt, foldl apply_category_row w
                                (default [] (data reply)))) in
             ret succeeded
         end
     end)
    (fun e => ret (failed (message_or "Failed to sync categories" e)))
    (enter PullCategories w0).

(** [syncAll(isInitialSync = false, lastSyncAt?)] *)
Definition syncAll (isInitialSync : bool) (lastSyncAt : option Z)
  : M SyncResult :=
  let since := if negb isInitialSync then lastSyncAt else None in
  let! categoriesResult := pullCategories in
  if negb (success categoriesResult) then ret categoriesResult
  else
    let! transactionsResult := pullTransactions since in
    if negb (success transactionsResult) then ret transactionsResult
    else
      let! pushCategoriesResult := pushCategories in
      if negb (success pushCategoriesResult) then ret pushCategoriesResult
      else
        let! pushTransactionsResult := pushTransactions in
        ret pushTransactionsResult.

(** The handlers [setupRealtimeSync] registers for the two tables. *)
Definition on_transaction_change (payload : Payload TransactionRow.t)
  (w : World) : World :=
  match eventType payload with
  | INSERT | UPDATE => apply_transaction_row w (new payload)
  | DELETE => w
  end.

Definition on_category_change (payload : Payload CategoryRow.t)
  (w : World) : World :=
  match eventType payload with
  | INSERT | UPDATE => apply_category_row w (new payload)
  | DELETE => w
  end.

End WithEnv.
End SupabaseSync.

(** ** [Date.prototype.getDate] and [Date.prototype.setDate]

    The two methods of [Date] the maintenance job calls, as ECMAScript
    defines them: time values are milliseconds since the epoch, the
    calendar is the proleptic Gregorian one, and local time is the time
    value moved by the offset of the zone.  Time values stay within the
    range of valid dates, so that [TimeClip] changes nothing. *)

Module JSDate.

Definition msPerDay : Z := 86400000.

Definition Day (t : Z) : Z := t / msPerDay.
Definition TimeWithinDay (t : Z) : Z := t mod msPerDay.

Definition DaysInYear (y : Z) : Z :=
  if negb (y mod 4 =? 0) then 365
  else if negb (y mod 100 =? 0) then 366
  else if negb (y mod 400 =? 0) then 365
  else 366.

Definition DayFromYear (y : Z) : Z :=
  365 * (y - 1970) + (y - 1969) / 4 - (y - 1901) / 100 + (y - 1601) / 400.

(** The largest year that starts on or before [day], looked for upwards
    from a year that does. *)
Fixpoint year_from (fuel : nat) (y : Z) (day : Z) : Z :=
  if DayFromYear (y + 1) <=? day then
    match fuel with
    | S fuel => year_from fuel (y + 1) day
    | O => y
    end
  else y.

Definition YearFromTime (t : Z) : Z :=
  let day := Day t in
  let start := 1970 + (if 0 <=? day then day / 366 else day / 365) in
  year_from (Z.to_nat (Z.abs day / 100000 + 3)) start day.

Definition InLeapYear (t : Z) : Z :=
  if DaysInYear (YearFromTime t) =? 366 then 1 else 0.

Definition DayWithinYear (t : Z) : Z := Day t - DayFromYear (YearFromTime t).

Definition MonthFromTime (t : Z) : Z :=
  let d := DayWithinYear t in
  let leap := InLeapYear t in
  if d <? 31 then 0
  else if d <? 59 + leap then 1
  else if d <? 90 + leap then 2
  else if d <? 120 + leap then 3
  else if d <? 151 + leap then 4
  else if d <? 181 + leap then 5
  else if d <? 212 + leap then 6
  else if d <? 243 + leap then 7
  else if d <? 273 + leap then 8
  else if d <? 304 + leap then 9
  else if d <? 334 + leap then 10
  else 11.

Definition DateFromTime (t : Z) : Z :=
  let d := DayWithinYear t in
  let leap := InLeapYear t in
  match MonthFromTime t with
  | 0 => d + 1
  | 1 => d - 30
  | 2 => d - 58 - leap
  | 3 => d - 89 - leap
  | 4 => d - 119 - leap
  | 5 => d - 150 - leap
  | 6 => d - 180 - leap
  | 7 => d - 211 - leap
  | 8 => d - 242 - leap
  | 9 => d - 272 - leap
  | 10 => d - 303 - leap
  | _ => d - 333 - leap
  end.

(** The day number of the first day of month [mn] of year [ym]. *)
Definition first_of_month (ym mn : Z) : Z :=
  let leap := if DaysInYear ym =? 366 then 1 else 0 in
  DayFromYear ym
  + match mn with
    | 0 => 0
    | 1 => 31
    | 2 => 59 + leap
    | 3 => 90 + leap
    | 4 => 120 + leap
    | 5 => 151 + leap
    | 6 => 181 + leap
    | 7 => 212 + leap
    | 8 => 243 + leap
    | 9 => 273 + leap
    | 10 => 304 + leap
    | _ => 334 + leap
    end.

(** [MakeDay]: the date may lie outside the month, and then counts on
    from its first day into the months before or after. *)
Definition MakeDay (year month date : Z) : Z :=
  let ym := year + month / 12 in
  let mn := month mod 12 in
  first_of_month ym mn + date - 1.

Definition MakeDate (day time : Z) : Z := day * msPerDay + time.

Section Zone.
Variable LocalTZA : Z -> bool -> Z.

Definition LocalTime (t : Z) : Z := t + LocalTZA t true.
Definition UTC (t : Z) : Z := t - LocalTZA t false.

(** [d.getDate()] *)
Definition getDate (t : Z) : Z := DateFromTime (LocalTime t).

(** [d.setDate(date)]: the time value [d] holds afterwards. *)
Definition setDate (date : Z) (t : Z) : Z :=
  let t := LocalTime t in
  let newDate :=
    MakeDate (MakeDay (YearFromTime t) (MonthFromTime t) date)
             (TimeWithinDay t) in
  UTC newDate.

End Zone.
End JSDate.

(** ** Maintenance job ([app/services/maintenance.ts])

    The configuration object is a parameter, so that both settings of the
    feature flag can be examined; [MAINTENANCE_CONFIG] is the one the
    module is shipped with. *)

Module Maintenance.
Import Schemas Supabase Runtime Repository Control.
Local Open Scope control_scope.

Record Config := {
  ENABLE_TOMBSTONE_PURGE : bool;
  TOMBSTONE_RETENTION_DAYS : Z;
  PURGE_BATCH_SIZE : nat;
  PURGE_INTERVAL_DAYS : Z
}.


Section WithEnv.
Variable env : Env.
Variable config : Config.

(** [retentionThreshold], from the reading [today] of [new Date()]:
    [retentionThreshold.setDate(retentionThreshold.getDate() - retentionDays)]
    in the time zone of the host. *)
Definition retentionThreshold (retentionDays : Z) (today : Z) : Z :=
  JSDate.setDate (localTZA env)
    (JSDate.getDate (localTZA env) today - retentionDays) today.

Definition isTombstoneEligibleForPurge (transaction : Transaction.t)
  (retentionDays : option Z) (w : World) : bool * World :=
  let retentionDays := default (TOMBSTONE_RETENTION_DAYS config) retentionDays in
  if negb (Transaction.deleted transaction) then (false, w)
  else if negb (bool_decide (Transaction.syncStatus transaction = synced))
  then (false, w)
  else
    let '(today, w1) := now env w in
    (Transaction.updatedAt transaction <? retentionThreshold retentionDays today,
     w1).

(** [allTransactions.filtered('deleted == true AND syncStatus == "synced"')] *)
Definition deletedTransactions (w : World) : gmap string Transaction.t :=
  filter (fun kv => Transaction.deleted (snd kv) = true
                    /\ Transaction.syncStatus (snd kv) = synced)
         (transactions w).

(** The first loop of the write: the eligible tombstones are collected
    until the batch is full. *)
Fixpoint collect (pending : list (string * Transaction.t))
  (toPurge : list string) (w : World) : list string * World :=
  match pending with
  | [] => (toPurge, w)
  | (key, transaction) :: rest =>
      let '(eligible, w1) := isTombstoneEligibleForPurge transaction None w in
      if eligible then
        let toPurge := (toPurge ++ [key])%list in
        if (PURGE_BATCH_SIZE config <=? length toPurge)%nat
        then (toPurge, w1)
        else collect rest toPurge w1
      else collect rest toPurge w1
  end.

(** The second loop: each collected object is deleted and counted. *)
Definition delete_counted (state : Z * World) (key : string) : Z * World :=
  (fst state + 1, set_transactions (delete key) (snd state)).

(** No step of the body throws in this model, so the handler of the
    [try] is never entered; it returns the count reached, which is then
    still 0. *)
Definition purgeOldTombstones : M Z :=
  if negb (ENABLE_TOMBSTONE_PURGE config) then ret 0
  else
    try_catch
      (lift (fun w =>
               let '(toPurge, w1) :=
                 collect (map_to_list (deletedTransactions w)) [] w in
               foldl delete_counted (0, w1) toPurge))
      (fun _ => ret 0).

End WithEnv.
End Maintenance.

(** ** Rows of [categories] a query asks for *)

Module RemoteQueries.
Import Schemas Supabase.

Definition category_cell (column : string) (r : CategoryRow.t) : option cell :=
  if String.eqb column "id" then Some (Text (CategoryRow.id r))
  else if String.eqb column "user_id" then Some (Text (CategoryRow.user_id r))
  else if String.eqb column "name" then Some (Text (CategoryRow.name r))
  else if String.eqb column "icon" then Some (Text (CategoryRow.icon r))
  else if String.eqb column "deleted_at" then Some (time_or_null (CategoryRow.deleted_at r))
  else if String.eqb column "created_at" then Some (Time (CategoryRow.created_at r))
  else if String.eqb column "updated_at" then Some (Time (CategoryRow.updated_at r))
  else None.

Definition category_passes (f : query_filter) (r : CategoryRow.t) : bool :=
  cell_passes f (category_cell (filter_column f) r).

Definition requests_category (q : Query) (r : CategoryRow.t) : bool :=
  String.eqb (table q) "categories"
  && forallb (fun f => category_passes f r) (filters q).

End RemoteQueries.

(** ** Preferences ([app/db/realmSchemas.ts], [usePreferences] of
    [app/db/repository.ts])

    The Realm also holds the [Preferences] singleton, kept here beside the
    two tables.  The functions of the hook close over [preferences], the
    object the hook read when the component rendered; it is the argument
    [snapshot].  [realm.create] without an update mode throws when the
    primary key is taken, and a write whose callback throws is
    cancelled. *)

Module PreferencesStore.
Import Schemas Supabase Runtime.

Inductive Theme := light | dark.

Module Preferences.
Record t := mk {
  id : string;
  theme : Theme;
  dashboardPeriod : string;
  currency : string;
  lastOpenedAt : Z;
  lastSyncAt : option Z;
  syncToken : option string
}.
End Preferences.

Record App := {
  world : World;
  preferences : option Preferences.t
}.

(** [Partial<{ currency, theme, lastSyncAt, syncToken }>]: an absent key
    is [None], and [lastSyncAt] and [syncToken] can be given as null. *)
Record Updates := {
  u_currency : option string;
  u_theme : option Theme;
  u_lastSyncAt : option (option Z);
  u_syncToken : option (option string)
}.

Definition set_lastOpenedAt (t : Z) (p : Preferences.t) : Preferences.t :=
  {| Preferences.id := Preferences.id p;
     Preferences.theme := Preferences.theme p;
     Preferences.dashboardPeriod := Preferences.dashboardPeriod p;
     Preferences.currency := Preferences.currency p;
     Preferences.lastOpenedAt := t;
     Preferences.lastSyncAt := Preferences.lastSyncAt p;
     Preferences.syncToken := Preferences.syncToken p |}.

Definition apply_updates (updates : Updates) (t : Z) (p : Preferences.t)
  : Preferences.t :=
  {| Preferences.id := Preferences.id p;
     Preferences.theme := default (Preferences.theme p) (u_theme updates);
     Preferences.dashboardPeriod := Preferences.dashboardPeriod p;
     Preferences.currency :=
       default (Preferences.currency p) (u_currency updates);
     Preferences.lastOpenedAt := t;
     Preferences.lastSyncAt :=
       default (Preferences.lastSyncAt p) (u_lastSyncAt updates);
     Preferences.syncToken :=
       default (Preferences.syncToken p) (u_syncToken updates) |}.

Section WithEnv.
Variable env : Env.

Definition ensurePreferences (snapshot : option Preferences.t) (a : App)
  : completion unit * App :=
  match snapshot with
  | Some _ => (Returns tt, a)
  | None =>
      let '(t, w1) := now env (world a) in
      match preferences a with
      | Some existing =>
          (Throws (ErrorObject
                     "Attempting to create an object of type 'Preferences' with an existing primary key value"),
           {| world := w1; preferences := Some existing |})
      | None =>
          (Returns tt,
           {| world := w1;
              preferences :=
                Some {| Preferences.id := "preferences";
                        Preferences.theme := light;
                        Preferences.dashboardPeriod := "month-to-date";
                        Preferences.currency := "USD";
                        Preferences.lastOpenedAt := t;
                        Preferences.lastSyncAt := None;
                        Preferences.syncToken := None |} |})
      end
  end.

(** The three writers share their shape: [ensurePreferences], the lookup
    of the singleton, and a write that ends by reading the clock for
    [lastOpenedAt]. *)
Definition setTheme (theme : Theme) (snapshot : option Preferences.t) (a : App)
  : completion unit * App :=
  match ensurePreferences snapshot a with
  | (Throws e, a1) => (Throws e, a1)
  | (Returns _, a1) =>
      match preferences a1 with
      | None => (Returns tt, a1)
      | Some prefs =>
          let '(t, w2) := now env (world a1) in
          (Returns tt,
           {| world := w2;
              preferences :=
                Some (apply_updates
                        {| u_currency := None; u_theme := Some theme;
                           u_lastSyncAt := None; u_syncToken := None |}
                        t prefs) |})
      end
  end.

Definition touchLastOpened (snapshot : option Preferences.t) (a : App)
  : completion unit * App :=
  match ensurePreferences snapshot a with
  | (Throws e, a1) => (Throws e, a1)
  | (Returns _, a1) =>
      match preferences a1 with
      | None => (Returns tt, a1)
      | Some prefs =>
          let '(t, w2) := now env (world a1) in
          (Returns tt,
           {| world := w2; preferences := Some (set_lastOpenedAt t prefs) |})
      end
  end.

Definition updatePreferences (updates : Updates)
  (snapshot : option Preferences.t) (a : App) : completion unit * App :=
  match ensurePreferences snapshot a with
  | (Throws e, a1) => (Throws e, a1)
  | (Returns _, a1) =>
      match preferences a1 with
      | None => (Returns tt, a1)
      | Some prefs =>
          let '(t, w2) := now env (world a1) in
          (Returns tt,
           {| world := w2;
              preferences := Some (apply_updates updates t prefs) |})
      end
  end.

End WithEnv.
End PreferencesStore.

(** ** The account screen ([app/screens/AccountScreen.tsx]): [handleSync] *)

Module AccountScreen.
Import Schemas Supabase Runtime Control SupabaseSync PreferencesStore.

(** [preferences?.lastSyncAt || null], as the render read it. *)
Definition lastSyncTime (snapshot : option Preferences.t) : option Z :=
  match snapshot with
  | Some p => Preferences.lastSyncAt p
  | None => None
  end.

(** [result.error || 'Sync failed'] *)
Definition error_or_default (error : option string) : string :=
  match error with
  | Some (String c s) => String c s
  | _ => "Sync failed"
  end.

(** [handleSync(isInitialSync = false)]: the [syncError] it leaves on the
    screen, and the store. *)
Definition handleSync (env : Env) (snapshot : option Preferences.t)
  (isInitialSync : bool) (a : App) : completion (option string) * App :=
  let lastSync := lastSyncTime snapshot in
  match syncAll env isInitialSync lastSync (world a) with
  | (Throws e, w1) => (Throws e, {| world := w1; preferences := preferences a |})
  | (Returns result, w1) =>
      if success result then
        let '(finished, w2) := now env w1 in
        match updatePreferences env
                {| u_currency := None; u_theme := None;
                   u_lastSyncAt := Some (Some finished);
                   u_syncToken := None |}
                snapshot {| world := w2; preferences := preferences a |} with
        | (Throws e, a3) => (Throws e, a3)
        | (Returns _, a3) => (Returns None, a3)
        end
      else
        (Returns (Some (error_or_default (error result))),
         {| world := w1; preferences := preferences a |})
  end.

End AccountScreen.

(** ** Saving a transaction ([saveTransaction] of
    [app/services/transactions.ts]) *)

Module TransactionEntry.
Import Float64 Schemas Supabase Runtime Repository Validation.

Record TransactionInput := {
  input_id : option string;
  input_type : TransactionType;
  input_amount : value;
  input_categoryId : string;
  input_timestamp : option Z
}.

Section WithEnv.
(** The UUID pattern and the date parser of the validation layer, and
    the way Realm stores a number in an [int] property: the integer
    stored, or the message of the error it throws when it refuses the
    number. *)
Variable is_uuid : string -> bool.
Variable Date_parse : string -> option Z.
Variable realm_int : number -> string + Z.
Variable env : Env.

(** The outcome is the id, or what [validateTransactionDraft] or the
    write threw; [syncCallback] is the callback registered in
    [syncCallbackRef], if any. *)
Definition saveTransaction (input : TransactionInput)
  (syncCallback : option (World -> World)) (w : World)
  : outcome string * World :=
  let '(timestamp, w1) :=
    match input_timestamp input with
    | Some t => (t, w)
    | None => now env w
    end in
  match validateTransactionDraft is_uuid Date_parse timestamp
          {| raw_id := match input_id input with
                       | Some i => Str i
                       | None => Undefined
                       end;
             raw_type := Str (type_name (input_type input));
             raw_amount := input_amount input;
             raw_categoryId := Str (input_categoryId input);
             raw_timestamp := DateObj (Some timestamp) |} with
  | ZodError issues => (ZodError issues, w1)
  | Threw msg => (Threw msg, w1)
  | Valid transactionPayload =>
      let '(id, w2) :=
        match Validation.id transactionPayload with
        | Some i => (i, w1)
        | None => generateId env w1
        end in
      match realm_int (Validation.amountCents transactionPayload) with
      | inl msg => (Threw msg, snd (now env w2))
      | inr cents =>
          let '(_, w3) :=
            upsertTransaction env
              {| TransactionDraft.id := Some id;
                 TransactionDraft.type := Validation.type transactionPayload;
                 TransactionDraft.amountCents := cents;
                 TransactionDraft.categoryId :=
                   Validation.categoryId transactionPayload;
                 TransactionDraft.timestamp :=
                   Validation.timestamp transactionPayload;
                 TransactionDraft.syncStatus := Some local;
                 TransactionDraft.deleted := Some false |}
              w2 in
          (Valid id,
           match syncCallback with
           | Some callback => callback w3
           | None => w3
           end)
      end
  end.

End WithEnv.
End TransactionEntry.

(** ** The transaction modal ([app/components/TransactionModal.tsx]): the
    amount field *)

Module TransactionModal.
Import Float64.

(** [getAmountCents].  The field holds what [handleAmountChange] or
    [toFixed(2)] wrote, strings over digits, period and minus, on which
    [parseFloat] is as modelled. *)
Definition getAmountCents (amount : string) : number :=
  let normalized := parseFloat amount in
  if isNaN normalized then S754_zero false
  else round (mul normalized lit_100).

(** [text.replace(/[^0-9.]/g, '')] *)
Fixpoint keep_digits_and_dots (text : string) : string :=
  match text with
  | String c r =>
      if is_digit c || Ascii.eqb c "."
      then String c (keep_digits_and_dots r)
      else keep_digits_and_dots r
  | EmptyString => EmptyString
  end.

(** [sanitized.split('.')], as the list of its parts. *)
Fixpoint split_dots (s : string) : list string :=
  match s with
  | EmptyString => [EmptyString]
  | String c r =>
      if Ascii.eqb c "." then EmptyString :: split_dots r
      else
        match split_dots r with
        | part :: parts => String c part :: parts
        | [] => [String c EmptyString]
        end
  end.

(** [sanitized.replace(/^0+/, '')] *)
Fixpoint strip_leading_zeros (s : string) : string :=
  match s with
  | String c r => if Ascii.eqb c "0" then strip_leading_zeros r else s
  | EmptyString => s
  end.

(** The removal of the leading zeros, made when the text has more than
    one character, starts with a zero and does not go on with a period. *)
Definition drop_leading_zeros (sanitized : string) : string :=
  match sanitized with
  | String c0 (String c1 _) =>
      if Ascii.eqb c0 "0" && negb (Ascii.eqb c1 ".")
      then strip_leading_zeros sanitized
      else sanitized
  | _ => sanitized
  end.

(** [handleAmountChange]: the amount it sets, or [None] when it returns
    without setting one. *)
Definition handleAmountChange (text : string) : option string :=
  let sanitized := keep_digits_and_dots text in
  let parts := split_dots sanitized in
  if (2 <? length parts)%nat then None
  else if (length parts =? 2)%nat
          && (2 <? String.length (nth 1 parts EmptyString))%nat
  then None
  else
    match drop_leading_zeros sanitized with
    | EmptyString => Some "0"
    | sanitized => Some sanitized
    end.

End TransactionModal.

(** ** Maintenance statistics ([getMaintenanceStats] of
    [app/services/maintenance.ts]) *)

Module MaintenanceStats.
Import Schemas Supabase Runtime Maintenance.

Record Stats := {
  totalTransactions : nat;
  tombstones : nat;
  syncedTombstones : nat;
  eligibleForPurge : nat;
  purgeEnabled : bool;
  retentionDays : Z
}.

Section WithEnv.
Variable env : Env.
Variable config : Config.

(** The loop that counts the synced tombstones eligible for the purge. *)
Fixpoint count_eligible (pending : list (string * Transaction.t))
  (eligibleForPurge : nat) (w : World) : nat * World :=
  match pending with
  | [] => (eligibleForPurge, w)
  | (_, transaction) :: rest =>
      let '(eligible, w1) :=
        isTombstoneEligibleForPurge env config transaction None w in
      count_eligible rest
        (if eligible then S eligibleForPurge else eligibleForPurge) w1
  end.

Definition getMaintenanceStats (w : World) : Stats * World :=
  let allTransactions := transactions w in
  let tombstones :=
    filter (fun kv => Transaction.deleted (snd kv) = true) allTransactions in
  let syncedTombstones := deletedTransactions w in
  let '(eligibleForPurge, w1) :=
    count_eligible (map_to_list syncedTombstones) 0%nat w in
  ({| totalTransactions := size allTransactions;
      tombstones := size tombstones;
      syncedTombstones := size syncedTombstones;
      eligibleForPurge := eligibleForPurge;
      purgeEnabled := ENABLE_TOMBSTONE_PURGE config;
      retentionDays := TOMBSTONE_RETENTION_DAYS config |},
   w1).

End WithEnv.
End MaintenanceStats.

(** ** Decimal writings, used to state what an amount string denotes *)

Module Decimal.
Import Float64.

Fixpoint all_digits (s : string) : bool :=
  match s with
  | String c r => is_digit c && all_digits r
  | EmptyString => true
  end.

(** How an amount is written: digits, then possibly a separator and the
    digits of the fraction. *)
Definition written (ip : string) (frac : option (ascii * string)) : string :=
  match frac with
  | Some (sep, fp) => ip ++ String sep fp
  | None => ip
  end.

(** The binary64 number nearest to the decimal so written. *)
Definition decimal_value (ip : string) (frac : option (ascii * string))
  : number :=
  let fp := match frac with Some (_, fp) => fp | None => EmptyString end in
  of_ratio false (digits_value 0 (ip ++ fp))
           (10 ^ Z.of_nat (String.length fp)).

(** The integer the validation makes of an amount, when it accepts it. *)
Definition validated_cents (v : Validation.value) : option Z :=
  match Validation.amountInputSchema v with
  | inr cents => to_Z cents
  | inl _ => None
  end.

Definition well_written (ip : string) (frac : option (ascii * string)) : Prop :=
  all_digits ip = true /\ ip <> EmptyString
  /\ match frac with
     | Some (sep, fp) => (sep = "."%char \/ sep = ","%char) /\ all_digits fp = true
     | None => True
     end.

End Decimal.

(** ** Vocabulary of the statements about the synchronisation engine *)

Module SyncVocabulary.
Import Schemas Supabase Runtime Control SupabaseSync.

(** The record a remote transaction row is stored as, with the reading
    of the clock taken for [updatedAt]. *)
Definition stored_row (row : TransactionRow.t) (updatedAt : Z) : Transaction.t :=
  {| Transaction.id := TransactionRow.id row;
     Transaction.type := TransactionRow.type row;
     Transaction.amountCents := TransactionRow.amount_cents row;
     Transaction.categoryId := TransactionRow.category_id row;
     Transaction.timestamp := TransactionRow.timestamp row;
     Transaction.updatedAt := updatedAt;
     Transaction.syncStatus := synced;
     Transaction.deleted := bool_decide (TransactionRow.deleted_at row <> None) |}.

(** Each phase returns a result, having entered its callback once; a
    failure carries an error message. *)
Definition phase_completes (p : Phase) (m : M SyncResult) : Prop :=
  forall w, exists r w',
    m w = (Returns r, w')
    /\ entered w' = (entered w ++ [p])%list
    /\ (success r = false -> exists msg, error r = Some msg).

End SyncVocabulary.

(** ** Vocabulary of the statements about what is pushed and sent *)

Module PushVocabulary.
Import Schemas Supabase Runtime Control SupabaseSync.

(** The row pushed for a local transaction: its fields, the id of the
    user, and a [deleted_at] exactly when the transaction is deleted. *)
Definition pushed_row (user : User) (txn : Transaction.t)
  (row : TransactionPayload.t) : Prop :=
  TransactionPayload.id row = Transaction.id txn
  /\ TransactionPayload.user_id row = uid user
  /\ TransactionPayload.type row = Transaction.type txn
  /\ TransactionPayload.amount_cents row = Transaction.amountCents txn
  /\ TransactionPayload.category_id row = Transaction.categoryId txn
  /\ TransactionPayload.timestamp row = Transaction.timestamp txn
  /\ TransactionPayload.updated_at row = Transaction.updatedAt txn
  /\ (TransactionPayload.deleted_at row = None
      <-> Transaction.deleted txn = false).

Definition is_upsert (r : Request) : bool :=
  match r with
  | UpsertTransactions _ | UpsertCategories _ => true
  | GetUser | Select _ => false
  end.

(** No local record is lost between two worlds. *)
Definition keeps_records (w w' : World) : Prop :=
  dom (transactions w) ⊆ dom (transactions w')
  /\ dom (categories w) ⊆ dom (categories w').

(** What a phase sends and keeps: the requests it adds to the log, none
    of them an upsert for a pull, which on success are the reading of
    the user and its select; and no local record lost. *)
Definition pull_effect (query : User -> Query) (m : M SyncResult) : Prop :=
  forall w, exists r w' sent_now,
    m w = (Returns r, w')
    /\ requests w' = (requests w ++ sent_now)%list
    /\ Forall (fun q => is_upsert q = false) sent_now
    /\ (success r = true ->
        exists user, sent_now = [GetUser; Select (query user)])
    /\ keeps_records w w'.

Definition push_effect (m : M SyncResult) : Prop :=
  forall w, exists r w' sent_now,
    m w = (Returns r, w')
    /\ requests w' = (requests w ++ sent_now)%list
    /\ transactions w' = transactions w
    /\ categories w' = categories w.

End PushVocabulary.

(** ** Concrete worlds, used to run the definitions on examples *)

(** ** Vocabulary of the statements about the amount field *)

Module AmountField.
Import Float64.

(** The characters [handleAmountChange] lets through. *)
Definition field_char (c : ascii) : bool := is_digit c || Ascii.eqb c ".".

Fixpoint field_text (s : string) : bool :=
  match s with
  | String c r => field_char c && field_text r
  | EmptyString => true
  end.

End AmountField.

Module Fixtures.
Import Schemas Supabase Runtime.

Definition groceries : Category.t :=
  {| Category.id := "c1"; Category.name := "Groceries";
     Category.icon := "cart-outline"; Category.userDefined := true;
     Category.createdAt := 1; Category.updatedAt := 2 |}.

Definition leisure : Category.t :=
  {| Category.id := "c2"; Category.name := "Leisure";
     Category.icon := "game-controller-outline"; Category.userDefined := true;
     Category.createdAt := 3; Category.updatedAt := 4 |}.

Definition bread : Transaction.t :=
  {| Transaction.id := "t1"; Transaction.type := expense;
     Transaction.amountCents := 250; Transaction.categoryId := "c1";
     Transaction.timestamp := 10; Transaction.updatedAt := 11;
     Transaction.syncStatus := synced; Transaction.deleted := false |}.

Definition salary : Transaction.t :=
  {| Transaction.id := "t2"; Transaction.type := income;
     Transaction.amountCents := 100000; Transaction.categoryId := "c2";
     Transaction.timestamp := 12; Transaction.updatedAt := 13;
     Transaction.syncStatus := local; Transaction.deleted := false |}.

(** A store with two categories and two transactions, one in each. *)
Definition household : World :=
  {| transactions := <["t1" := bread]> (<["t2" := salary]> ∅);
     categories := <["c1" := groceries]> (<["c2" := leisure]> ∅);
     clock_reads := 0%nat; uuids_made := 0%nat;
     requests := []; entered := [] |}.

(** A remote holding one category row, with the id of [groceries], and
    one transaction row; every call succeeds. *)
Definition remote_groceries : CategoryRow.t :=
  {| CategoryRow.id := "c1"; CategoryRow.user_id := "u1";
     CategoryRow.name := "Food"; CategoryRow.icon := "fast-food-outline";
     CategoryRow.deleted_at := None;
     CategoryRow.created_at := 500; CategoryRow.updated_at := 900 |}.

Definition remote_rent : TransactionRow.t :=
  {| TransactionRow.id := "t9"; TransactionRow.user_id := "u1";
     TransactionRow.type := expense; TransactionRow.amount_cents := 70000;
     TransactionRow.category_id := "c1"; TransactionRow.timestamp := 600;
     TransactionRow.deleted_at := Some 800;
     TransactionRow.created_at := 600; TransactionRow.updated_at := 800 |}.

Definition healthy : Backend :=
  {| auth_getUser := fun _ => Returns (Some {| uid := "u1" |});
     select_transactions := fun _ q =>
       Returns {| data := Some (filter (fun r => requests_transaction q r = true)
                                       [remote_rent]);
                  select_error := None |};
     select_categories := fun _ _ =>
       Returns {| data := Some [remote_groceries]; select_error := None |};
     upsert_transactions := fun _ _ => Returns {| upsert_error := None |};
     upsert_categories := fun _ _ => Returns {| upsert_error := None |} |}.

(** The same remote, whose upsert of categories is refused. *)
Definition refusing_categories : Backend :=
  {| auth_getUser := auth_getUser healthy;
     select_transactions := select_transactions healthy;
     select_categories := select_categories healthy;
     upsert_transactions := upsert_transactions healthy;
     upsert_categories := fun _ _ =>
       Returns {| upsert_error := Some "permission denied" |} |}.

Definition device (b : Backend) : Env :=
  {| wall_clock := fun n => 1000 + Z.of_nat n;
     fresh_uuid := fun n => String (ascii_of_nat (97 + n)) "-uuid";
     backend := b;
     localTZA := fun _ _ => 0 |}.

(** Three tombstones: one synced long ago, one never synced, and one
    synced the day before the readings of [late_clock]. *)
Definition old_synced : Transaction.t :=
  {| Transaction.id := "t3"; Transaction.type := expense;
     Transaction.amountCents := 100; Transaction.categoryId := "c1";
     Transaction.timestamp := 0; Transaction.updatedAt := 0;
     Transaction.syncStatus := synced; Transaction.deleted := true |}.

Definition old_local : Transaction.t :=
  {| Transaction.id := "t4"; Transaction.type := expense;
     Transaction.amountCents := 200; Transaction.categoryId := "c1";
     Transaction.timestamp := 0; Transaction.updatedAt := 0;
     Transaction.syncStatus := local; Transaction.deleted := true |}.

Definition recent_synced : Transaction.t :=
  {| Transaction.id := "t5"; Transaction.type := expense;
     Transaction.amountCents := 300; Transaction.categoryId := "c1";
     Transaction.timestamp := 0; Transaction.updatedAt := 10000000000 - 86400000;
     Transaction.syncStatus := synced; Transaction.deleted := true |}.

Definition archive : World :=
  {| transactions :=
       <["t3" := old_synced]> (<["t4" := old_local]> (<["t5" := recent_synced]> ∅));
     categories := <["c1" := groceries]> ∅;
     clock_reads := 0%nat; uuids_made := 0%nat;
     requests := []; entered := [] |}.

(** The configuration of the maintenance job with the purge switched
    on. *)
Definition purging : Maintenance.Config :=
  {| Maintenance.ENABLE_TOMBSTONE_PURGE := true;
     Maintenance.TOMBSTONE_RETENTION_DAYS := 90;
     Maintenance.PURGE_BATCH_SIZE := 100;
     Maintenance.PURGE_INTERVAL_DAYS := 7 |}.

(** A device whose clock reads some 115 days after the epoch, in UTC. *)
Definition late_device : Env :=
  {| wall_clock := fun n => 10000000000 + Z.of_nat n;
     fresh_uuid := fun n => String (ascii_of_nat (97 + n)) "-uuid";
     backend := healthy;
     localTZA := fun _ _ => 0 |}.

(** A zone five hours behind UTC, four during the daylight-saving period
    of 2024: from 10 March, 02:00 on the local clock, which then jumps to
    03:00, to 3 November, 02:00, which then falls back to 01:00. *)
Definition eastern (t : Z) (isUTC : bool) : Z :=
  let '(start, finish) :=
    if isUTC then (1710054000000, 1730613600000)
    else (1710039600000, 1730599200000) in
  if (start <=? t) && (t <? finish) then -14400000 else -18000000.


Definition december_device : Env :=
  {| wall_clock := fun n => 1734282000000 + Z.of_nat n;
     fresh_uuid := fun n => String (ascii_of_nat (97 + n)) "-uuid";
     backend := healthy;
     localTZA := eastern |}.

(** A synced tombstone updated [age] milliseconds before [today]. *)
Definition tombstone_aged (today age : Z) : Transaction.t :=
  {| Transaction.id := "t6"; Transaction.type := expense;
     Transaction.amountCents := 400; Transaction.categoryId := "c1";
     Transaction.timestamp := 0; Transaction.updatedAt := today - age;
     Transaction.syncStatus := synced; Transaction.deleted := true |}.

(** A store holding that tombstone only. *)
Definition graveyard (today age : Z) : World :=
  {| transactions := <["t6" := tombstone_aged today age]> ∅;
     categories := <["c1" := groceries]> ∅;
     clock_reads := 0%nat; uuids_made := 0%nat;
     requests := []; entered := [] |}.

End Fixtures.

(** * Properties *)

(** ** Validation layer *)

Section ValidationFacts.
Import Float64 Schemas Validation.

(** The two literals of the validation module are the binary64 numbers
    nearest to 0.01 and equal to 100. *)
Lemma literals_exact :
  lit_0_01 = of_ratio false 1 100 /\ lit_100 = of_Z 100.
Proof. split; vm_compute; reflexivity. Qed.

Lemma SFcompare_swap (x y : number) :
  SFcompare x y = option_map CompOpp (SFcompare y x).
Proof.
  destruct x as [sx|sx| |sx mx ex], y as [sy|sy| |sy my ey]; simpl;
    try reflexivity;
    try (destruct sx; reflexivity); try (destruct sy; reflexivity);
    try (destruct sx, sy; reflexivity).
  destruct sx, sy; simpl; try reflexivity;
    rewrite (Z.compare_antisym ey ex);
    destruct (ey ?= ex); simpl; try reflexivity;
    rewrite (Pos.compare_cont_antisym my mx Eq); simpl;
    destruct (Pos.compare_cont Eq my mx); reflexivity.
Qed.

Lemma geb_not_ltb (x y : number) :
  isNaN x = false -> isNaN y = false -> geb x y = negb (ltb x y).
Proof.
  intros Hx Hy. unfold geb, ltb, SFleb, SFltb.
  rewrite (SFcompare_swap y x).
  destruct (SFcompare x y) as [[]|] eqn:E; simpl; try reflexivity.
  destruct x, y; simpl in *; try discriminate;
    repeat match goal with b : bool |- _ => destruct b end; discriminate.
Qed.

Lemma isNaN_abs (x : number) : isNaN (abs x) = isNaN x.
Proof. destruct x; reflexivity. Qed.

Lemma isFinite_not_NaN (x : number) : isFinite x = true -> isNaN x = false.
Proof. destruct x; simpl; congruence. Qed.

(** The piped schema accepts exactly the finite numbers of absolute value
    at least 0.01, and turns them into cents. *)
Lemma amount_pipe_spec (x : number) :
  amount_pipe x =
    if isFinite x && negb (ltb (abs x) lit_0_01)
    then inr (round (mul (abs x) lit_100))
    else inl (match amount_pipe x with inl msgs => msgs | inr _ => [] end).
Proof.
  unfold amount_pipe.
  destruct (isNaN x) eqn:Hnan.
  - destruct x; simpl in *; try discriminate. reflexivity.
  - rewrite (geb_not_ltb (abs x) lit_0_01) by (rewrite ?isNaN_abs; auto).
    destruct (isFinite x), (ltb (abs x) lit_0_01); reflexivity.
Qed.

Lemma amount_pipe_rejects (x : number) :
  isFinite x = false \/ ltb (abs x) lit_0_01 = true ->
  exists msgs, amount_pipe x = inl msgs /\ msgs <> [].
Proof.
  intros H. unfold amount_pipe.
  destruct (isNaN x) eqn:Hnan; [eexists; split; [reflexivity|discriminate]|].
  rewrite (geb_not_ltb (abs x) lit_0_01) by (rewrite ?isNaN_abs; auto).
  destruct (isFinite x), (ltb (abs x) lit_0_01); simpl;
    try (eexists; split; [reflexivity|discriminate]).
  destruct H; discriminate.
Qed.

Lemma amount_pipe_accepts (x : number) (cents : number) :
  amount_pipe x = inr cents ->
  isFinite x = true /\ ltb (abs x) lit_0_01 = false
  /\ cents = round (mul (abs x) lit_100).
Proof.
  rewrite amount_pipe_spec.
  destruct (isFinite x), (ltb (abs x) lit_0_01); simpl; intros H;
    inversion H; auto.
Qed.

End ValidationFacts.

Section AmountBoundary.
Import Float64 Schemas Validation.

Lemma amount_pipe_opp (x : number) : amount_pipe (SFopp x) = amount_pipe x.
Proof. destruct x; reflexivity. Qed.

Lemma amountInputSchema_rejects (v : value) :
  (forall x, amount_number v = Some x ->
             isFinite x = false \/ ltb (abs x) lit_0_01 = true) ->
  exists msg msgs, amountInputSchema v = inl (msg :: msgs).
Proof.
  intros H. unfold amountInputSchema.
  destruct (amount_number v) as [x|]; [|eauto].
  destruct (amount_pipe_rejects x (H x eq_refl)) as ([|msg msgs] & -> & Hne);
    [congruence | eauto].
Qed.

Lemma amountInputSchema_accepts (v : value) (x : number) :
  amount_number v = Some x ->
  isFinite x = true -> ltb (abs x) lit_0_01 = false ->
  amountInputSchema v = inr (round (mul (abs x) lit_100)).
Proof.
  intros Hx Hfin Hlow. unfold amountInputSchema. rewrite Hx.
  rewrite amount_pipe_spec, Hfin, Hlow. reflexivity.
Qed.

(** [Math.round] takes a number that is not integral to the integer [n]
    with [n - 1/2 <= x < n + 1/2]. *)
Lemma round_half_up_nearest (s : bool) (m : positive) (e : Z) :
  e < 0 ->
  let n := round_half_up s m e in
  let mz := if s then Z.neg m else Z.pos m in
  (2 * n - 1) * 2 ^ (- e) <= 2 * mz < (2 * n + 1) * 2 ^ (- e).
Proof.
  intros He n mz. subst n. unfold round_half_up. fold mz.
  destruct (Z.leb_spec 0 e) as [H0|_]; [lia|].
  replace (- e + 1) with (Z.succ (- e)) by lia.
  rewrite Z.pow_succ_r by lia.
  assert (Hk : 0 < 2 ^ (- e)) by (apply Z.pow_pos_nonneg; lia).
  set (k := 2 ^ (- e)) in *.
  pose proof (Z.div_mod (2 * mz + k) (2 * k)) as Hdiv.
  pose proof (Z.mod_pos_bound (2 * mz + k) (2 * k)) as Hmod.
  set (q := (2 * mz + k) / (2 * k)) in *.
  set (r := (2 * mz + k) mod (2 * k)) in *.
  assert (Hq : 2 * mz + k = 2 * (k * q) + r) by lia.
  assert (Hr : 0 <= r < 2 * k) by lia.
  replace ((2 * q - 1) * k) with (2 * (k * q) - k) by lia.
  replace ((2 * q + 1) * k) with (2 * (k * q) + k) by lia.
  lia.
Qed.

(** C3. The amount is read as a binary64 number: a number as it is, a
    non-empty string through [parseFloat].  A draft whose amount is not
    finite, or is below 0.01 in absolute value, is rejected (with a
    validation error carrying an issue on [amount], unless the timestamp
    transform throws first).  Every other amount is accepted, with
    [Math.round(Math.abs(amount) * 100)] as its cents, and the draft
    validates with these cents when its other fields do; conversely a
    draft that validates has a finite amount of at least 0.01 and these
    cents.  An amount and its opposite give the same cents.
    [Math.round] takes a number to the nearest integer, the larger one
    on a tie.  The amount 0.01 yields 1 cent, 0.125 yields 13, 0.994
    yields 99, 12.34 yields 1234, -2.5 yields 250 and the number 3
    yields 300; 0, 0.004 and "abc" are refused. *)
Theorem amount_rejection_boundary :
  forall (is_uuid : string -> bool) (Date_parse : string -> option Z)
         (now : Z) (input : RawDraft),
    let result := validateTransactionDraft is_uuid Date_parse now input in
    ((forall x, amount_number (raw_amount input) = Some x ->
                isFinite x = false \/ ltb (abs x) lit_0_01 = true) ->
     result = Threw "Invalid timestamp"
     \/ exists issues msg,
         result = ZodError issues
         /\ In {| path := "amount"; message := msg |} issues)
    /\ (forall d, result = Valid d ->
        exists x, amount_number (raw_amount input) = Some x
                  /\ isFinite x = true
                  /\ ltb (abs x) lit_0_01 = false
                  /\ amountCents d = round (mul (abs x) lit_100))
    /\ (forall x, amountInputSchema (Number (SFopp x))
                  = amountInputSchema (Number x))
    /\ amountInputSchema (Number lit_0_01) = inr (of_Z 1)
    /\ amountInputSchema (Str "0.01") = inr (of_Z 1)
    /\ to_Z (of_Z 1) = Some 1
    /\ isValidAmountInput (Number (S754_zero false)) = false
    /\ isValidAmountInput (Number (parseFloat "0.004")) = false
    /\ isValidAmountInput (Str "0") = false
    /\ isValidAmountInput (Str "0.004") = false
    /\ isValidAmountInput (Str "abc") = false
    /\ (forall x, amount_number (raw_amount input) = Some x ->
          isFinite x = true -> ltb (abs x) lit_0_01 = false ->
          amountInputSchema (raw_amount input)
          = inr (round (mul (abs x) lit_100))
          /\ forall i ty cat ts,
               idSchema is_uuid (raw_id input) = inr i ->
               transactionTypeSchema (raw_type input) = inr ty ->
               categoryIdSchema (raw_categoryId input) = inr cat ->
               timestampSchema Date_parse now (raw_timestamp input)
               = Valid ts ->
               result
               = Valid {| id := i; type := ty;
                          amountCents := round (mul (abs x) lit_100);
                          categoryId := cat; timestamp := ts |})
    /\ (forall x, isNaN x = false -> amount_number (Number x) = Some x)
    /\ (forall s, s <> EmptyString ->
          amount_number (Str s) = Some (parseFloat (normalize s)))
    /\ (forall s m e, e < 0 ->
          (2 * round_half_up s m e - 1) * 2 ^ (- e)
          <= 2 * (if s then Z.neg m else Z.pos m)
          < (2 * round_half_up s m e + 1) * 2 ^ (- e))
    /\ Decimal.validated_cents (Str "0.01") = Some 1
    /\ Decimal.validated_cents (Str "0.125") = Some 13
    /\ Decimal.validated_cents (Str "0.994") = Some 99
    /\ Decimal.validated_cents (Str "12.34") = Some 1234
    /\ Decimal.validated_cents (Str "-2.5") = Some 250
    /\ Decimal.validated_cents (Number (of_Z 3)) = Some 300
    /\ Decimal.validated_cents (Str "0.004") = None.
Proof.
  intros is_uuid Date_parse now input result.
  split; [|split; [|split]].
  - intros Hbad.
    destruct (amountInputSchema_rejects _ Hbad) as (msg & msgs & Hamt).
    subst result. unfold validateTransactionDraft. rewrite Hamt.
    destruct (timestampSchema Date_parse now (raw_timestamp input)) as [ts|l|m] eqn:Hts.
    + right. exists (at_path "id" (idSchema is_uuid (raw_id input))
                    ++ at_path "type" (transactionTypeSchema (raw_type input))
                    ++ at_path "amount" (@inl _ number (msg :: msgs))
                    ++ at_path "categoryId" (categoryIdSchema (raw_categoryId input))
                    ++ [])%list, msg.
      split.
      * destruct (idSchema is_uuid (raw_id input)),
                 (transactionTypeSchema (raw_type input)); reflexivity.
      * rewrite !in_app_iff. right. right. left. simpl. auto.
    + right. exists (at_path "id" (idSchema is_uuid (raw_id input))
                    ++ at_path "type" (transactionTypeSchema (raw_type input))
                    ++ at_path "amount" (@inl _ number (msg :: msgs))
                    ++ at_path "categoryId" (categoryIdSchema (raw_categoryId input))
                    ++ l)%list, msg.
      split.
      * destruct (idSchema is_uuid (raw_id input)),
                 (transactionTypeSchema (raw_type input)); reflexivity.
      * rewrite !in_app_iff. right. right. left. simpl. auto.
    + left. unfold timestampSchema in Hts.
      destruct (raw_timestamp input) as [| | | |s|[t|]|]; try discriminate.
      destruct s; try discriminate.
      destruct (Date_parse _); congruence.
  - intros d Hd. subst result. unfold validateTransactionDraft in Hd.
    unfold amountInputSchema in Hd.
    destruct (amount_number (raw_amount input)) as [x|].
    + exists x.
      destruct (amount_pipe x) as [msgs|cents] eqn:Hp.
      * destruct (timestampSchema Date_parse now (raw_timestamp input)),
                 (idSchema is_uuid (raw_id input)),
                 (transactionTypeSchema (raw_type input)); discriminate.
      * apply amount_pipe_accepts in Hp. destruct Hp as (Hf & Hl & ->).
        destruct (timestampSchema Date_parse now (raw_timestamp input)),
                 (idSchema is_uuid (raw_id input)),
                 (transactionTypeSchema (raw_type input)),
                 (categoryIdSchema (raw_categoryId input));
          try discriminate.
        inversion Hd; subst; simpl. auto.
    + destruct (timestampSchema Date_parse now (raw_timestamp input)),
               (idSchema is_uuid (raw_id input)),
               (transactionTypeSchema (raw_type input)); discriminate.
  - intros x. unfold amountInputSchema. simpl.
    replace (isNaN (SFopp x)) with (isNaN x) by (destruct x; reflexivity).
    destruct (isNaN x); [reflexivity|]. apply amount_pipe_opp.
  - do 8 (split; [vm_compute; reflexivity|]).
    split.
    { intros x Hx Hfin Hlow.
      pose proof (amountInputSchema_accepts _ x Hx Hfin Hlow) as Hamt.
      split; [exact Hamt|].
      intros i ty cat ts Hi Hty Hcat Hts. subst result.
      unfold validateTransactionDraft.
      rewrite Hamt, Hi, Hty, Hcat, Hts. reflexivity. }
    split; [intros x Hx; simpl; rewrite Hx; reflexivity|].
    split; [intros s Hs; destruct s; [congruence|reflexivity]|].
    split; [intros s m e He; exact (round_half_up_nearest s m e He)|].
    repeat split; vm_compute; reflexivity.
Qed.

(** A draft of 12.34 validates with 1234 cents, and a draft of no cent
    is refused. *)
Lemma amount_rejection_boundary_witness :
  validateTransactionDraft (fun _ => true) (fun _ => None) 0
    {| raw_id := Undefined; raw_type := Str "expense";
       raw_amount := Str "12.34"; raw_categoryId := Str "cat-food";
       raw_timestamp := Undefined |}
  = Valid {| id := None; type := expense; amountCents := of_Z 1234;
             categoryId := "cat-food"; timestamp := 0 |}
  /\ (validateTransactionDraft (fun _ => true) (fun _ => None) 0
        {| raw_id := Undefined; raw_type := Str "expense";
           raw_amount := Str "0"; raw_categoryId := Str "cat-food";
           raw_timestamp := Undefined |}
      = Threw "Invalid timestamp"
      \/ exists issues msg,
          validateTransactionDraft (fun _ => true) (fun _ => None) 0
            {| raw_id := Undefined; raw_type := Str "expense";
               raw_amount := Str "0"; raw_categoryId := Str "cat-food";
               raw_timestamp := Undefined |}
          = ZodError issues
          /\ In {| path := "amount"; message := msg |} issues).
Proof.
  split.
  - destruct (amount_rejection_boundary (fun _ => true) (fun _ => None) 0
                {| raw_id := Undefined; raw_type := Str "expense";
                   raw_amount := Str "12.34"; raw_categoryId := Str "cat-food";
                   raw_timestamp := Undefined |})
      as (_ & _ & _ & _ & _ & _ & _ & _ & _ & _ & _ & Haccept & _).
    destruct (Haccept (parseFloat "12.34")) as [_ Hvalid];
      [reflexivity|vm_compute; reflexivity|vm_compute; reflexivity|].
    rewrite (Hvalid None expense "cat-food" 0) by reflexivity.
    vm_compute. reflexivity.
  - apply (amount_rejection_boundary (fun _ => true) (fun _ => None) 0
             {| raw_id := Undefined; raw_type := Str "expense";
                raw_amount := Str "0"; raw_categoryId := Str "cat-food";
                raw_timestamp := Undefined |}).
    intros x Hx. right. vm_compute in Hx. inversion Hx; subst.
    vm_compute. reflexivity.
Defined.

End AmountBoundary.

Section DecimalStrings.
Import Float64 Schemas Validation Decimal.

Lemma digit_is_amount_char c : is_digit c = true -> amount_char c = true.
Proof. unfold amount_char. intros ->. reflexivity. Qed.

Lemma digit_not_comma c : is_digit c = true -> Ascii.eqb c "," = false.
Proof.
  destruct (Ascii.eqb_spec c ","); [subst; vm_compute; discriminate | auto].
Qed.

Lemma span_digits_app (ds rest : string) :
  all_digits ds = true ->
  match rest with String c _ => is_digit c = false | EmptyString => True end ->
  span_digits (ds ++ rest) = (ds, rest).
Proof.
  intros Hds Hrest. induction ds as [|c ds IH]; simpl in *.
  - destruct rest as [|c r]; [reflexivity|]. simpl. rewrite Hrest. reflexivity.
  - apply andb_prop in Hds. destruct Hds as [Hc Hds].
    rewrite Hc, (IH Hds). reflexivity.
Qed.

Lemma span_digits_all (ds : string) :
  all_digits ds = true -> span_digits ds = (ds, EmptyString).
Proof.
  intros H. induction ds as [|c ds IH]; simpl in *; [reflexivity|].
  apply andb_prop in H. destruct H as [Hc Hds].
  rewrite Hc, (IH Hds). reflexivity.
Qed.

Lemma replace_first_comma_digits (ds : string) :
  all_digits ds = true -> replace_first_comma ds = ds.
Proof.
  intros H. induction ds as [|c ds IH]; simpl in *; [reflexivity|].
  apply andb_prop in H. destruct H as [Hc Hds].
  rewrite (digit_not_comma c Hc), (IH Hds). reflexivity.
Qed.

Lemma replace_first_comma_app (ds rest : string) :
  all_digits ds = true ->
  replace_first_comma (ds ++ rest) = ds ++ replace_first_comma rest.
Proof.
  intros H. induction ds as [|c ds IH]; simpl in *; [reflexivity|].
  apply andb_prop in H. destruct H as [Hc Hds].
  rewrite (digit_not_comma c Hc), (IH Hds). reflexivity.
Qed.

(** Reading [ip.fp]: the whole string is consumed, and the number is the
    binary64 nearest to the decimal written. *)
Lemma parseFloat_decimal (ip fp : string) :
  all_digits ip = true -> all_digits fp = true -> ip <> EmptyString ->
  parseFloat (ip ++ String "." fp)
  = of_ratio false (digits_value 0 (ip ++ fp))
             (10 ^ Z.of_nat (String.length fp)).
Proof.
  intros Hip Hfp Hne. unfold parseFloat.
  destruct ip as [|c ip]; [congruence|]. simpl in Hip.
  apply andb_prop in Hip. destruct Hip as [Hc Hip].
  assert (Hsign : match (String c ip ++ String "." fp) with
                  | String "-" r => (true, r)
                  | String "+" r => (false, r)
                  | _ => (false, String c ip ++ String "." fp)
                  end = (false, String c ip ++ String "." fp)).
  { simpl. destruct (Ascii.eqb_spec c "-") as [->|Hm];
      [vm_compute in Hc; discriminate|].
    destruct (Ascii.eqb_spec c "+") as [->|Hp];
      [vm_compute in Hc; discriminate|].
    destruct c as [[] [] [] [] [] [] [] []]; try reflexivity; congruence. }
  rewrite Hsign.
  rewrite (span_digits_app (String c ip) (String "." fp));
    [| simpl; rewrite Hc, Hip; reflexivity | vm_compute; reflexivity].
  rewrite (span_digits_all fp Hfp). simpl. reflexivity.
Qed.

Lemma append_empty (s : string) : s ++ EmptyString = s.
Proof.
  induction s as [|c s IH]; [reflexivity|].
  change (String c (s ++ EmptyString) = String c s). rewrite IH. reflexivity.
Qed.

Lemma parseFloat_integer (ip : string) :
  all_digits ip = true -> ip <> EmptyString ->
  parseFloat ip = of_ratio false (digits_value 0 ip) 1.
Proof.
  intros Hip Hne. unfold parseFloat.
  destruct ip as [|c ip]; [congruence|]. simpl in Hip.
  apply andb_prop in Hip. destruct Hip as [Hc Hip].
  assert (Hsign : match String c ip with
                  | String "-" r => (true, r)
                  | String "+" r => (false, r)
                  | _ => (false, String c ip)
                  end = (false, String c ip)).
  { destruct (Ascii.eqb_spec c "-") as [->|Hm];
      [vm_compute in Hc; discriminate|].
    destruct (Ascii.eqb_spec c "+") as [->|Hp];
      [vm_compute in Hc; discriminate|].
    destruct c as [[] [] [] [] [] [] [] []]; try reflexivity; congruence. }
  rewrite Hsign.
  rewrite (span_digits_all (String c ip)) by (simpl; rewrite Hc, Hip; reflexivity).
  cbv zeta iota beta. rewrite append_empty. reflexivity.
Qed.

Lemma abs_of_ratio (n d : Z) : abs (of_ratio false n d) = of_ratio false n d.
Proof.
  unfold of_ratio. destruct (n =? 0); [reflexivity|].
  destruct (SFdiv_core_binary prec emax n 0 d 0) as [[q e] l].
  unfold binary_round_aux.
  destruct (shr_fexp prec emax q e l) as [mrs e'].
  destruct (shr_fexp prec emax _ e' loc_Exact) as [mrs' e''].
  destruct (shr_m mrs'); [reflexivity| |reflexivity].
  destruct (e'' <=? emax - prec); reflexivity.
Qed.

Lemma normalize_written (s ip : string) (frac : option (ascii * string)) :
  strip_non_amount s = written ip frac -> well_written ip frac ->
  parseFloat (normalize s) = decimal_value ip frac.
Proof.
  intros Hs (Hip & Hne & Hfrac). unfold normalize, decimal_value. rewrite Hs.
  destruct frac as [[sep fp]|]; simpl written.
  - destruct Hfrac as [Hsep Hfp].
    rewrite (replace_first_comma_app ip _ Hip).
    assert (Hr : replace_first_comma (String sep fp) = String "." fp).
    { destruct Hsep as [-> | ->]; simpl; [|reflexivity].
      rewrite (replace_first_comma_digits fp Hfp). reflexivity. }
    rewrite Hr. apply parseFloat_decimal; auto.
  - rewrite (replace_first_comma_digits ip Hip), append_empty.
    apply parseFloat_integer; auto.
Qed.

(** C4, as amended.  An amount string which, once every character other
    than digits, period, comma and minus is removed, is written as digits
    followed by at most one separator (a period or a single decimal comma)
    and the digits of a fraction, is read as the binary64 number [v]
    nearest to that decimal; when [v] is finite and at least 0.01, the
    schema accepts it and every draft that validates with it has
    [amountCents = Math.round(v * 100)]. *)
Theorem decimal_comma_amount :
  forall (s ip : string) (frac : option (ascii * string)),
    strip_non_amount s = written ip frac ->
    well_written ip frac ->
    let v := decimal_value ip frac in
    isFinite v = true ->
    ltb v lit_0_01 = false ->
    amountInputSchema (Str s) = inr (round (mul v lit_100))
    /\ forall is_uuid Date_parse now input d,
        raw_amount input = Str s ->
        validateTransactionDraft is_uuid Date_parse now input = Valid d ->
        amountCents d = round (mul v lit_100).
Proof.
  intros s ip frac Hs Hw v Hfin Hlow.
  assert (Hamt : amountInputSchema (Str s) = inr (round (mul v lit_100))).
  { unfold amountInputSchema, amount_number.
    destruct s as [|c s'].
    - destruct Hw as (_ & Hne & _).
      destruct ip as [|a ip]; [congruence|].
      destruct frac as [[sep fp]|]; discriminate Hs.
    - rewrite (normalize_written _ ip frac Hs Hw). fold v.
      rewrite amount_pipe_spec.
      assert (Habs : abs v = v) by apply abs_of_ratio.
      rewrite Habs, Hfin, Hlow. reflexivity. }
  split; [exact Hamt|].
  intros is_uuid Date_parse now input d Hraw Hd.
  unfold validateTransactionDraft in Hd. rewrite Hraw, Hamt in Hd.
  destruct (timestampSchema Date_parse now (raw_timestamp input)),
           (idSchema is_uuid (raw_id input)),
           (transactionTypeSchema (raw_type input)),
           (categoryIdSchema (raw_categoryId input));
    try discriminate.
  inversion Hd; reflexivity.
Qed.

(** The amount [12,50], and [$ 1 234,56] with its currency sign and
    spaces, are read with a decimal comma: 1250 and 123456 cents. *)
Lemma decimal_comma_amount_witness :
  (amountInputSchema (Str "12,50") = inr (of_Z 1250)
   /\ amountInputSchema (Str "$ 1 234,56") = inr (of_Z 123456)).
Proof.
  split.
  - apply (decimal_comma_amount "12,50" "12" (Some (","%char, "50"))).
    + reflexivity.
    + repeat split; auto; discriminate.
    + reflexivity.
    + reflexivity.
  - apply (decimal_comma_amount "$ 1 234,56" "1234" (Some (","%char, "56"))).
    + reflexivity.
    + repeat split; auto; discriminate.
    + reflexivity.
    + reflexivity.
Defined.

(** C4, as stated, fails on a comma used as a thousands separator: the
    first comma is turned into the decimal point, so that [1,000] is read
    as 1 (100 cents, not 100000) and [1,234,567.89] as 1.234 (123 cents,
    not 123456789). *)
Lemma thousands_comma_counterexample :
  validateTransactionDraft (fun _ => true) (fun _ => None) 0
    {| raw_id := Undefined; raw_type := Str "expense";
       raw_amount := Str "1,000"; raw_categoryId := Str "cat-food";
       raw_timestamp := Undefined |}
  = Valid {| id := None; type := expense; amountCents := of_Z 100;
             categoryId := "cat-food"; timestamp := 0 |}
  /\ of_Z 100 <> of_Z (100 * 1000)
  /\ amountInputSchema (Str "1,234,567.89") = inr (of_Z 123)
  /\ of_Z 123 <> of_Z 123456789.
Proof.
  repeat split; try (vm_compute; reflexivity); vm_compute; discriminate.
Qed.

End DecimalStrings.

(** ** Repository layer *)

Section RepositoryFacts.
Import Schemas Runtime Repository.
Variable env : Env.

Lemma reassigned_twice (r : string) (t1 t2 : Z) (txn : Transaction.t) :
  reassigned r t2 (reassigned r t1 txn) = reassigned r t2 txn.
Proof. reflexivity. Qed.

Lemma reassign_one_transactions (r : string) (w : World) (k : string) :
  transactions (reassign_one env r w k)
  = alter (reassigned r (wall_clock env (clock_reads w))) k (transactions w).
Proof. reflexivity. Qed.

(** The loop of [deleteCategory]: the categories are not touched, the
    clock is read once for each key, every key visited holds the
    transaction it held with the three assignments made, and the other
    keys hold what they held. *)
Lemma reassign_all (r : string) (keys : list string) (w : World) :
  let w' := foldl (reassign_one env r) w keys in
  categories w' = categories w
  /\ clock_reads w' = (clock_reads w + length keys)%nat
  /\ (forall k, k ∉ keys -> transactions w' !! k = transactions w !! k)
  /\ (forall k t, k ∈ keys -> transactions w !! k = Some t ->
        exists n, (clock_reads w <= n < clock_reads w')%nat
                  /\ transactions w' !! k
                     = Some (reassigned r (wall_clock env n) t))
  /\ (forall k, transactions w !! k = None -> transactions w' !! k = None).
Proof.
  revert w. induction keys as [|k0 keys IH]; intros w; cbv zeta.
  - simpl. repeat split; auto; try lia.
    intros k t Hk. inversion Hk.
  - change (foldl (reassign_one env r) w (k0 :: keys))
      with (foldl (reassign_one env r) (reassign_one env r w k0) keys).
    specialize (IH (reassign_one env r w k0)). cbv zeta in IH.
    destruct IH as (Hcat & Hclock & Hout & Hin & Hnone).
    set (w1 := reassign_one env r w k0) in *.
    set (w' := foldl (reassign_one env r) w1 keys) in *.
    assert (Hc1 : clock_reads w1 = S (clock_reads w)) by reflexivity.
    assert (Ht1 : transactions w1
                  = alter (reassigned r (wall_clock env (clock_reads w))) k0
                          (transactions w)) by reflexivity.
    split; [rewrite Hcat; reflexivity|].
    split; [simpl length; lia|].
    split; [|split].
    + intros k Hk. apply not_elem_of_cons in Hk. destruct Hk as [Hne Hk].
      rewrite (Hout k Hk), Ht1. apply lookup_alter_ne. congruence.
    + intros k t Hk Hlook.
      destruct (decide (k ∈ keys)) as [Hmem|Hmem].
      * destruct (decide (k = k0)) as [->|Hne].
        -- destruct (Hin k0 (reassigned r (wall_clock env (clock_reads w)) t) Hmem)
             as (n & Hn & Hres).
           { rewrite Ht1, lookup_alter_eq, Hlook. reflexivity. }
           exists n. split; [lia|]. rewrite Hres, reassigned_twice. reflexivity.
        -- destruct (Hin k t Hmem) as (n & Hn & Hres).
           { rewrite Ht1, lookup_alter_ne by congruence. exact Hlook. }
           exists n. split; [lia|exact Hres].
      * apply elem_of_cons in Hk. destruct Hk as [->|Hk]; [|contradiction].
        exists (clock_reads w). split; [lia|].
        rewrite (Hout k0 Hmem), Ht1, lookup_alter_eq, Hlook. reflexivity.
    + intros k Hlook. apply Hnone.
      rewrite Ht1. destruct (decide (k = k0)) as [->|Hne].
      * rewrite lookup_alter_eq, Hlook. reflexivity.
      * rewrite lookup_alter_ne by congruence. exact Hlook.
Qed.

Lemma affected_keys (id : string) (w : World) (k : string) :
  k ∈ map fst (map_to_list (affected id w))
  <-> exists t, transactions w !! k = Some t /\ Transaction.categoryId t = id.
Proof.
  unfold affected. split.
  - intros Hk. apply list_elem_of_fmap in Hk. destruct Hk as ([k' t] & -> & Hkt).
    apply elem_of_map_to_list in Hkt. apply map_lookup_filter_Some in Hkt.
    simpl in *. destruct Hkt as [Hlook Hcat]. eauto.
  - intros (t & Hlook & Hcat). apply list_elem_of_fmap. exists (k, t).
    split; [reflexivity|]. apply elem_of_map_to_list.
    apply map_lookup_filter_Some. simpl. auto.
Qed.

End RepositoryFacts.

Section CategoryDeletion.
Import Schemas Runtime Repository CategoriesService ManageCategoriesScreen.

(** C6. With a category [C] of the store and a replacement id [R], not
    empty and other than [C], [deleteCategory(C, R)] returns true and, in
    its single write, leaves [C] out of the categories, gives every
    transaction that referenced [C] the category [R], a reading of the
    clock taken during the call as [updatedAt] and the status [local]
    (its other fields as they were), leaves the other transactions as
    they were and creates none, so that no transaction references [C];
    on an id that holds no category it returns false and the world is
    unchanged. *)
Theorem deleteCategory_reassigns :
  forall (env : Env) (w : World),
    (forall (C R : string) (c : Category.t),
        categories w !! C = Some c -> R <> C -> R <> EmptyString ->
        let w' := snd (deleteCategory env C (Some R) w) in
        fst (deleteCategory env C (Some R) w) = true
        /\ categories w' = delete C (categories w)
        /\ (forall k t,
               transactions w !! k = Some t -> Transaction.categoryId t = C ->
               exists n t',
                 transactions w' !! k = Some t'
                 /\ (clock_reads w <= n < clock_reads w')%nat
                 /\ Transaction.categoryId t' = R
                 /\ Transaction.updatedAt t' = wall_clock env n
                 /\ Transaction.syncStatus t' = local
                 /\ t' = reassigned R (wall_clock env n) t)
        /\ (forall k t,
               transactions w !! k = Some t -> Transaction.categoryId t <> C ->
               transactions w' !! k = Some t)
        /\ (forall k, transactions w !! k = None -> transactions w' !! k = None)
        /\ (forall k t', transactions w' !! k = Some t' ->
                         Transaction.categoryId t' <> C))
    /\ (forall (id : string) (r : option string),
           categories w !! id = None ->
           deleteCategory env id r w = (false, w)).
Proof.
  intros env w. split.
  - intros C R c Hc HRC HR w'.
    assert (Hrun : deleteCategory env C (Some R) w
                   = (true, set_categories (delete C)
                              (foldl (reassign_one env R) w
                                     (map fst (map_to_list (affected C w)))))).
    { unfold deleteCategory. rewrite Hc.
      destruct R as [|a R]; [congruence|]. reflexivity. }
    subst w'. rewrite Hrun. simpl fst. simpl snd.
    destruct (reassign_all env R (map fst (map_to_list (affected C w))) w)
      as (Hcat & Hclock & Hout & Hin & Hnone).
    set (w1 := foldl (reassign_one env R) w _) in *.
    assert (Hmoved : forall k t,
               transactions w !! k = Some t -> Transaction.categoryId t = C ->
               exists n, (clock_reads w <= n < clock_reads w1)%nat
                         /\ transactions w1 !! k
                            = Some (reassigned R (wall_clock env n) t)).
    { intros k t Hk Ht. apply Hin; [|exact Hk].
      apply affected_keys. eauto. }
    assert (Hkept : forall k t,
               transactions w !! k = Some t -> Transaction.categoryId t <> C ->
               transactions w1 !! k = Some t).
    { intros k t Hk Ht. rewrite Hout; [exact Hk|].
      intros Hmem. apply affected_keys in Hmem.
      destruct Hmem as (t0 & Hk0 & Ht0). congruence. }
    split; [reflexivity|].
    split; [simpl; rewrite Hcat; reflexivity|].
    split; [|split; [|split]].
    + intros k t Hk Ht. destruct (Hmoved k t Hk Ht) as (n & Hn & Hres).
      exists n, (reassigned R (wall_clock env n) t). simpl.
      repeat split; auto; lia.
    + intros k t Hk Ht. simpl. auto.
    + intros k Hk. simpl. auto.
    + intros k t' Hk'. simpl in Hk'.
      destruct (transactions w !! k) as [t|] eqn:Hk.
      * destruct (decide (Transaction.categoryId t = C)) as [Ht|Ht].
        -- destruct (Hmoved k t Hk Ht) as (n & _ & Hres).
           rewrite Hres in Hk'. inversion Hk'; subst. simpl. exact HRC.
        -- rewrite (Hkept k t Hk Ht) in Hk'. inversion Hk'; subst. exact Ht.
      * rewrite (Hnone k Hk) in Hk'. discriminate.
  - intros id r Hid. unfold deleteCategory. rewrite Hid. reflexivity.
Qed.

(** In the household, the groceries are deleted in favour of leisure: the
    bread moves to leisure, and deleting an unknown category does
    nothing. *)
Lemma deleteCategory_reassigns_witness :
  (Fixtures.household.(categories) !! "c1" = Some Fixtures.groceries
   /\ "c2" <> "c1" /\ "c2" <> EmptyString)
  /\ fst (deleteCategory (Fixtures.device Fixtures.healthy) "c1" (Some "c2")
                         Fixtures.household) = true
  /\ deleteCategory (Fixtures.device Fixtures.healthy) "zz" None
                    Fixtures.household
     = (false, Fixtures.household).
Proof.
  assert (H1 : Fixtures.household.(categories) !! "c1" = Some Fixtures.groceries)
    by reflexivity.
  assert (H2 : "c2" <> "c1") by discriminate.
  assert (H3 : "c2" <> EmptyString) by discriminate.
  destruct (deleteCategory_reassigns (Fixtures.device Fixtures.healthy)
              Fixtures.household) as [Hdel Habsent].
  split; [auto|]. split.
  - exact (proj1 (Hdel "c1" "c2" Fixtures.groceries H1 H2 H3)).
  - apply Habsent. reflexivity.
Defined.

(** C5, as stated, fails: [removeCategory] without a replacement removes
    the groceries of the household although the bread references them,
    and the bread is left pointing at the id of a category that is no
    longer there. *)
Lemma removeCategory_orphans_counterexample :
  Fixtures.household.(categories) !! "c1" = Some Fixtures.groceries
  /\ Fixtures.household.(transactions) !! "t1" = Some Fixtures.bread
  /\ Transaction.categoryId Fixtures.bread = "c1"
  /\ let result := removeCategory (Fixtures.device Fixtures.healthy) "c1" None
                                  Fixtures.household in
     fst result = true
     /\ categories (snd result) !! "c1" = None
     /\ transactions (snd result) !! "t1" = Some Fixtures.bread.
Proof. repeat split. Qed.

(** C5, as amended.  [removeCategory] called without a replacement id
    (or with the empty string) on a category of the store is not blocked,
    whatever transactions reference the category: it returns true, the
    category is removed and every transaction is left as it was.  The
    replacement is required by the screen: [handleConfirmDelete] with a
    nonzero count and no replacement chosen sets its error and leaves the
    store as it is. *)
Theorem removeCategory_without_replacement :
  forall (env : Env) (w : World) (C : string) (c : Category.t)
         (replacementId : option string),
    categories w !! C = Some c ->
    truthy replacementId = false ->
    removeCategory env C replacementId w
    = (true, set_categories (delete C) w)
    /\ transactions (snd (removeCategory env C replacementId w))
       = transactions w
    /\ categories (snd (removeCategory env C replacementId w)) !! C = None
    /\ forall ds : DeleteState,
        (0 < delete_count ds)%nat ->
        handleConfirmDelete env (Some ds) replacementId w
        = (Some "Select a replacement category", w).
Proof.
  intros env w C c r Hc Hr.
  assert (Hrun : removeCategory env C r w = (true, set_categories (delete C) w)).
  { unfold removeCategory, deleteCategory. rewrite Hc.
    destruct r as [[|a s]|]; simpl in Hr; try discriminate; reflexivity. }
  rewrite Hrun. simpl. repeat split.
  - apply lookup_delete_eq.
  - intros ds Hds. unfold handleConfirmDelete. rewrite Hr.
    destruct (delete_count ds); [lia|]. reflexivity.
Qed.

Lemma removeCategory_without_replacement_witness :
  removeCategory (Fixtures.device Fixtures.healthy) "c1" None
                 Fixtures.household
  = (true, set_categories (delete "c1") Fixtures.household).
Proof.
  apply (removeCategory_without_replacement
           (Fixtures.device Fixtures.healthy) Fixtures.household
           "c1" Fixtures.groceries None).
  - reflexivity.
  - reflexivity.
Defined.

End CategoryDeletion.

(** ** Seeding of the default categories *)

Section Seeding.
Import Schemas Runtime Repository CategoriesService.
Variable env : Env.

Lemma seed_one_dom (w : World) (d : DefaultCategory) :
  dom (categories (seed_one env w d)) = {[default_id d]} ∪ dom (categories w).
Proof.
  unfold seed_one.
  destruct (categories w !! default_id d) as [c|] eqn:Hd.
  - apply elem_of_dom_2 in Hd. symmetry. apply subseteq_union_1_L.
    apply singleton_subseteq_l. exact Hd.
  - simpl. apply dom_insert_L.
Qed.

Lemma seed_all_dom (ds : list DefaultCategory) (w : World) :
  dom (categories (foldl (seed_one env) w ds))
  = list_to_set (map default_id ds) ∪ dom (categories w).
Proof.
  revert w. induction ds as [|d ds IH]; intros w.
  - simpl. symmetry. apply union_empty_l_L.
  - change (foldl (seed_one env) w (d :: ds))
      with (foldl (seed_one env) (seed_one env w d) ds).
    rewrite IH, seed_one_dom. simpl.
    rewrite (assoc_L (∪)), (comm_L (∪) _ {[default_id d]}). reflexivity.
Qed.

Lemma seed_one_present (w : World) (d : DefaultCategory) :
  is_Some (categories w !! default_id d) -> seed_one env w d = w.
Proof. intros [c Hc]. unfold seed_one. rewrite Hc. reflexivity. Qed.

Lemma seed_all_present (ds : list DefaultCategory) (w : World) :
  (forall d, d ∈ ds -> is_Some (categories w !! default_id d)) ->
  foldl (seed_one env) w ds = w.
Proof.
  induction ds as [|d ds IH]; intros Hall; [reflexivity|].
  change (foldl (seed_one env) w (d :: ds))
    with (foldl (seed_one env) (seed_one env w d) ds).
  rewrite seed_one_present by (apply Hall; left).
  apply IH. intros d' Hd'. apply Hall. right. exact Hd'.
Qed.

(** An object the seeding finds in place is kept as it is. *)
Lemma seed_all_keeps (ds : list DefaultCategory) (w : World) (k : string)
  (c : Category.t) :
  categories w !! k = Some c ->
  categories (foldl (seed_one env) w ds) !! k = Some c.
Proof.
  revert w. induction ds as [|d ds IH]; intros w Hk; [exact Hk|].
  change (foldl (seed_one env) w (d :: ds))
    with (foldl (seed_one env) (seed_one env w d) ds).
  apply IH. unfold seed_one.
  destruct (categories w !! default_id d) as [c'|] eqn:Hd; [exact Hk|].
  simpl. rewrite lookup_insert_ne; [exact Hk|]. congruence.
Qed.

(** A default whose id is free, in a list of defaults with distinct ids,
    is created with its name and icon and is not user-defined. *)
Lemma seed_all_creates (ds : list DefaultCategory) (w : World)
  (d : DefaultCategory) :
  NoDup (map default_id ds) -> d ∈ ds ->
  categories w !! default_id d = None ->
  exists createdAt updatedAt,
    categories (foldl (seed_one env) w ds) !! default_id d
    = Some {| Category.id := default_id d;
              Category.name := default_name d;
              Category.icon := default_icon d;
              Category.userDefined := false;
              Category.createdAt := createdAt;
              Category.updatedAt := updatedAt |}.
Proof.
  revert w. induction ds as [|d0 ds IH]; intros w Hnd Hin Hfree.
  - inversion Hin.
  - change (foldl (seed_one env) w (d0 :: ds))
      with (foldl (seed_one env) (seed_one env w d0) ds).
    simpl in Hnd. apply NoDup_cons in Hnd. destruct Hnd as [Hfresh Hnd].
    apply elem_of_cons in Hin. destruct Hin as [->|Hin].
    + eexists _, _. apply seed_all_keeps.
      unfold seed_one. rewrite Hfree. simpl. apply lookup_insert_eq.
    + apply IH; auto.
      assert (Hne : default_id d0 <> default_id d).
      { intros Heq. apply Hfresh. rewrite Heq.
        apply list_elem_of_fmap. eauto. }
      unfold seed_one.
      destruct (categories w !! default_id d0); [exact Hfree|].
      simpl. rewrite lookup_insert_ne; auto.
Qed.

Lemma DEFAULT_CATEGORIES_distinct : NoDup (map default_id DEFAULT_CATEGORIES).
Proof.
  refine (bool_decide_unpack (NoDup (map default_id DEFAULT_CATEGORIES)) _).
  vm_compute. exact I.
Qed.

End Seeding.

(** C9. On a store without categories the seeding effect creates the six
    default categories and nothing else, each with its name and icon and
    with [userDefined = false]; on a store that holds the six ids the
    effect changes nothing, so that running it again any number of times
    leaves the seeded store as it is. *)
Theorem seeding_idempotent :
  forall (env : Runtime.Env) (w : Runtime.World),
    let seed := fun w => snd (CategoriesService.seeding_effect env false w) in
    (Runtime.categories w = ∅ ->
     size (Runtime.categories (seed w)) = 6%nat
     /\ dom (Runtime.categories (seed w))
        = list_to_set (map CategoriesService.default_id
                           CategoriesService.DEFAULT_CATEGORIES)
     /\ (forall d, d ∈ CategoriesService.DEFAULT_CATEGORIES ->
           exists c, Runtime.categories (seed w)
                       !! CategoriesService.default_id d = Some c
                     /\ Schemas.Category.id c = CategoriesService.default_id d
                     /\ Schemas.Category.name c = CategoriesService.default_name d
                     /\ Schemas.Category.icon c = CategoriesService.default_icon d
                     /\ Schemas.Category.userDefined c = false)
     /\ (forall n, Nat.iter n seed (seed w) = seed w))
    /\ ((forall d, d ∈ CategoriesService.DEFAULT_CATEGORIES ->
           is_Some (Runtime.categories w !! CategoriesService.default_id d)) ->
        seed w = w).
Proof.
  intros env w seed.
  assert (Hstable : forall w0,
             (forall d, d ∈ CategoriesService.DEFAULT_CATEGORIES ->
                is_Some (Runtime.categories w0
                           !! CategoriesService.default_id d)) ->
             seed w0 = w0).
  { intros w0 Hall. unfold seed, CategoriesService.seeding_effect.
    cbv iota beta. cbn [snd].
    apply seed_all_present. exact Hall. }
  split; [|apply Hstable].
  intros Hempty.
  assert (Hdom : dom (Runtime.categories (seed w))
                 = list_to_set (map CategoriesService.default_id
                                    CategoriesService.DEFAULT_CATEGORIES)).
  { unfold seed, CategoriesService.seeding_effect.
    cbv iota beta. cbn [snd].
    rewrite seed_all_dom, Hempty, dom_empty_L. apply union_empty_r_L. }
  split; [|split; [exact Hdom|split]].
  - rewrite <- size_dom, Hdom. vm_compute. reflexivity.
  - intros d Hd.
    unfold seed, CategoriesService.seeding_effect.
    cbv iota beta. cbn [snd].
    destruct (seed_all_creates env CategoriesService.DEFAULT_CATEGORIES w d)
      as (t1 & t2 & Hc).
    + apply DEFAULT_CATEGORIES_distinct.
    + exact Hd.
    + rewrite Hempty. apply lookup_empty.
    + eexists. split; [exact Hc|]. simpl. auto.
  - assert (Hseeded : seed (seed w) = seed w).
    { apply Hstable. intros d Hd. apply elem_of_dom. rewrite Hdom.
      apply elem_of_list_to_set. apply list_elem_of_fmap. eauto. }
    induction n as [|n IH]; [reflexivity|].
    simpl. rewrite IH. exact Hseeded.
Qed.

(** On the fresh world: six categories after the first run, and the same
    world after a second one. *)
Lemma seeding_idempotent_witness :
  Runtime.categories Runtime.fresh_world = ∅
  /\ size (Runtime.categories
             (snd (CategoriesService.seeding_effect
                     (Fixtures.device Fixtures.healthy) false
                     Runtime.fresh_world))) = 6%nat.
Proof.
  split; [reflexivity|].
  apply (seeding_idempotent (Fixtures.device Fixtures.healthy)
                            Runtime.fresh_world).
  reflexivity.
Defined.

(** ** Aggregates of the transaction service *)

Section Aggregates.
Import Schemas Runtime Repository TransactionsService.

Lemma sum_amountCents_empty : sum_amountCents ∅ = 0.
Proof. apply map_fold_empty. Qed.

Lemma sum_amountCents_insert (m : gmap string Transaction.t) (k : string)
  (t : Transaction.t) :
  m !! k = None ->
  sum_amountCents (<[k := t]> m) = Transaction.amountCents t + sum_amountCents m.
Proof.
  intros Hk. unfold sum_amountCents.
  apply (map_fold_insert_L
           (fun (_ : string) (txn : Transaction.t) (acc : Z) =>
              Transaction.amountCents txn + acc)); [|exact Hk].
  intros. lia.
Qed.

(** The sum over the records of one type, by insertion of a record under
    a free key. *)
Lemma sum_of_type_insert (ty : TransactionType) (m : gmap string Transaction.t)
  (k : string) (t : Transaction.t) :
  m !! k = None ->
  sum_amountCents (of_type ty (<[k := t]> m))
  = (if decide (Transaction.type t = ty) then Transaction.amountCents t else 0)
    + sum_amountCents (of_type ty m).
Proof.
  intros Hk. unfold of_type.
  destruct (decide (Transaction.type t = ty)) as [Hty|Hty].
  - rewrite map_filter_insert_True by exact Hty.
    apply sum_amountCents_insert.
    apply map_lookup_filter_None. left. exact Hk.
  - rewrite map_filter_insert_not'; [reflexivity | exact Hty |].
    intros y Hy. congruence.
Qed.

Lemma active_after_soft_delete (env : Env) (w w' : World) (id : string) :
  softDeleteTransaction env id w = (true, w') ->
  activeTransactions w' = delete id (activeTransactions w)
  /\ exists t n, transactions w !! id = Some t
                 /\ transactions w' !! id = Some (mark_deleted (wall_clock env n) t).
Proof.
  unfold softDeleteTransaction.
  destruct (transactions w !! id) as [t|] eqn:Hid; [|discriminate].
  intros H. inversion H; subst; clear H. split.
  - unfold activeTransactions. simpl.
    rewrite <- map_filter_delete.
    rewrite <- (insert_delete_eq (transactions w)).
    rewrite map_filter_insert_not'; [reflexivity| simpl; discriminate |].
    intros y Hy. rewrite lookup_delete_eq in Hy. discriminate.
  - exists t, (clock_reads w). split; [reflexivity|]. simpl.
    apply lookup_insert_eq.
Qed.

End Aggregates.

(** C10. The totals are sums of [amountCents]: over an empty collection
    they are 0, and a record added to a collection under a new id adds its
    amount to the income total when its type is income, to the expense
    total when it is expense; the balance is the income total minus the
    expense total of the same collection, and the collection is the
    active transactions ([deleted == false]) when none is given.  After a
    successful [softDeleteTransaction(id)] the transaction is absent from
    the active transactions, the three default aggregates are those of
    the store without that transaction, and the lookup by id still
    returns it, marked deleted. *)
Theorem aggregates_exclude_soft_deleted :
  forall (env : Runtime.Env) (w : Runtime.World),
    (TransactionsService.totalIncomeCents (Some ∅) w = 0
     /\ TransactionsService.totalExpenseCents (Some ∅) w = 0)
    /\ (forall m k t, m !! k = None ->
          TransactionsService.totalIncomeCents (Some (<[k := t]> m)) w
          = (if decide (Schemas.Transaction.type t = Schemas.income)
             then Schemas.Transaction.amountCents t else 0)
            + TransactionsService.totalIncomeCents (Some m) w
          /\ TransactionsService.totalExpenseCents (Some (<[k := t]> m)) w
             = (if decide (Schemas.Transaction.type t = Schemas.expense)
                then Schemas.Transaction.amountCents t else 0)
               + TransactionsService.totalExpenseCents (Some m) w)
    /\ (forall source,
          TransactionsService.remainingBalanceCents source w
          = TransactionsService.totalIncomeCents source w
            - TransactionsService.totalExpenseCents source w)
    /\ (TransactionsService.totalIncomeCents None w
        = TransactionsService.totalIncomeCents
            (Some (filter (fun kv => Schemas.Transaction.deleted (snd kv) = false)
                          (Runtime.transactions w))) w
        /\ TransactionsService.totalExpenseCents None w
           = TransactionsService.totalExpenseCents
               (Some (filter (fun kv => Schemas.Transaction.deleted (snd kv) = false)
                             (Runtime.transactions w))) w)
    /\ (forall id w',
          Repository.softDeleteTransaction env id w = (true, w') ->
          TransactionsService.activeTransactions w' !! id = None
          /\ (exists t, TransactionsService.getTransactionById id w' = Some t
                        /\ Schemas.Transaction.deleted t = true)
          /\ let purged := snd (Repository.purgeTransaction id w) in
             TransactionsService.totalIncomeCents None w'
             = TransactionsService.totalIncomeCents None purged
             /\ TransactionsService.totalExpenseCents None w'
                = TransactionsService.totalExpenseCents None purged
             /\ TransactionsService.remainingBalanceCents None w'
                = TransactionsService.remainingBalanceCents None purged).
Proof.
  intros env w. split; [|split; [|split; [|split]]].
  - split; unfold TransactionsService.totalIncomeCents,
             TransactionsService.totalExpenseCents,
             TransactionsService.of_type; simpl;
      rewrite map_filter_empty; apply sum_amountCents_empty.
  - intros m k t Hk. split; apply sum_of_type_insert; exact Hk.
  - intros [source|]; reflexivity.
  - split; reflexivity.
  - intros id w' Hdel.
    destruct (active_after_soft_delete env w w' id Hdel)
      as (Hactive & t & n & Hbefore & Hafter).
    assert (Hpurged : TransactionsService.activeTransactions
                        (snd (Repository.purgeTransaction id w))
                      = TransactionsService.activeTransactions w').
    { rewrite Hactive. unfold Repository.purgeTransaction. rewrite Hbefore.
      unfold TransactionsService.activeTransactions. simpl.
      apply map_filter_delete. }
    split; [rewrite Hactive; apply lookup_delete_eq|].
    split.
    + exists (Repository.mark_deleted (Runtime.wall_clock env n) t).
      split; [exact Hafter|reflexivity].
    + unfold TransactionsService.remainingBalanceCents,
             TransactionsService.totalIncomeCents,
             TransactionsService.totalExpenseCents.
      simpl. rewrite Hpurged. auto.
Qed.

(** In the household the bread is soft-deleted: it leaves the active
    transactions, and the expense total falls from 250 to 0. *)
Lemma aggregates_exclude_soft_deleted_witness :
  fst (Repository.softDeleteTransaction (Fixtures.device Fixtures.healthy)
         "t1" Fixtures.household) = true
  /\ TransactionsService.totalExpenseCents None Fixtures.household = 250
  /\ TransactionsService.activeTransactions
       (snd (Repository.softDeleteTransaction
               (Fixtures.device Fixtures.healthy) "t1" Fixtures.household))
       !! "t1" = None.
Proof.
  split; [reflexivity|]. split; [vm_compute; reflexivity|].
  apply (proj2 (proj2 (proj2 (proj2
           (aggregates_exclude_soft_deleted
              (Fixtures.device Fixtures.healthy) Fixtures.household))))
           "t1").
  reflexivity.
Defined.

(** ** Synchronisation engine *)

Section SyncFacts.
Import Schemas Supabase Runtime Repository Control SupabaseSync SyncVocabulary.
Variable env : Env.

(** What applying a remote row does to the tables. *)
Lemma apply_transaction_row_transactions (w : World) (row : TransactionRow.t) :
  transactions (apply_transaction_row env w row)
  = <[TransactionRow.id row :=
        {| Transaction.id := TransactionRow.id row;
           Transaction.type := TransactionRow.type row;
           Transaction.amountCents := TransactionRow.amount_cents row;
           Transaction.categoryId := TransactionRow.category_id row;
           Transaction.timestamp := TransactionRow.timestamp row;
           Transaction.updatedAt := wall_clock env (clock_reads w);
           Transaction.syncStatus := synced;
           Transaction.deleted :=
             bool_decide (TransactionRow.deleted_at row <> None) |}]>
      (transactions w).
Proof. reflexivity. Qed.

Lemma apply_category_row_categories (w : World) (row : CategoryRow.t) :
  categories (apply_category_row env w row)
  = <[CategoryRow.id row :=
        {| Category.id := CategoryRow.id row;
           Category.name := CategoryRow.name row;
           Category.icon := CategoryRow.icon row;
           Category.userDefined := true;
           Category.createdAt :=
             match categories w !! CategoryRow.id row with
             | Some existing => Category.createdAt existing
             | None => CategoryRow.created_at row
             end;
           Category.updatedAt := CategoryRow.updated_at row |}]>
      (categories w).
Proof. reflexivity. Qed.

(** What the steps of a phase leave alone. *)
Lemma apply_transaction_rows_frame (rows : list TransactionRow.t) (w : World) :
  let w' := foldl (apply_transaction_row env) w rows in
  entered w' = entered w /\ requests w' = requests w
  /\ categories w' = categories w.
Proof.
  revert w. induction rows as [|row rows IH]; intros w; cbv zeta;
    [repeat split|].
  change (foldl (apply_transaction_row env) w (row :: rows))
    with (foldl (apply_transaction_row env) (apply_transaction_row env w row) rows).
  destruct (IH (apply_transaction_row env w row)) as (H1 & H2 & H3).
  rewrite H1, H2, H3. repeat split.
Qed.

Lemma apply_category_rows_frame (rows : list CategoryRow.t) (w : World) :
  let w' := foldl (apply_category_row env) w rows in
  entered w' = entered w /\ requests w' = requests w
  /\ transactions w' = transactions w.
Proof.
  revert w. induction rows as [|row rows IH]; intros w; cbv zeta;
    [repeat split|].
  change (foldl (apply_category_row env) w (row :: rows))
    with (foldl (apply_category_row env) (apply_category_row env w row) rows).
  destruct (IH (apply_category_row env w row)) as (H1 & H2 & H3).
  rewrite H1, H2, H3. repeat split.
Qed.

Lemma transaction_payload_frame (user : User) (txn : Transaction.t) (w : World) :
  let w' := snd (transaction_payload env user txn w) in
  entered w' = entered w /\ requests w' = requests w
  /\ transactions w' = transactions w /\ categories w' = categories w.
Proof.
  unfold transaction_payload. destruct (Transaction.deleted txn);
    repeat split.
Qed.

Lemma transaction_payloads_frame (user : User) (txns : list Transaction.t)
  (w : World) :
  let w' := snd (transaction_payloads env user txns w) in
  entered w' = entered w /\ requests w' = requests w
  /\ transactions w' = transactions w /\ categories w' = categories w.
Proof.
  revert w. induction txns as [|txn txns IH]; intros w; cbv zeta;
    [repeat split|].
  simpl.
  pose proof (transaction_payload_frame user txn w) as Hone.
  destruct (transaction_payload env user txn w) as [p w1].
  specialize (IH w1).
  destruct (transaction_payloads env user txns w1) as [ps w2].
  simpl in *. destruct Hone as (H1 & H2 & H3 & H4).
  destruct IH as (I1 & I2 & I3 & I4).
  rewrite I1, I2, I3, I4. auto.
Qed.

Ltac settle_phase :=
  repeat match goal with
         | |- context [match ?x with _ => _ end] => destruct x eqn:?; simpl
         | |- exists r w', (Returns ?a, ?b) = (Returns r, w') /\ _ =>
             exists a, b
         end;
  repeat split; simpl; eauto; try discriminate.

Lemma pullCategories_completes : phase_completes PullCategories (pullCategories env).
Proof.
  intros w. unfold pullCategories, try_catch, bind, getUser, await, lift, ret.
  simpl.
  destruct (auth_getUser (backend env) (requests w)) as [[user|]|e]; simpl;
    [|settle_phase..].
  destruct (select_categories (backend env) _ _) as [reply|e]; simpl;
    [|settle_phase].
  destruct (select_error reply); simpl; [settle_phase|].
  eexists _, _. split; [reflexivity|].
  destruct (apply_category_rows_frame (default [] (data reply))
              (sent (Select (categories_query user))
                    (sent GetUser (enter PullCategories w))))
    as (H1 & _).
  split; [exact H1|discriminate].
Qed.

Lemma pullTransactions_completes (since : option Z) :
  phase_completes PullTransactions (pullTransactions env since).
Proof.
  intros w. unfold pullTransactions, try_catch, bind, getUser, await, lift, ret.
  simpl.
  destruct (auth_getUser (backend env) (requests w)) as [[user|]|e]; simpl;
    [|settle_phase..].
  destruct (select_transactions (backend env) _ _) as [reply|e]; simpl;
    [|settle_phase].
  destruct (select_error reply); simpl; [settle_phase|].
  eexists _, _. split; [reflexivity|].
  destruct (apply_transaction_rows_frame (default [] (data reply))
              (sent (Select (transactions_query user since))
                    (sent GetUser (enter PullTransactions w))))
    as (H1 & _).
  split; [exact H1|discriminate].
Qed.

Lemma pushCategories_completes : phase_completes PushCategories (pushCategories env).
Proof.
  intros w. unfold pushCategories, try_catch, bind, getUser, await, lift, ret.
  simpl.
  destruct (auth_getUser (backend env) (requests w)) as [[user|]|e]; simpl;
    [|settle_phase..].
  destruct (map (category_payload user) _) as [|p ps]; simpl; [settle_phase|].
  destruct (upsert_categories (backend env) _ _) as [reply|e]; simpl;
    [|settle_phase].
  destruct (upsert_error reply); simpl; settle_phase.
Qed.

Lemma pushTransactions_completes :
  phase_completes PushTransactions (pushTransactions env).
Proof.
  intros w. unfold pushTransactions, try_catch, bind, getUser, await, lift, ret.
  simpl.
  destruct (auth_getUser (backend env) (requests w)) as [[user|]|e]; simpl;
    [|settle_phase..].
  destruct (transaction_payloads_frame user
              (orderedTransactions (sent GetUser (enter PushTransactions w)))
              (sent GetUser (enter PushTransactions w))) as (H1 & _).
  destruct (transaction_payloads env user _ _) as [rows w1]; simpl in *.
  destruct (upsert_transactions (backend env) _ _) as [reply|e]; simpl.
  - destruct (upsert_error reply); simpl;
      eexists _, _; (split; [reflexivity|]); simpl; rewrite H1;
      split; eauto; discriminate.
  - eexists _, _; (split; [reflexivity|]); simpl; rewrite H1;
      split; eauto.
Qed.

End SyncFacts.

(** C1. [syncAll] never throws: it returns a result, and a failure
    carries an error message.  The callbacks are entered in the order pull
    categories, pull transactions, push categories, push transactions;
    the first one that returns a failure is the last one entered, its
    result is the result of [syncAll], and the world [syncAll] leaves is
    the world that phase left, itself run from the world left by the
    phases completed before it: what those did is kept. *)
Theorem syncAll_stops_at_first_failure :
  forall (env : Runtime.Env) (isInitialSync : bool) (lastSyncAt : option Z)
         (w : Runtime.World),
    let since := if negb isInitialSync then lastSyncAt else None in
    exists r w',
      SupabaseSync.syncAll env isInitialSync lastSyncAt w
      = (Supabase.Returns r, w')
      /\ (SupabaseSync.success r = false ->
          exists msg, SupabaseSync.error r = Some msg)
      /\ ((SupabaseSync.pullCategories env w = (Supabase.Returns r, w')
           /\ SupabaseSync.success r = false
           /\ Runtime.entered w'
              = (Runtime.entered w ++ [Runtime.PullCategories])%list)
          \/ exists r1 w1,
              SupabaseSync.pullCategories env w = (Supabase.Returns r1, w1)
              /\ SupabaseSync.success r1 = true
              /\ ((SupabaseSync.pullTransactions env since w1
                   = (Supabase.Returns r, w')
                   /\ SupabaseSync.success r = false
                   /\ Runtime.entered w'
                      = (Runtime.entered w
                         ++ [Runtime.PullCategories;
                             Runtime.PullTransactions])%list)
                  \/ exists r2 w2,
                      SupabaseSync.pullTransactions env since w1
                      = (Supabase.Returns r2, w2)
                      /\ SupabaseSync.success r2 = true
                      /\ ((SupabaseSync.pushCategories env w2
                           = (Supabase.Returns r, w')
                           /\ SupabaseSync.success r = false
                           /\ Runtime.entered w'
                              = (Runtime.entered w
                                 ++ [Runtime.PullCategories;
                                     Runtime.PullTransactions;
                                     Runtime.PushCategories])%list)
                          \/ exists r3 w3,
                              SupabaseSync.pushCategories env w2
                              = (Supabase.Returns r3, w3)
                              /\ SupabaseSync.success r3 = true
                              /\ SupabaseSync.pushTransactions env w3
                                 = (Supabase.Returns r, w')
                              /\ Runtime.entered w'
                                 = (Runtime.entered w
                                    ++ [Runtime.PullCategories;
                                        Runtime.PullTransactions;
                                        Runtime.PushCategories;
                                        Runtime.PushTransactions])%list))).
Proof.
  intros env isInitialSync lastSyncAt w since.
  unfold SupabaseSync.syncAll, Control.bind. fold since.
  destruct (pullCategories_completes env w) as (r1 & w1 & H1 & E1 & M1).
  rewrite H1.
  destruct (SupabaseSync.success r1) eqn:S1; simpl;
    [|exists r1, w1; split; [reflexivity|]; split; [intros _; apply M1; reflexivity|];
      left; auto].
  destruct (pullTransactions_completes env since w1) as (r2 & w2 & H2 & E2 & M2).
  rewrite H2.
  destruct (SupabaseSync.success r2) eqn:S2; simpl;
    [|exists r2, w2; split; [reflexivity|]; split; [intros _; apply M2; reflexivity|];
      right; exists r1, w1; repeat split; auto; left; repeat split; auto;
      rewrite E2, E1, <- app_assoc; reflexivity].
  destruct (pushCategories_completes env w2) as (r3 & w3 & H3 & E3 & M3).
  rewrite H3.
  destruct (SupabaseSync.success r3) eqn:S3; simpl;
    [|exists r3, w3; split; [reflexivity|]; split; [intros _; apply M3; reflexivity|];
      right; exists r1, w1; repeat split; auto;
      right; exists r2, w2; repeat split; auto; left; repeat split; auto;
      rewrite E3, E2, E1, <- !app_assoc; reflexivity].
  destruct (pushTransactions_completes env w3) as (r4 & w4 & H4 & E4 & M4).
  rewrite H4. simpl.
  exists r4, w4. split; [reflexivity|]. split; [exact M4|].
  right; exists r1, w1; repeat split; auto.
  right; exists r2, w2; repeat split; auto.
  right; exists r3, w3; repeat split; auto.
  rewrite E4, E3, E2, E1, <- !app_assoc. reflexivity.
Qed.

(** With a remote that refuses the upsert of categories, the cycle stops
    in the third phase with the error of the remote; the push of
    transactions is not entered, and the transaction pulled in the second
    phase stays in the store. *)
Lemma syncAll_stops_at_first_failure_witness :
  (exists r w',
      SupabaseSync.syncAll (Fixtures.device Fixtures.refusing_categories)
                           true None Fixtures.household
      = (Supabase.Returns r, w'))
  /\ fst (SupabaseSync.syncAll (Fixtures.device Fixtures.refusing_categories)
                               true None Fixtures.household)
     = Supabase.Returns (SupabaseSync.failed "permission denied")
  /\ Runtime.entered
       (snd (SupabaseSync.syncAll (Fixtures.device Fixtures.refusing_categories)
                                  true None Fixtures.household))
     = [Runtime.PullCategories; Runtime.PullTransactions;
        Runtime.PushCategories]
  /\ is_Some (Runtime.transactions
                (snd (SupabaseSync.syncAll
                        (Fixtures.device Fixtures.refusing_categories)
                        true None Fixtures.household)) !! "t9").
Proof.
  split.
  - destruct (syncAll_stops_at_first_failure
                (Fixtures.device Fixtures.refusing_categories)
                true None Fixtures.household) as (r & w' & Hrun & _).
    exists r, w'. exact Hrun.
  - split; [vm_compute; reflexivity|].
    split; [vm_compute; reflexivity|].
    vm_compute. eexists. reflexivity.
Defined.

Section PullFacts.
Import Schemas Supabase Runtime Repository Control SupabaseSync SyncVocabulary.
Variable env : Env.

(** After the rows are applied in order, the id of each of them holds
    the record of the last row with that id, and the other ids hold what
    they held. *)
Lemma apply_transaction_rows_lookup (rows : list TransactionRow.t) (w : World)
  (k : string) :
  let w' := foldl (apply_transaction_row env) w rows in
  (k ∉ map TransactionRow.id rows -> transactions w' !! k = transactions w !! k)
  /\ (k ∈ map TransactionRow.id rows ->
      exists row n, row ∈ rows /\ TransactionRow.id row = k
                    /\ transactions w' !! k
                       = Some (stored_row row (wall_clock env n))).
Proof.
  revert w. induction rows as [|row0 rows IH]; intros w; cbv zeta.
  - split; [reflexivity|]. intros Hk. inversion Hk.
  - change (foldl (apply_transaction_row env) w (row0 :: rows))
      with (foldl (apply_transaction_row env)
                  (apply_transaction_row env w row0) rows).
    destruct (IH (apply_transaction_row env w row0)) as [Hout Hin].
    split.
    + intros Hk. simpl in Hk. apply not_elem_of_cons in Hk.
      destruct Hk as [Hne Hk].
      rewrite (Hout Hk), apply_transaction_row_transactions.
      apply lookup_insert_ne. congruence.
    + intros Hk.
      destruct (decide (k ∈ map TransactionRow.id rows)) as [Hmem|Hmem].
      * destruct (Hin Hmem) as (row & n & Hrow & Hid & Hres).
        exists row, n. repeat split; auto. right. exact Hrow.
      * simpl in Hk. apply elem_of_cons in Hk.
        destruct Hk as [->|Hk]; [|contradiction].
        exists row0, (clock_reads w). split; [left|]. split; [reflexivity|].
        rewrite (Hout Hmem), apply_transaction_row_transactions.
        apply lookup_insert_eq.
Qed.

Lemma transactions_query_asks (user : User) (since : option Z)
  (row : TransactionRow.t) :
  requests_transaction (transactions_query user since) row = true
  <-> TransactionRow.user_id row = uid user
      /\ match since with
         | Some T => T < TransactionRow.updated_at row
         | None => True
         end.
Proof.
  unfold requests_transaction, transactions_query. simpl.
  unfold transaction_passes. simpl.
  destruct since as [T|]; simpl;
    rewrite ?andb_true_r, ?andb_true_iff, String.eqb_eq, ?Z.ltb_lt; tauto.
Qed.

End PullFacts.

(** C2. For an authenticated user, [pullTransactions(since)] sends one
    select on [transactions]: with [since = T] its filters are
    [user_id = uid] and [updated_at > T], so that the rows it asks for
    are exactly the rows of the user updated after [T]; with [since]
    omitted the only filter is [user_id = uid], which asks for all the
    rows of the user.  When the select succeeds the phase succeeds and
    the rows received are applied in order through [upsertTransaction]:
    the id of every row received then holds the record of a received row
    with that id, with [syncStatus = synced] and
    [deleted = (deleted_at !== null)]; and when the remote returns only
    rows the query asks for, every row applied was updated after [T]. *)
Theorem pullTransactions_incremental :
  forall (env : Runtime.Env) (since : option Z) (w : Runtime.World)
         (user : Supabase.User),
    Supabase.auth_getUser (Runtime.backend env) (Runtime.requests w)
    = Supabase.Returns (Some user) ->
    let q := SupabaseSync.transactions_query user since in
    let result := SupabaseSync.pullTransactions env since w in
    Supabase.table q = "transactions"
    /\ Supabase.filters q
       = Supabase.eq "user_id" (Supabase.uid user)
         :: match since with
            | Some T => [Supabase.gt "updated_at" T]
            | None => []
            end
    /\ (forall row,
          Supabase.requests_transaction q row = true
          <-> Supabase.TransactionRow.user_id row = Supabase.uid user
              /\ match since with
                 | Some T => T < Supabase.TransactionRow.updated_at row
                 | None => True
                 end)
    /\ Runtime.requests (snd result)
       = (Runtime.requests w ++ [Supabase.GetUser; Supabase.Select q])%list
    /\ forall reply,
        Supabase.select_transactions (Runtime.backend env)
          (Runtime.requests w ++ [Supabase.GetUser])%list q
        = Supabase.Returns reply ->
        Supabase.select_error reply = None ->
        let rows := default [] (Supabase.data reply) in
        fst result = Supabase.Returns SupabaseSync.succeeded
        /\ (exists w1,
               Runtime.transactions w1 = Runtime.transactions w
               /\ Runtime.categories w1 = Runtime.categories w
               /\ snd result
                  = foldl (SupabaseSync.apply_transaction_row env) w1 rows)
        /\ (forall row, row ∈ rows ->
              exists row' n,
                row' ∈ rows
                /\ Supabase.TransactionRow.id row'
                   = Supabase.TransactionRow.id row
                /\ Runtime.transactions (snd result)
                     !! Supabase.TransactionRow.id row
                   = Some (SyncVocabulary.stored_row row' (Runtime.wall_clock env n))
                /\ Schemas.Transaction.syncStatus
                     (SyncVocabulary.stored_row row' (Runtime.wall_clock env n))
                   = Schemas.synced
                /\ Schemas.Transaction.deleted
                     (SyncVocabulary.stored_row row' (Runtime.wall_clock env n))
                   = bool_decide (Supabase.TransactionRow.deleted_at row' <> None))
        /\ ((forall row, row ∈ rows ->
               Supabase.requests_transaction q row = true) ->
            forall row T, since = Some T -> row ∈ rows ->
                          T < Supabase.TransactionRow.updated_at row).
Proof.
  intros env since w user Hauth q result.
  split; [reflexivity|]. split; [reflexivity|].
  split; [apply transactions_query_asks|].
  assert (Hrun : result =
            match Supabase.select_transactions (Runtime.backend env)
                    (Runtime.requests w ++ [Supabase.GetUser])%list q with
            | Supabase.Returns reply =>
                match Supabase.select_error reply with
                | Some msg =>
                    (Supabase.Returns (SupabaseSync.failed msg),
                     Runtime.sent (Supabase.Select q)
                       (Runtime.sent Supabase.GetUser
                          (Runtime.enter Runtime.PullTransactions w)))
                | None =>
                    (Supabase.Returns SupabaseSync.succeeded,
                     foldl (SupabaseSync.apply_transaction_row env)
                       (Runtime.sent (Supabase.Select q)
                          (Runtime.sent Supabase.GetUser
                             (Runtime.enter Runtime.PullTransactions w)))
                       (default [] (Supabase.data reply)))
                end
            | Supabase.Throws e =>
                (Supabase.Returns
                   (SupabaseSync.failed
                      (SupabaseSync.message_or "Failed to sync transactions" e)),
                 Runtime.sent (Supabase.Select q)
                   (Runtime.sent Supabase.GetUser
                      (Runtime.enter Runtime.PullTransactions w)))
            end).
  { subst result q.
    unfold SupabaseSync.pullTransactions, Control.try_catch, Control.bind,
      SupabaseSync.getUser, Control.await, Control.lift, Control.ret.
    simpl. rewrite Hauth. simpl.
    destruct (Supabase.select_transactions _ _ _) as [reply|e]; simpl;
      [|reflexivity].
    destruct (Supabase.select_error reply); reflexivity. }
  split.
  - rewrite Hrun.
    destruct (Supabase.select_transactions _ _ _) as [reply|e];
      [destruct (Supabase.select_error reply)|]; simpl;
      rewrite <- ?app_assoc; try reflexivity.
    destruct (apply_transaction_rows_frame env (default [] (Supabase.data reply))
                (Runtime.sent (Supabase.Select q)
                   (Runtime.sent Supabase.GetUser
                      (Runtime.enter Runtime.PullTransactions w))))
      as (_ & Hreq & _).
    rewrite Hreq. simpl. rewrite <- app_assoc. reflexivity.
  - intros reply Hreply Herr rows.
    rewrite Hrun, Hreply, Herr. simpl fst. simpl snd.
    split; [reflexivity|]. split; [|split].
    + eexists. split; [|split; [|reflexivity]]; reflexivity.
    + intros row Hrow.
      destruct (apply_transaction_rows_lookup env rows
                  (Runtime.sent (Supabase.Select q)
                     (Runtime.sent Supabase.GetUser
                        (Runtime.enter Runtime.PullTransactions w)))
                  (Supabase.TransactionRow.id row)) as [_ Hin].
      destruct Hin as (row' & n & Hrow' & Hid & Hres).
      { apply list_elem_of_fmap. eauto. }
      exists row', n. repeat split; auto.
    + intros Hhonest row T -> Hrow.
      apply Hhonest in Hrow. apply transactions_query_asks in Hrow.
      tauto.
Qed.

(** In the household, with the remote holding the rent updated at 800: a
    pull since 700 stores the rent, synced and deleted; a pull since 800
    asks for nothing the remote has. *)
Lemma pullTransactions_incremental_witness :
  Supabase.auth_getUser (Runtime.backend (Fixtures.device Fixtures.healthy))
    (Runtime.requests Fixtures.household)
  = Supabase.Returns (Some {| Supabase.uid := "u1" |})
  /\ Runtime.requests
       (snd (SupabaseSync.pullTransactions (Fixtures.device Fixtures.healthy)
               (Some 700) Fixtures.household))
     = [Supabase.GetUser;
        Supabase.Select
          {| Supabase.table := "transactions";
             Supabase.filters :=
               [Supabase.eq "user_id" "u1"; Supabase.gt "updated_at" 700] |}]
  /\ Runtime.transactions
       (snd (SupabaseSync.pullTransactions (Fixtures.device Fixtures.healthy)
               (Some 700) Fixtures.household)) !! "t9"
     = Some (SyncVocabulary.stored_row Fixtures.remote_rent 1000)
  /\ Runtime.transactions
       (snd (SupabaseSync.pullTransactions (Fixtures.device Fixtures.healthy)
               (Some 800) Fixtures.household)) !! "t9"
     = None.
Proof.
  split; [reflexivity|]. split.
  - apply (pullTransactions_incremental (Fixtures.device Fixtures.healthy)
             (Some 700) Fixtures.household {| Supabase.uid := "u1" |}).
    reflexivity.
  - split; vm_compute; reflexivity.
Defined.

(** C7, as stated, fails on a category whose id is already in the store:
    the groceries were created locally at 1, the remote row with their id
    was created at 500, and after the pull the local [createdAt] is still
    1, while [updatedAt] and [userDefined] are those of the pull. *)
Lemma pulled_category_createdAt_counterexample :
  Schemas.Category.createdAt Fixtures.groceries = 1
  /\ Supabase.CategoryRow.created_at Fixtures.remote_groceries = 500
  /\ Runtime.categories
       (snd (SupabaseSync.pullCategories (Fixtures.device Fixtures.healthy)
               Fixtures.household)) !! "c1"
     = Some {| Schemas.Category.id := "c1";
               Schemas.Category.name := "Food";
               Schemas.Category.icon := "fast-food-outline";
               Schemas.Category.userDefined := true;
               Schemas.Category.createdAt := 1;
               Schemas.Category.updatedAt := 900 |}
  /\ (1 <> 500).
Proof.
  repeat split; try (vm_compute; reflexivity). discriminate.
Qed.

(** C7, as amended.  A category row applied by the pull of categories or
    by the realtime handler is stored under its id with the name and icon
    of the row, [userDefined = true] and the [updated_at] of the row as
    [updatedAt]; [createdAt] is the [created_at] of the row when no local
    record has that id, and the [createdAt] of the local record when one
    has.  The other categories are left as they were.  The pull applies
    in this way, in order, the rows the remote returned, and the realtime
    handler the row of an insert or update event. *)
Theorem pulled_category_fields :
  forall (env : Runtime.Env) (w : Runtime.World),
    (forall row : Supabase.CategoryRow.t,
        let w' := SupabaseSync.apply_category_row env w row in
        Runtime.categories w' !! Supabase.CategoryRow.id row
        = Some {| Schemas.Category.id := Supabase.CategoryRow.id row;
                  Schemas.Category.name := Supabase.CategoryRow.name row;
                  Schemas.Category.icon := Supabase.CategoryRow.icon row;
                  Schemas.Category.userDefined := true;
                  Schemas.Category.createdAt :=
                    match Runtime.categories w !! Supabase.CategoryRow.id row with
                    | Some existing => Schemas.Category.createdAt existing
                    | None => Supabase.CategoryRow.created_at row
                    end;
                  Schemas.Category.updatedAt :=
                    Supabase.CategoryRow.updated_at row |}
        /\ forall k, k <> Supabase.CategoryRow.id row ->
                     Runtime.categories w' !! k = Runtime.categories w !! k)
    /\ (forall user reply,
           Supabase.auth_getUser (Runtime.backend env) (Runtime.requests w)
           = Supabase.Returns (Some user) ->
           Supabase.select_categories (Runtime.backend env)
             (Runtime.requests w ++ [Supabase.GetUser])%list
             (SupabaseSync.categories_query user)
           = Supabase.Returns reply ->
           Supabase.select_error reply = None ->
           exists w1,
             Runtime.categories w1 = Runtime.categories w
             /\ SupabaseSync.pullCategories env w
                = (Supabase.Returns SupabaseSync.succeeded,
                   foldl (SupabaseSync.apply_category_row env) w1
                         (default [] (Supabase.data reply))))
    /\ (forall payload,
           SupabaseSync.eventType payload <> SupabaseSync.DELETE ->
           SupabaseSync.on_category_change env payload w
           = SupabaseSync.apply_category_row env w (SupabaseSync.new payload)).
Proof.
  intros env w. split; [|split].
  - intros row w'. subst w'. rewrite apply_category_row_categories.
    split; [apply lookup_insert_eq|].
    intros k Hk. apply lookup_insert_ne. congruence.
  - intros user reply Hauth Hreply Herr.
    exists (Runtime.sent (Supabase.Select (SupabaseSync.categories_query user))
              (Runtime.sent Supabase.GetUser
                 (Runtime.enter Runtime.PullCategories w))).
    split; [reflexivity|].
    unfold SupabaseSync.pullCategories, Control.try_catch, Control.bind,
      SupabaseSync.getUser, Control.await, Control.lift, Control.ret.
    simpl. rewrite Hauth. simpl. rewrite Hreply. simpl. rewrite Herr.
    reflexivity.
  - intros payload Hev. unfold SupabaseSync.on_category_change.
    destruct (SupabaseSync.eventType payload); congruence.
Qed.

(** A realtime update of the groceries is applied like a pulled row. *)
Lemma pulled_category_fields_witness :
  SupabaseSync.on_category_change (Fixtures.device Fixtures.healthy)
    {| SupabaseSync.eventType := SupabaseSync.UPDATE;
       SupabaseSync.new := Fixtures.remote_groceries |}
    Fixtures.household
  = SupabaseSync.apply_category_row (Fixtures.device Fixtures.healthy)
      Fixtures.household Fixtures.remote_groceries.
Proof.
  apply (pulled_category_fields (Fixtures.device Fixtures.healthy)
                                Fixtures.household).
  discriminate.
Defined.

(** ** Maintenance job *)

Section DateFacts.
Import JSDate.

Lemma year_from_spec (day : Z) (fuel : nat) (y : Z) :
  DayFromYear y <= day -> day < DayFromYear (y + Z.of_nat fuel + 1) ->
  DayFromYear (year_from fuel y day) <= day
  < DayFromYear (year_from fuel y day + 1).
Proof.
  revert y. induction fuel as [|fuel IH]; intros y Hlo Hhi;
    cbn [year_from].
  - change (Z.of_nat 0) with 0 in Hhi. rewrite Z.add_0_r in Hhi.
    destruct (Z.leb_spec (DayFromYear (y + 1)) day); lia.
  - destruct (Z.leb_spec (DayFromYear (y + 1)) day); [|lia].
    apply IH; [lia|].
    replace (y + 1 + Z.of_nat fuel + 1) with (y + Z.of_nat (S fuel) + 1) by lia.
    exact Hhi.
Qed.

(** The search finds the year of every time value: the largest year that
    starts on or before its day. *)
Lemma YearFromTime_spec (t : Z) :
  DayFromYear (YearFromTime t) <= Day t < DayFromYear (YearFromTime t + 1).
Proof.
  unfold YearFromTime. apply year_from_spec.
  - unfold DayFromYear. destruct (Z.leb_spec 0 (Day t));
      Z.to_euclidean_division_equations; lia.
  - unfold DayFromYear.
    rewrite Z2Nat.id by (Z.to_euclidean_division_equations; lia).
    destruct (Z.leb_spec 0 (Day t));
      Z.to_euclidean_division_equations; lia.
Qed.



End DateFacts.

Section MaintenanceFacts.
Import Schemas Supabase Runtime Repository Control Maintenance.
Variable env : Env.
Variable config : Config.

Lemma eligible_iff (t : Transaction.t) (days : option Z) (w : World) :
  fst (isTombstoneEligibleForPurge env config t days w) = true
  <-> Transaction.deleted t = true
      /\ Transaction.syncStatus t = synced
      /\ Transaction.updatedAt t
         < retentionThreshold env
             (default (TOMBSTONE_RETENTION_DAYS config) days)
             (wall_clock env (clock_reads w)).
Proof.
  unfold isTombstoneEligibleForPurge.
  destruct (Transaction.deleted t); simpl; [|intuition discriminate].
  destruct (Transaction.syncStatus t); simpl; [intuition discriminate|].
  rewrite Z.ltb_lt. tauto.
Qed.

Lemma eligible_frame (t : Transaction.t) (days : option Z) (w : World) :
  transactions (snd (isTombstoneEligibleForPurge env config t days w))
  = transactions w.
Proof.
  unfold isTombstoneEligibleForPurge.
  destruct (Transaction.deleted t); simpl; [|reflexivity].
  destruct (Transaction.syncStatus t); reflexivity.
Qed.

(** A check reads the clock at most once, and once when it succeeds. *)
Lemma eligible_clock (t : Transaction.t) (days : option Z) (w : World) :
  (clock_reads w
   <= clock_reads (snd (isTombstoneEligibleForPurge env config t days w))
   <= S (clock_reads w))%nat
  /\ (fst (isTombstoneEligibleForPurge env config t days w) = true ->
      clock_reads (snd (isTombstoneEligibleForPurge env config t days w))
      = S (clock_reads w)).
Proof.
  unfold isTombstoneEligibleForPurge.
  destruct (Transaction.deleted t); simpl; [|split; [lia|discriminate]].
  destruct (Transaction.syncStatus t); simpl;
    [split; [lia|discriminate]|split; [lia|reflexivity]].
Qed.

(** The first loop only reads the clock, and collects keys judged
    eligible at one of the readings it takes. *)
Lemma collect_spec (pending : list (string * Transaction.t))
  (toPurge : list string) (w : World) :
  transactions (snd (collect env config pending toPurge w)) = transactions w
  /\ (clock_reads w
      <= clock_reads (snd (collect env config pending toPurge w)))%nat
  /\ forall k, k ∈ fst (collect env config pending toPurge w) ->
       k ∈ toPurge
       \/ exists t n, (k, t) ∈ pending
                      /\ Transaction.deleted t = true
                      /\ Transaction.syncStatus t = synced
                      /\ (clock_reads w <= n
                          < clock_reads
                              (snd (collect env config pending toPurge w)))%nat
                      /\ Transaction.updatedAt t
                         < retentionThreshold env
                             (TOMBSTONE_RETENTION_DAYS config)
                             (wall_clock env n).
Proof.
  revert toPurge w. induction pending as [|[key t] rest IH]; intros toPurge w.
  - simpl. split; [reflexivity|]. split; [lia|]. auto.
  - simpl.
    pose proof (eligible_iff t None w) as Hel.
    pose proof (eligible_frame t None w) as Hfr.
    pose proof (eligible_clock t None w) as [Hck Hck1].
    destruct (isTombstoneEligibleForPurge env config t None w) as [ok w1].
    simpl in Hel, Hfr, Hck, Hck1. destruct ok.
    + specialize (Hck1 eq_refl).
      assert (Ht : Transaction.deleted t = true
                   /\ Transaction.syncStatus t = synced
                   /\ Transaction.updatedAt t
                      < retentionThreshold env
                          (TOMBSTONE_RETENTION_DAYS config)
                          (wall_clock env (clock_reads w)))
        by (apply Hel; reflexivity).
      destruct Ht as (Hd & Hs & Hold).
      destruct (PURGE_BATCH_SIZE config <=? length (toPurge ++ [key]))%nat.
      * simpl. split; [exact Hfr|]. split; [lia|].
        intros k Hk. apply elem_of_app in Hk. destruct Hk as [Hk|Hk]; [auto|].
        apply list_elem_of_singleton in Hk. subst k. right.
        exists t, (clock_reads w). split; [left|].
        split; [exact Hd|]. split; [exact Hs|]. split; [lia|exact Hold].
      * destruct (IH (toPurge ++ [key])%list w1) as (Hkeep & Hmono & Hkeys).
        split; [rewrite Hkeep; exact Hfr|]. split; [lia|].
        intros k Hk.
        destruct (Hkeys k Hk) as [Hacc|(t0 & n & Hin & Hd0 & Hs0 & Hn & Hold0)].
        -- apply elem_of_app in Hacc. destruct Hacc as [Hacc|Hacc]; [auto|].
           apply list_elem_of_singleton in Hacc. subst k. right.
           exists t, (clock_reads w). split; [left|].
           split; [exact Hd|]. split; [exact Hs|]. split; [lia|exact Hold].
        -- right. exists t0, n. split; [right; exact Hin|].
           split; [exact Hd0|]. split; [exact Hs0|]. split; [lia|exact Hold0].
    + destruct (IH toPurge w1) as (Hkeep & Hmono & Hkeys).
      split; [rewrite Hkeep; exact Hfr|]. split; [lia|].
      intros k Hk.
      destruct (Hkeys k Hk) as [Hacc|(t0 & n & Hin & Hd0 & Hs0 & Hn & Hold0)].
      * left. exact Hacc.
      * right. exists t0, n. split; [right; exact Hin|].
        split; [exact Hd0|]. split; [exact Hs0|]. split; [lia|exact Hold0].
Qed.

(** The second loop removes the collected keys only. *)
Lemma delete_counted_other (keys : list string) (state : Z * World)
  (k : string) :
  k ∉ keys ->
  transactions (snd (foldl delete_counted state keys)) !! k
  = transactions (snd state) !! k.
Proof.
  revert state. induction keys as [|k0 keys IH]; intros state Hk;
    [reflexivity|].
  change (foldl delete_counted state (k0 :: keys))
    with (foldl delete_counted (delete_counted state k0) keys).
  apply not_elem_of_cons in Hk. destruct Hk as [Hne Hk].
  rewrite (IH _ Hk). simpl. apply lookup_delete_ne. congruence.
Qed.

Lemma delete_counted_clock (keys : list string) (state : Z * World) :
  clock_reads (snd (foldl delete_counted state keys))
  = clock_reads (snd state).
Proof.
  revert state. induction keys as [|k0 keys IH]; intros state;
    [reflexivity|].
  change (foldl delete_counted state (k0 :: keys))
    with (foldl delete_counted (delete_counted state k0) keys).
  rewrite IH. reflexivity.
Qed.

(** A record the purge removes was a synced tombstone judged older than
    the retention window at a reading of the clock taken by the purge. *)
Lemma purge_removes_only_eligible (w : World) (id : string) (t : Transaction.t) :
  transactions w !! id = Some t ->
  transactions (snd (purgeOldTombstones env config w)) !! id <> Some t ->
  Transaction.deleted t = true
  /\ Transaction.syncStatus t = synced
  /\ exists n,
       (clock_reads w <= n
        < clock_reads (snd (purgeOldTombstones env config w)))%nat
       /\ Transaction.updatedAt t
          < retentionThreshold env (TOMBSTONE_RETENTION_DAYS config)
                               (wall_clock env n).
Proof.
  intros Hid Hgone. unfold purgeOldTombstones in Hgone |- *.
  destruct (ENABLE_TOMBSTONE_PURGE config); simpl in Hgone |- *;
    [|contradiction].
  unfold try_catch, lift in Hgone |- *.
  destruct (collect_spec (map_to_list (deletedTransactions w)) [] w)
    as (Hkeep & _ & Hkeys).
  destruct (collect env config (map_to_list (deletedTransactions w)) [] w)
    as [toPurge w1] eqn:Hcol.
  simpl in Hkeep, Hkeys.
  pose proof (delete_counted_clock toPurge (0, w1)) as Hclock.
  destruct (foldl delete_counted (0, w1) toPurge) as [count w2] eqn:Hdel.
  simpl in Hgone, Hclock |- *.
  destruct (decide (id ∈ toPurge)) as [Hmem|Hmem].
  - destruct (Hkeys id Hmem) as [Hnil|(t0 & n & Hin & Hd & Hs & Hn & Hold)];
      [inversion Hnil|].
    apply elem_of_map_to_list in Hin.
    apply map_lookup_filter_Some in Hin. destruct Hin as [Hlook _].
    rewrite Hid in Hlook. inversion Hlook; subst t0.
    split; [exact Hd|]. split; [exact Hs|].
    exists n. rewrite Hclock. split; [exact Hn|exact Hold].
  - exfalso. apply Hgone.
    pose proof (delete_counted_other toPurge (0, w1) id Hmem) as Hsame.
    rewrite Hdel in Hsame. simpl in Hsame.
    rewrite Hsame, Hkeep. exact Hid.
Qed.

End MaintenanceFacts.



(** * Further properties *)

(** ** Repository: writes and lookups *)

(** X1. [upsertTransaction] returns the id of the draft when it has one,
    and a generated id otherwise.  The record is then found under that
    id with the fields of the draft, a reading of the clock as
    [updatedAt], the status [local] and [deleted = false] unless the
    draft says otherwise.  Every other transaction, and the categories,
    are as they were, and the table gains one record exactly when the id
    was free: upserting twice under one id leaves a single record. *)
Theorem upsertTransaction_round_trip :
  forall (env : Runtime.Env) (draft : Repository.TransactionDraft.t)
         (w : Runtime.World),
    let id := fst (Repository.upsertTransaction env draft w) in
    let w' := snd (Repository.upsertTransaction env draft w) in
    (forall i, Repository.TransactionDraft.id draft = Some i -> id = i)
    /\ (Repository.TransactionDraft.id draft = None ->
        id = Runtime.fresh_uuid env (Runtime.uuids_made w))
    /\ (exists n,
          (Runtime.clock_reads w <= n < Runtime.clock_reads w')%nat
          /\ Runtime.transactions w' !! id
             = Some {| Schemas.Transaction.id := id;
                       Schemas.Transaction.type :=
                         Repository.TransactionDraft.type draft;
                       Schemas.Transaction.amountCents :=
                         Repository.TransactionDraft.amountCents draft;
                       Schemas.Transaction.categoryId :=
                         Repository.TransactionDraft.categoryId draft;
                       Schemas.Transaction.timestamp :=
                         Repository.TransactionDraft.timestamp draft;
                       Schemas.Transaction.updatedAt := Runtime.wall_clock env n;
                       Schemas.Transaction.syncStatus :=
                         default Schemas.local
                           (Repository.TransactionDraft.syncStatus draft);
                       Schemas.Transaction.deleted :=
                         default false
                           (Repository.TransactionDraft.deleted draft) |})
    /\ (forall k, k <> id ->
          Runtime.transactions w' !! k = Runtime.transactions w !! k)
    /\ Runtime.categories w' = Runtime.categories w
    /\ size (Runtime.transactions w')
       = match Runtime.transactions w !! id with
         | Some _ => size (Runtime.transactions w)
         | None => S (size (Runtime.transactions w))
         end
    /\ (forall i, Repository.TransactionDraft.id draft = Some i ->
          size (Runtime.transactions
                  (snd (Repository.upsertTransaction env draft w')))
          = size (Runtime.transactions w')).
Proof.
  intros env draft w id w'. subst id w'. unfold Repository.upsertTransaction.
  destruct (Repository.TransactionDraft.id draft) as [i|] eqn:Hid; simpl.
  - split; [intros j Hj; congruence|]. split; [discriminate|].
    split; [exists (Runtime.clock_reads w); split; [lia|apply lookup_insert_eq]|].
    split; [intros k Hk; apply lookup_insert_ne; congruence|].
    split; [reflexivity|].
    split.
    + rewrite map_size_insert.
      destruct (Runtime.transactions w !! i); reflexivity.
    + intros j _. rewrite map_size_insert, lookup_insert_eq. reflexivity.
  - split; [discriminate|]. split; [reflexivity|].
    split; [exists (Runtime.clock_reads w); split; [lia|apply lookup_insert_eq]|].
    split; [intros k Hk; apply lookup_insert_ne; congruence|].
    split; [reflexivity|].
    split; [|discriminate].
    rewrite map_size_insert.
    destruct (Runtime.transactions w !! _); reflexivity.
Qed.

(** The bread of the household is saved again as an income: it is
    replaced in place. *)
Lemma upsertTransaction_round_trip_witness :
  fst (Repository.upsertTransaction (Fixtures.device Fixtures.healthy)
         {| Repository.TransactionDraft.id := Some "t1";
            Repository.TransactionDraft.type := Schemas.income;
            Repository.TransactionDraft.amountCents := 5;
            Repository.TransactionDraft.categoryId := "c2";
            Repository.TransactionDraft.timestamp := 10;
            Repository.TransactionDraft.syncStatus := None;
            Repository.TransactionDraft.deleted := None |}
         Fixtures.household) = "t1".
Proof.
  apply (upsertTransaction_round_trip (Fixtures.device Fixtures.healthy)
           {| Repository.TransactionDraft.id := Some "t1";
              Repository.TransactionDraft.type := Schemas.income;
              Repository.TransactionDraft.amountCents := 5;
              Repository.TransactionDraft.categoryId := "c2";
              Repository.TransactionDraft.timestamp := 10;
              Repository.TransactionDraft.syncStatus := None;
              Repository.TransactionDraft.deleted := None |}
           Fixtures.household).
  reflexivity.
Defined.

(** X2. [softDeleteTransaction] on an id that holds no transaction
    returns false and changes nothing.  On a stored transaction it
    returns true and only marks it: [deleted] becomes true, [syncStatus]
    becomes [local] (also for a record that was synced or already
    deleted), [updatedAt] is the reading of the clock, and the id, type,
    amount, category and timestamp are kept; no record is added or
    removed and the other records and the categories are untouched. *)
Theorem softDeleteTransaction_marks :
  forall (env : Runtime.Env) (id : string) (w : Runtime.World),
    (Runtime.transactions w !! id = None ->
     Repository.softDeleteTransaction env id w = (false, w))
    /\ (forall t,
          Runtime.transactions w !! id = Some t ->
          let w' := snd (Repository.softDeleteTransaction env id w) in
          fst (Repository.softDeleteTransaction env id w) = true
          /\ (exists t',
                Runtime.transactions w' !! id = Some t'
                /\ Schemas.Transaction.deleted t' = true
                /\ Schemas.Transaction.syncStatus t' = Schemas.local
                /\ Schemas.Transaction.updatedAt t'
                   = Runtime.wall_clock env (Runtime.clock_reads w)
                /\ Schemas.Transaction.id t' = Schemas.Transaction.id t
                /\ Schemas.Transaction.type t' = Schemas.Transaction.type t
                /\ Schemas.Transaction.amountCents t'
                   = Schemas.Transaction.amountCents t
                /\ Schemas.Transaction.categoryId t'
                   = Schemas.Transaction.categoryId t
                /\ Schemas.Transaction.timestamp t'
                   = Schemas.Transaction.timestamp t)
          /\ (forall k, k <> id ->
                Runtime.transactions w' !! k = Runtime.transactions w !! k)
          /\ size (Runtime.transactions w') = size (Runtime.transactions w)
          /\ Runtime.categories w' = Runtime.categories w).
Proof.
  intros env id w. unfold Repository.softDeleteTransaction. split.
  - intros ->. reflexivity.
  - intros t Ht. rewrite Ht. simpl. split; [reflexivity|]. split.
    + eexists. split; [apply lookup_insert_eq|]. simpl. repeat split.
    + split; [intros k Hk; apply lookup_insert_ne; congruence|].
      split; [|reflexivity].
      rewrite map_size_insert, Ht. reflexivity.
Qed.

Lemma softDeleteTransaction_marks_witness :
  Repository.softDeleteTransaction (Fixtures.device Fixtures.healthy) "zz"
    Fixtures.household
  = (false, Fixtures.household).
Proof.
  apply (softDeleteTransaction_marks (Fixtures.device Fixtures.healthy)
           "zz" Fixtures.household).
  reflexivity.
Defined.

(** X3. [purgeTransaction] on an id that holds no transaction returns
    false and changes nothing.  On a stored transaction it returns true,
    the id then holds nothing, the table has one record less, the other
    records are untouched, and a second purge or a soft delete of the
    same id finds nothing and returns false. *)
Theorem purgeTransaction_removes :
  forall (env : Runtime.Env) (id : string) (w : Runtime.World),
    (Runtime.transactions w !! id = None ->
     Repository.purgeTransaction id w = (false, w))
    /\ (forall t,
          Runtime.transactions w !! id = Some t ->
          let w' := snd (Repository.purgeTransaction id w) in
          fst (Repository.purgeTransaction id w) = true
          /\ Runtime.transactions w' !! id = None
          /\ (forall k, k <> id ->
                Runtime.transactions w' !! k = Runtime.transactions w !! k)
          /\ S (size (Runtime.transactions w')) = size (Runtime.transactions w)
          /\ Repository.purgeTransaction id w' = (false, w')
          /\ Repository.softDeleteTransaction env id w' = (false, w')).
Proof.
  intros env id w. unfold Repository.purgeTransaction. split.
  - intros ->. reflexivity.
  - intros t Ht. rewrite Ht. simpl.
    split; [reflexivity|].
    split; [apply lookup_delete_eq|].
    split; [intros k Hk; apply lookup_delete_ne; congruence|].
    split.
    + rewrite map_size_delete, Ht. simpl.
      assert (size (Runtime.transactions w) <> 0%nat).
      { intros Hz. apply map_size_empty_inv in Hz. rewrite Hz in Ht.
        rewrite lookup_empty in Ht. discriminate. }
      lia.
    + unfold Repository.softDeleteTransaction. simpl.
      rewrite lookup_delete_eq. split; reflexivity.
Qed.

Lemma purgeTransaction_removes_witness :
  Runtime.transactions
    (snd (Repository.purgeTransaction "t1" Fixtures.household)) !! "t1"
  = None.
Proof.
  apply (proj2 (purgeTransaction_removes (Fixtures.device Fixtures.healthy)
                  "t1" Fixtures.household) Fixtures.bread).
  reflexivity.
Defined.

(** ** Category service *)

(** X4. [addCategory] generates an id, returns it, and stores under it a
    category with the given name and icon, user-defined, updated at the
    reading of the clock; when the id was free the category is also
    created at that reading.  The other categories and the transactions
    are untouched. *)
Theorem addCategory_creates :
  forall (env : Runtime.Env) (name icon : string) (w : Runtime.World),
    let id := fst (CategoriesService.addCategory env name icon w) in
    let w' := snd (CategoriesService.addCategory env name icon w) in
    id = Runtime.fresh_uuid env (Runtime.uuids_made w)
    /\ Runtime.uuids_made w' = S (Runtime.uuids_made w)
    /\ (exists c,
          Runtime.categories w' !! id = Some c
          /\ Schemas.Category.id c = id
          /\ Schemas.Category.name c = name
          /\ Schemas.Category.icon c = icon
          /\ Schemas.Category.userDefined c = true
          /\ Schemas.Category.updatedAt c
             = Runtime.wall_clock env (Runtime.clock_reads w)
          /\ (Runtime.categories w !! id = None ->
              Schemas.Category.createdAt c
              = Runtime.wall_clock env (Runtime.clock_reads w)))
    /\ (forall k, k <> id ->
          Runtime.categories w' !! k = Runtime.categories w !! k)
    /\ Runtime.transactions w' = Runtime.transactions w.
Proof.
  intros env name icon w id w'. subst id w'.
  unfold CategoriesService.addCategory, Repository.upsertCategory. simpl.
  split; [reflexivity|]. split; [reflexivity|].
  split.
  - eexists. split; [apply lookup_insert_eq|]. simpl.
    repeat split. intros ->. reflexivity.
  - split; [intros k Hk; apply lookup_insert_ne; congruence|reflexivity].
Qed.

(** X5. [renameCategory] on an id that holds no category returns false
    and changes nothing.  On a stored category it returns true and
    changes its name and its [updatedAt] (the reading of the clock) only:
    icon, [userDefined] and [createdAt] are kept, so that a renamed
    default category stays a default; the other categories and the
    transactions are untouched. *)
Theorem renameCategory_keeps_the_rest :
  forall (env : Runtime.Env) (id name : string) (w : Runtime.World),
    (Runtime.categories w !! id = None ->
     CategoriesService.renameCategory env id name w = (false, w))
    /\ (forall c,
          Runtime.categories w !! id = Some c ->
          let w' := snd (CategoriesService.renameCategory env id name w) in
          fst (CategoriesService.renameCategory env id name w) = true
          /\ Runtime.categories w' !! id
             = Some {| Schemas.Category.id := id;
                       Schemas.Category.name := name;
                       Schemas.Category.icon := Schemas.Category.icon c;
                       Schemas.Category.userDefined :=
                         Schemas.Category.userDefined c;
                       Schemas.Category.createdAt :=
                         Schemas.Category.createdAt c;
                       Schemas.Category.updatedAt :=
                         Runtime.wall_clock env (Runtime.clock_reads w) |}
          /\ (forall k, k <> id ->
                Runtime.categories w' !! k = Runtime.categories w !! k)
          /\ Runtime.transactions w' = Runtime.transactions w).
Proof.
  intros env id name w. unfold CategoriesService.renameCategory. split.
  - intros ->. reflexivity.
  - intros c Hc. rewrite Hc. unfold Repository.upsertCategory. simpl.
    rewrite Hc.
    split; [reflexivity|].
    split; [apply lookup_insert_eq|].
    split; [intros k Hk; apply lookup_insert_ne; congruence|reflexivity].
Qed.

Lemma renameCategory_keeps_the_rest_witness :
  fst (CategoriesService.renameCategory (Fixtures.device Fixtures.healthy)
         "c1" "Food" Fixtures.household) = true.
Proof.
  apply (proj2 (renameCategory_keeps_the_rest
                  (Fixtures.device Fixtures.healthy)
                  "c1" "Food" Fixtures.household) Fixtures.groceries).
  reflexivity.
Defined.

Lemma addCategory_creates_witness :
  fst (CategoriesService.addCategory (Fixtures.device Fixtures.healthy)
         "Pets" "paw-outline" Fixtures.household) = "a-uuid"
  /\ Runtime.transactions
       (snd (CategoriesService.addCategory (Fixtures.device Fixtures.healthy)
               "Pets" "paw-outline" Fixtures.household))
     = Runtime.transactions Fixtures.household.
Proof.
  split.
  - apply (addCategory_creates (Fixtures.device Fixtures.healthy)
             "Pets" "paw-outline" Fixtures.household).
  - apply (addCategory_creates (Fixtures.device Fixtures.healthy)
             "Pets" "paw-outline" Fixtures.household).
Defined.

Section CountFacts.
Import Schemas Runtime Repository CategoriesService.
Variable env : Env.

(** The transactions [getTransactionCount] counts for a category. *)
Lemma counted_lookup (c : string) (m : gmap string Transaction.t) (k : string) :
  k ∈ dom (filter (fun kv : string * Transaction.t =>
                     Transaction.categoryId (snd kv) = c
                     /\ Transaction.deleted (snd kv) = false) m)
  <-> exists t, m !! k = Some t /\ Transaction.categoryId t = c
                /\ Transaction.deleted t = false.
Proof.
  rewrite elem_of_dom. unfold is_Some.
  setoid_rewrite map_lookup_filter_Some. simpl. reflexivity.
Qed.

(** What [deleteCategory] with a replacement leaves under each key. *)
Lemma deleteCategory_pointwise (C R : string) (c : Category.t) (w : World) :
  categories w !! C = Some c -> R <> EmptyString ->
  let w' := snd (deleteCategory env C (Some R) w) in
  forall k,
    match transactions w !! k with
    | Some t =>
        if decide (Transaction.categoryId t = C)
        then exists n, transactions w' !! k
                       = Some (reassigned R (wall_clock env n) t)
        else transactions w' !! k = Some t
    | None => transactions w' !! k = None
    end.
Proof.
  intros Hc HR w' k. subst w'. unfold deleteCategory. rewrite Hc.
  destruct R as [|a R]; [congruence|]. simpl.
  destruct (reassign_all env (String a R)
              (map fst (map_to_list (affected C w))) w)
    as (_ & _ & Hout & Hin & Hnone).
  destruct (transactions w !! k) as [t|] eqn:Hk; [|auto].
  destruct (decide (Transaction.categoryId t = C)) as [Ht|Ht].
  - destruct (Hin k t) as (n & _ & Hres); [|exact Hk|eauto].
    apply affected_keys. eauto.
  - rewrite Hout; [exact Hk|].
    intros Hmem. apply affected_keys in Hmem.
    destruct Hmem as (t0 & Hk0 & Ht0). congruence.
Qed.

End CountFacts.

(** X6. After [deleteCategory(C, R)], with [C] stored and [R] a
    non-empty id other than [C], the number of active transactions
    [getTransactionCount] reports for [R] is the number it reported for
    [R] plus the number it reported for [C], the number it reports for
    [C] is zero, and the number of stored transactions is unchanged. *)
Theorem deleteCategory_moves_the_count :
  forall (env : Runtime.Env) (C R : string) (c : Schemas.Category.t)
         (w : Runtime.World),
    Runtime.categories w !! C = Some c -> R <> C -> R <> EmptyString ->
    let w' := snd (Repository.deleteCategory env C (Some R) w) in
    CategoriesService.getTransactionCount R w'
    = (CategoriesService.getTransactionCount R w
       + CategoriesService.getTransactionCount C w)%nat
    /\ CategoriesService.getTransactionCount C w' = 0%nat
    /\ size (Runtime.transactions w') = size (Runtime.transactions w).
Proof.
  intros env C R c w Hc HRC HR w'.
  pose proof (deleteCategory_pointwise env C R c w Hc HR) as Hpt.
  cbv zeta in Hpt. fold w' in Hpt.
  unfold CategoriesService.getTransactionCount.
  rewrite <- !size_dom.
  split; [|split].
  - rewrite <- size_union.
    + f_equal. apply set_eq. intros k.
      rewrite elem_of_union, !counted_lookup.
      specialize (Hpt k).
      destruct (Runtime.transactions w !! k) as [t|] eqn:Hk.
      * destruct (decide (Schemas.Transaction.categoryId t = C)) as [Ht|Ht].
        -- destruct Hpt as [n Hres]. rewrite Hres. split.
           ++ intros (t' & Heq & _ & Hdel). inversion Heq; subst t'.
              simpl in Hdel. right. eauto.
           ++ intros [(t' & Heq & Hcat & _)|(t' & Heq & _ & Hdel)];
                inversion Heq; subst t'; [congruence|].
              eexists. split; [reflexivity|]. simpl. auto.
        -- rewrite Hpt. split.
           ++ intros (t' & Heq & Hcat & Hdel). left. eauto.
           ++ intros [(t' & Heq & Hcat & Hdel)|(t' & Heq & Hcat & _)];
                inversion Heq; subst t'; [eauto|congruence].
      * rewrite Hpt. split.
        -- intros (t' & Heq & _). discriminate.
        -- intros [(t' & Heq & _)|(t' & Heq & _)]; discriminate.
    + apply elem_of_disjoint. intros k H1 H2.
      apply counted_lookup in H1. apply counted_lookup in H2.
      destruct H1 as (t1 & E1 & C1 & _). destruct H2 as (t2 & E2 & C2 & _).
      congruence.
  - apply size_empty_iff. apply set_equiv. intros k.
    rewrite counted_lookup. split; [|intros Hk; inversion Hk].
    intros (t' & Hk' & Hcat & _). exfalso.
    specialize (Hpt k).
    destruct (Runtime.transactions w !! k) as [t|] eqn:Hk.
    + destruct (decide (Schemas.Transaction.categoryId t = C)) as [Ht|Ht].
      * destruct Hpt as [n Hres]. rewrite Hres in Hk'.
        inversion Hk'; subst t'. simpl in Hcat. congruence.
      * rewrite Hpt in Hk'. inversion Hk'; subst t'. congruence.
    + rewrite Hpt in Hk'. discriminate.
  - f_equal. apply set_eq. intros k. rewrite !elem_of_dom.
    specialize (Hpt k).
    destruct (Runtime.transactions w !! k) as [t|] eqn:Hk.
    + destruct (decide (Schemas.Transaction.categoryId t = C)).
      * destruct Hpt as [n Hres]. rewrite Hres. split; eauto.
      * rewrite Hpt. reflexivity.
    + rewrite Hpt. reflexivity.
Qed.

(** In the household, the groceries are merged into leisure: leisure then
    counts the salary and the bread. *)
Lemma deleteCategory_moves_the_count_witness :
  CategoriesService.getTransactionCount "c2"
    (snd (Repository.deleteCategory (Fixtures.device Fixtures.healthy)
            "c1" (Some "c2") Fixtures.household))
  = (CategoriesService.getTransactionCount "c2" Fixtures.household
     + CategoriesService.getTransactionCount "c1" Fixtures.household)%nat
  /\ CategoriesService.getTransactionCount "c2" Fixtures.household = 1%nat.
Proof.
  split; [|vm_compute; reflexivity].
  apply (deleteCategory_moves_the_count (Fixtures.device Fixtures.healthy)
           "c1" "c2" Fixtures.groceries Fixtures.household).
  - reflexivity.
  - discriminate.
  - discriminate.
Defined.

(** X7. [getTransactionCount] counts the transactions of a category that
    are not deleted: it is zero exactly when no such transaction exists,
    and a successful [markDeleted] lowers by one the count of the
    category of the transaction when the transaction was not yet
    deleted, and changes no other count. *)
Theorem getTransactionCount_ignores_tombstones :
  forall (env : Runtime.Env) (w : Runtime.World) (c : string),
    (CategoriesService.getTransactionCount c w = 0%nat
     <-> forall k t, Runtime.transactions w !! k = Some t ->
                     Schemas.Transaction.categoryId t = c ->
                     Schemas.Transaction.deleted t = true)
    /\ (forall id t,
          Runtime.transactions w !! id = Some t ->
          let w' := snd (TransactionsService.markDeleted env id w) in
          CategoriesService.getTransactionCount c w
          = (CategoriesService.getTransactionCount c w'
             + (if decide (Schemas.Transaction.categoryId t = c
                           /\ Schemas.Transaction.deleted t = false)
                then 1 else 0))%nat).
Proof.
  intros env w c. unfold CategoriesService.getTransactionCount. split.
  - rewrite map_size_empty_iff, map_empty_filter. unfold map_Forall. split.
    + intros Hall k t Hk Hcat.
      destruct (Schemas.Transaction.deleted t) eqn:Hdel; [reflexivity|].
      exfalso. apply (Hall k t Hk). simpl. auto.
    + intros Hall k t Hk [Hcat Hdel]. simpl in *.
      rewrite (Hall k t Hk Hcat) in Hdel. discriminate.
  - intros id t Ht.
    unfold TransactionsService.markDeleted, Repository.softDeleteTransaction.
    rewrite Ht. simpl.
    rewrite map_filter_insert_False by (simpl; intros [_ H]; discriminate).
    rewrite map_filter_delete, map_size_delete.
    destruct (decide (Schemas.Transaction.categoryId t = c
                      /\ Schemas.Transaction.deleted t = false)) as [Hin|Hout].
    + assert (Hl : filter (fun kv : string * Schemas.Transaction.t =>
                             Schemas.Transaction.categoryId (snd kv) = c
                             /\ Schemas.Transaction.deleted (snd kv) = false)
                          (Runtime.transactions w) !! id = Some t).
      { apply map_lookup_filter_Some. auto. }
      rewrite Hl. simpl.
      assert (size (filter (fun kv : string * Schemas.Transaction.t =>
                              Schemas.Transaction.categoryId (snd kv) = c
                              /\ Schemas.Transaction.deleted (snd kv) = false)
                           (Runtime.transactions w)) <> 0%nat).
      { intros Hz. apply map_size_empty_inv in Hz. rewrite Hz in Hl.
        rewrite lookup_empty in Hl. discriminate. }
      lia.
    + assert (Hl : filter (fun kv : string * Schemas.Transaction.t =>
                             Schemas.Transaction.categoryId (snd kv) = c
                             /\ Schemas.Transaction.deleted (snd kv) = false)
                          (Runtime.transactions w) !! id = None).
      { apply map_lookup_filter_None. right. intros t' Ht'.
        rewrite Ht in Ht'. inversion Ht'; subst t'. exact Hout. }
      rewrite Hl. simpl. lia.
Qed.

Lemma getTransactionCount_ignores_tombstones_witness :
  CategoriesService.getTransactionCount "c1" Fixtures.household
  = (CategoriesService.getTransactionCount "c1"
       (snd (TransactionsService.markDeleted (Fixtures.device Fixtures.healthy)
               "t1" Fixtures.household))
     + 1)%nat.
Proof.
  apply (proj2 (getTransactionCount_ignores_tombstones
                  (Fixtures.device Fixtures.healthy) Fixtures.household "c1")
               "t1" Fixtures.bread).
  reflexivity.
Defined.

Section SeedingFrame.
Import Schemas Runtime CategoriesService.
Variable env : Env.

Lemma seed_all_transactions (ds : list DefaultCategory) (w : World) :
  transactions (foldl (seed_one env) w ds) = transactions w.
Proof.
  revert w. induction ds as [|d ds IH]; intros w; [reflexivity|].
  change (foldl (seed_one env) w (d :: ds))
    with (foldl (seed_one env) (seed_one env w d) ds).
  rewrite IH. unfold seed_one.
  destruct (categories w !! default_id d); reflexivity.
Qed.

End SeedingFrame.

(** X8. On any store, the seeding effect of a new hook instance keeps
    every category already stored exactly as it is (a renamed default
    keeps its name, a user category is untouched), creates each default
    category whose id is missing (a default the user deleted comes back,
    not user-defined), so that the ids stored afterwards are those stored
    before and the six default ids, and leaves the transactions as they
    were; once [seededRef] is set the effect does nothing. *)
Theorem seeding_restores_missing_defaults :
  forall (env : Runtime.Env) (w : Runtime.World),
    let w' := snd (CategoriesService.seeding_effect env false w) in
    (forall k c, Runtime.categories w !! k = Some c ->
                 Runtime.categories w' !! k = Some c)
    /\ (forall d, d ∈ CategoriesService.DEFAULT_CATEGORIES ->
          Runtime.categories w !! CategoriesService.default_id d = None ->
          exists c,
            Runtime.categories w' !! CategoriesService.default_id d = Some c
            /\ Schemas.Category.name c = CategoriesService.default_name d
            /\ Schemas.Category.icon c = CategoriesService.default_icon d
            /\ Schemas.Category.userDefined c = false)
    /\ dom (Runtime.categories w')
       = list_to_set (map CategoriesService.default_id
                          CategoriesService.DEFAULT_CATEGORIES)
         ∪ dom (Runtime.categories w)
    /\ Runtime.transactions w' = Runtime.transactions w
    /\ CategoriesService.seeding_effect env true w = (true, w).
Proof.
  intros env w w'. subst w'. unfold CategoriesService.seeding_effect.
  cbv iota beta. cbn [snd].
  split; [intros k c Hk; apply seed_all_keeps; exact Hk|].
  split.
  - intros d Hd Hfree.
    destruct (seed_all_creates env CategoriesService.DEFAULT_CATEGORIES w d)
      as (t1 & t2 & Hc); auto using DEFAULT_CATEGORIES_distinct.
    eexists. split; [exact Hc|]. simpl. auto.
  - split; [apply seed_all_dom|].
    split; [apply seed_all_transactions|reflexivity].
Qed.

(** The groceries of the household survive the seeding, which adds the
    six defaults beside them. *)
Lemma seeding_restores_missing_defaults_witness :
  Runtime.categories
    (snd (CategoriesService.seeding_effect (Fixtures.device Fixtures.healthy)
            false Fixtures.household)) !! "c1"
  = Some Fixtures.groceries
  /\ size (Runtime.categories
             (snd (CategoriesService.seeding_effect
                     (Fixtures.device Fixtures.healthy)
                     false Fixtures.household))) = 8%nat.
Proof.
  split; [|vm_compute; reflexivity].
  apply (seeding_restores_missing_defaults (Fixtures.device Fixtures.healthy)
           Fixtures.household).
  reflexivity.
Defined.

(** ** Synchronisation engine: what is pushed, what is sent, what is kept *)

Section PushFacts.
Import Schemas Supabase Runtime Repository Control SupabaseSync
       SyncVocabulary PushVocabulary.
Variable env : Env.

Lemma transaction_payload_row (user : User) (txn : Transaction.t) (w : World) :
  pushed_row user txn (fst (transaction_payload env user txn w)).
Proof.
  unfold transaction_payload, pushed_row.
  destruct (Transaction.deleted txn); simpl; repeat split;
    intros; discriminate.
Qed.

Lemma transaction_payloads_rows (user : User) (txns : list Transaction.t)
  (w : World) :
  Forall2 (pushed_row user) txns (fst (transaction_payloads env user txns w)).
Proof.
  revert w. induction txns as [|txn txns IH]; intros w; simpl;
    [constructor|].
  pose proof (transaction_payload_row user txn w) as Hrow.
  destruct (transaction_payload env user txn w) as [p w1].
  specialize (IH w1).
  destruct (transaction_payloads env user txns w1) as [ps w2].
  simpl in *. constructor; assumption.
Qed.

Lemma orderedTransactions_elem (w : World) (t : Transaction.t) :
  t ∈ orderedTransactions w <-> exists k, transactions w !! k = Some t.
Proof.
  unfold orderedTransactions. rewrite merge_sort_Permutation.
  rewrite list_elem_of_fmap. split.
  - intros ([k t'] & -> & Hkt). apply elem_of_map_to_list in Hkt. eauto.
  - intros (k & Hk). exists (k, t). split; [reflexivity|].
    apply elem_of_map_to_list. exact Hk.
Qed.

Lemma orderedTransactions_length (w : World) :
  length (orderedTransactions w) = size (transactions w).
Proof.
  unfold orderedTransactions.
  rewrite merge_sort_Permutation, length_map. apply length_map_to_list.
Qed.


End PushFacts.

(** X9. For an authenticated user, [pushTransactions] sends one upsert
    holding one row for every local transaction, tombstones included:
    each row carries the fields of its transaction and the id of the
    user, and has a [deleted_at] exactly when the transaction is deleted.
    The push leaves both local tables as they were; in particular a
    pushed transaction keeps its [syncStatus].  Without a user nothing is
    upserted and the result is the failure [Not authenticated]. *)
Theorem pushTransactions_payload :
  forall (env : Runtime.Env) (w : Runtime.World),
    (forall user,
        Supabase.auth_getUser (Runtime.backend env) (Runtime.requests w)
        = Supabase.Returns (Some user) ->
        let w' := snd (SupabaseSync.pushTransactions env w) in
        exists rows,
          Runtime.requests w'
          = (Runtime.requests w
             ++ [Supabase.GetUser; Supabase.UpsertTransactions rows])%list
          /\ length rows = size (Runtime.transactions w)
          /\ (forall k t, Runtime.transactions w !! k = Some t ->
                exists row, row ∈ rows /\ PushVocabulary.pushed_row user t row)
          /\ (forall row, row ∈ rows ->
                exists k t, Runtime.transactions w !! k = Some t
                            /\ PushVocabulary.pushed_row user t row)
          /\ Runtime.transactions w' = Runtime.transactions w
          /\ Runtime.categories w' = Runtime.categories w)
    /\ (Supabase.auth_getUser (Runtime.backend env) (Runtime.requests w)
        = Supabase.Returns None ->
        SupabaseSync.pushTransactions env w
        = (Supabase.Returns (SupabaseSync.failed "Not authenticated"),
           Runtime.sent Supabase.GetUser
             (Runtime.enter Runtime.PushTransactions w))).
Proof.
  intros env w. split.
  - intros user Hauth w'. subst w'.
    set (w0 := Runtime.sent Supabase.GetUser
                 (Runtime.enter Runtime.PushTransactions w)).
    pose proof (transaction_payloads_rows env user
                  (Repository.orderedTransactions w0) w0) as Hrows.
    pose proof (transaction_payloads_frame env user
                  (Repository.orderedTransactions w0) w0) as Hframe.
    cbv zeta in Hframe.
    assert (Hrun : snd (SupabaseSync.pushTransactions env w)
              = Runtime.sent
                  (Supabase.UpsertTransactions
                     (fst (SupabaseSync.transaction_payloads env user
                             (Repository.orderedTransactions w0) w0)))
                  (snd (SupabaseSync.transaction_payloads env user
                          (Repository.orderedTransactions w0) w0))).
    { unfold SupabaseSync.pushTransactions, Control.try_catch, Control.bind,
        SupabaseSync.getUser, Control.await, Control.lift, Control.ret.
      simpl. rewrite Hauth. simpl. fold w0.
      destruct (SupabaseSync.transaction_payloads env user
                  (Repository.orderedTransactions w0) w0) as [rows w1].
      simpl.
      destruct (Supabase.upsert_transactions _ _ _) as [reply|e]; simpl;
        [destruct (Supabase.upsert_error reply)|]; reflexivity. }
    rewrite Hrun.
    destruct (SupabaseSync.transaction_payloads env user
                (Repository.orderedTransactions w0) w0) as [rows w1].
    simpl in *. destruct Hframe as (_ & Hreq & Htx & Hcat).
    exists rows. split; [rewrite Hreq; simpl; rewrite <- app_assoc; reflexivity|].
    split.
    { rewrite <- (Forall2_length _ _ _ Hrows).
      rewrite (orderedTransactions_length w0). reflexivity. }
    split; [|split; [|split; [exact Htx|exact Hcat]]].
    + intros k t Hk.
      assert (Hin : t ∈ Repository.orderedTransactions w0)
        by (apply orderedTransactions_elem; exists k; exact Hk).
      apply list_elem_of_lookup in Hin. destruct Hin as [i Hi].
      destruct (Forall2_lookup_l _ _ _ _ _ Hrows Hi) as (row & Hrow & Hrel).
      exists row. split; [|exact Hrel].
      apply list_elem_of_lookup. eauto.
    + intros row Hin.
      apply list_elem_of_lookup in Hin. destruct Hin as [i Hi].
      destruct (Forall2_lookup_r _ _ _ _ _ Hrows Hi) as (t & Ht & Hrel).
      assert (Hmem : t ∈ Repository.orderedTransactions w0)
        by (apply list_elem_of_lookup; eauto).
      apply orderedTransactions_elem in Hmem. destruct Hmem as [k Hk].
      exists k, t. split; [exact Hk|exact Hrel].
  - intros Hauth.
    unfold SupabaseSync.pushTransactions, Control.try_catch, Control.bind,
      SupabaseSync.getUser, Control.await, Control.lift, Control.ret.
    simpl. rewrite Hauth. reflexivity.
Qed.

(** The household pushes its two transactions. *)
Lemma pushTransactions_payload_witness :
  exists rows,
    Runtime.requests
      (snd (SupabaseSync.pushTransactions (Fixtures.device Fixtures.healthy)
              Fixtures.household))
    = [Supabase.GetUser; Supabase.UpsertTransactions rows]
    /\ length rows = 2%nat.
Proof.
  destruct (proj1 (pushTransactions_payload (Fixtures.device Fixtures.healthy)
                     Fixtures.household)
              {| Supabase.uid := "u1" |} eq_refl)
    as (rows & Hreq & Hlen & _).
  exists rows. split; [exact Hreq|exact Hlen].
Defined.



Section CycleFacts.
Import Schemas Supabase Runtime Repository Control SupabaseSync
       SyncVocabulary PushVocabulary.
Variable env : Env.

Lemma keeps_records_refl (w : World) : keeps_records w w.
Proof. split; reflexivity. Qed.

Lemma keeps_records_trans (w1 w2 w3 : World) :
  keeps_records w1 w2 -> keeps_records w2 w3 -> keeps_records w1 w3.
Proof. intros [H1 H2] [H3 H4]. split; etransitivity; eassumption. Qed.

Lemma apply_transaction_rows_keep (rows : list TransactionRow.t) (w : World) :
  dom (transactions w)
  ⊆ dom (transactions (foldl (apply_transaction_row env) w rows)).
Proof.
  revert w. induction rows as [|row rows IH]; intros w; [reflexivity|].
  change (foldl (apply_transaction_row env) w (row :: rows))
    with (foldl (apply_transaction_row env)
                (apply_transaction_row env w row) rows).
  etransitivity; [|apply IH].
  rewrite apply_transaction_row_transactions. apply dom_insert_subseteq.
Qed.

Lemma apply_category_rows_keep (rows : list CategoryRow.t) (w : World) :
  dom (categories w)
  ⊆ dom (categories (foldl (apply_category_row env) w rows)).
Proof.
  revert w. induction rows as [|row rows IH]; intros w; [reflexivity|].
  change (foldl (apply_category_row env) w (row :: rows))
    with (foldl (apply_category_row env)
                (apply_category_row env w row) rows).
  etransitivity; [|apply IH].
  rewrite apply_category_row_categories. apply dom_insert_subseteq.
Qed.

Lemma pullCategories_effect : pull_effect categories_query (pullCategories env).
Proof.
  intros w. unfold pullCategories, try_catch, bind, getUser, await, lift, ret.
  simpl.
  destruct (auth_getUser (backend env) (requests w)) as [[user|]|e]; simpl.
  - destruct (select_categories (backend env) _ _) as [reply|e]; simpl.
    + destruct (select_error reply); simpl.
      * eexists _, _, [GetUser; Select (categories_query user)].
        split; [reflexivity|]. simpl. rewrite <- app_assoc.
        split; [reflexivity|]. split; [repeat constructor|].
        split; [discriminate|split; simpl; reflexivity].
      * eexists _, _, [GetUser; Select (categories_query user)].
        split; [reflexivity|].
        destruct (apply_category_rows_frame env (default [] (data reply))
                    (sent (Select (categories_query user))
                       (sent GetUser (enter PullCategories w))))
          as (_ & Hreq & Htx).
        split; [rewrite Hreq; simpl; rewrite <- app_assoc; reflexivity|].
        split; [repeat constructor|]. split; [eauto|].
        split; [rewrite Htx; reflexivity|].
        apply (apply_category_rows_keep (default [] (data reply))
                 (sent (Select (categories_query user))
                    (sent GetUser (enter PullCategories w)))).
    + eexists _, _, [GetUser; Select (categories_query user)].
      split; [reflexivity|]. simpl. rewrite <- app_assoc.
      split; [reflexivity|]. split; [repeat constructor|].
      split; [discriminate|split; simpl; reflexivity].
  - eexists _, _, [GetUser]. split; [reflexivity|].
    split; [reflexivity|]. split; [repeat constructor|].
    split; [discriminate|split; simpl; reflexivity].
  - eexists _, _, [GetUser]. split; [reflexivity|].
    split; [reflexivity|]. split; [repeat constructor|].
    split; [discriminate|split; simpl; reflexivity].
Qed.

Lemma pullTransactions_effect (since : option Z) :
  pull_effect (fun user => transactions_query user since)
              (pullTransactions env since).
Proof.
  intros w. unfold pullTransactions, try_catch, bind, getUser, await, lift, ret.
  simpl.
  destruct (auth_getUser (backend env) (requests w)) as [[user|]|e]; simpl.
  - destruct (select_transactions (backend env) _ _) as [reply|e]; simpl.
    + destruct (select_error reply); simpl.
      * eexists _, _, [GetUser; Select (transactions_query user since)].
        split; [reflexivity|]. simpl. rewrite <- app_assoc.
        split; [reflexivity|]. split; [repeat constructor|].
        split; [discriminate|split; simpl; reflexivity].
      * eexists _, _, [GetUser; Select (transactions_query user since)].
        split; [reflexivity|].
        destruct (apply_transaction_rows_frame env (default [] (data reply))
                    (sent (Select (transactions_query user since))
                       (sent GetUser (enter PullTransactions w))))
          as (_ & Hreq & Hcat).
        split; [rewrite Hreq; simpl; rewrite <- app_assoc; reflexivity|].
        split; [repeat constructor|]. split; [eauto|].
        split; [|rewrite Hcat; reflexivity].
        apply (apply_transaction_rows_keep (default [] (data reply))
                 (sent (Select (transactions_query user since))
                    (sent GetUser (enter PullTransactions w)))).
    + eexists _, _, [GetUser; Select (transactions_query user since)].
      split; [reflexivity|]. simpl. rewrite <- app_assoc.
      split; [reflexivity|]. split; [repeat constructor|].
      split; [discriminate|split; simpl; reflexivity].
  - eexists _, _, [GetUser]. split; [reflexivity|].
    split; [reflexivity|]. split; [repeat constructor|].
    split; [discriminate|split; simpl; reflexivity].
  - eexists _, _, [GetUser]. split; [reflexivity|].
    split; [reflexivity|]. split; [repeat constructor|].
    split; [discriminate|split; simpl; reflexivity].
Qed.

Lemma pushCategories_effect : push_effect (pushCategories env).
Proof.
  intros w. unfold pushCategories, try_catch, bind, getUser, await, lift, ret.
  simpl.
  destruct (auth_getUser (backend env) (requests w)) as [[user|]|e]; simpl;
    [|eexists _, _, [GetUser]; repeat split..].
  destruct (map (category_payload user) _) as [|p ps] eqn:Hrows; simpl;
    [eexists _, _, [GetUser]; repeat split|].
  destruct (upsert_categories (backend env) _ _) as [reply|e]; simpl;
    [destruct (upsert_error reply); simpl|];
    eexists _, _, [GetUser; UpsertCategories (p :: ps)];
    (split; [reflexivity|]); simpl; rewrite <- app_assoc; repeat split.
Qed.

Lemma pushTransactions_effect : push_effect (pushTransactions env).
Proof.
  intros w. unfold pushTransactions, try_catch, bind, getUser, await, lift, ret.
  simpl.
  destruct (auth_getUser (backend env) (requests w)) as [[user|]|e]; simpl;
    [|eexists _, _, [GetUser]; repeat split..].
  destruct (transaction_payloads_frame env user
              (orderedTransactions (sent GetUser (enter PushTransactions w)))
              (sent GetUser (enter PushTransactions w)))
    as (_ & Hreq & Htx & Hcat).
  destruct (transaction_payloads env user _ _) as [rows w1]; simpl in *.
  destruct (upsert_transactions (backend env) _ _) as [reply|e]; simpl;
    [destruct (upsert_error reply); simpl|];
    eexists _, _, [GetUser; UpsertTransactions rows];
    (split; [reflexivity|]); simpl; rewrite Hreq, <- app_assoc;
    repeat split; assumption.
Qed.

End CycleFacts.

(** X11. No synchronisation path removes a local record: after
    [syncAll], whatever the remote answers, every id that held a
    transaction or a category still holds one, and the same is true of
    the two realtime handlers, for every event (a remote delete event
    included). *)
Theorem sync_never_removes_a_record :
  forall (env : Runtime.Env) (w : Runtime.World),
    (forall isInitialSync lastSyncAt,
        PushVocabulary.keeps_records w
          (snd (SupabaseSync.syncAll env isInitialSync lastSyncAt w)))
    /\ (forall payload,
          PushVocabulary.keeps_records w
            (SupabaseSync.on_transaction_change env payload w))
    /\ (forall payload,
          PushVocabulary.keeps_records w
            (SupabaseSync.on_category_change env payload w)).
Proof.
  intros env w. split; [|split].
  - intros isInitialSync lastSyncAt.
    unfold SupabaseSync.syncAll, Control.bind.
    destruct (pullCategories_effect env w)
      as (r1 & w1 & s1 & H1 & _ & _ & _ & K1).
    rewrite H1.
    destruct (SupabaseSync.success r1); simpl; [|exact K1].
    destruct (pullTransactions_effect env
                (if negb isInitialSync then lastSyncAt else None) w1)
      as (r2 & w2 & s2 & H2 & _ & _ & _ & K2).
    rewrite H2.
    pose proof (keeps_records_trans _ _ _ K1 K2) as K12.
    destruct (SupabaseSync.success r2); simpl; [|exact K12].
    destruct (pushCategories_effect env w2) as (r3 & w3 & s3 & H3 & _ & T3 & C3).
    rewrite H3.
    assert (K13 : PushVocabulary.keeps_records w w3).
    { destruct K12 as [Ka Kb]. split; [rewrite T3|rewrite C3]; assumption. }
    destruct (SupabaseSync.success r3); simpl; [|exact K13].
    destruct (pushTransactions_effect env w3) as (r4 & w4 & s4 & H4 & _ & T4 & C4).
    rewrite H4. simpl.
    destruct K13 as [Ka Kb]. split; [rewrite T4|rewrite C4]; assumption.
  - intros payload. unfold SupabaseSync.on_transaction_change.
    destruct (SupabaseSync.eventType payload);
      try (split; simpl; [apply dom_insert_subseteq|reflexivity]).
    split; reflexivity.
  - intros payload. unfold SupabaseSync.on_category_change.
    destruct (SupabaseSync.eventType payload);
      try (split; simpl; [reflexivity|apply dom_insert_subseteq]).
    split; reflexivity.
Qed.

(** X12. Within one [syncAll] nothing is pushed before both pulls have
    succeeded: the requests the cycle adds to the log either hold no
    upsert at all, or begin with the reading of the user and the select
    on [categories], then the reading of the user and the select on
    [transactions]; that select carries the [updated_at] filter exactly
    when the cycle is not an initial one and a last sync time is
    given. *)
Theorem syncAll_pulls_before_pushing :
  forall (env : Runtime.Env) (isInitialSync : bool) (lastSyncAt : option Z)
         (w : Runtime.World),
    let since := if negb isInitialSync then lastSyncAt else None in
    exists sent_now,
      Runtime.requests (snd (SupabaseSync.syncAll env isInitialSync lastSyncAt w))
      = (Runtime.requests w ++ sent_now)%list
      /\ (Forall (fun q => PushVocabulary.is_upsert q = false) sent_now
          \/ exists user1 user2 rest,
              sent_now
              = Supabase.GetUser
                :: Supabase.Select (SupabaseSync.categories_query user1)
                :: Supabase.GetUser
                :: Supabase.Select (SupabaseSync.transactions_query user2 since)
                :: rest).
Proof.
  intros env isInitialSync lastSyncAt w since.
  unfold SupabaseSync.syncAll, Control.bind. fold since.
  destruct (pullCategories_effect env w)
    as (r1 & w1 & s1 & H1 & Q1 & U1 & S1 & _).
  rewrite H1.
  destruct (SupabaseSync.success r1) eqn:E1; simpl;
    [|exists s1; split; [exact Q1|left; exact U1]].
  destruct (S1 eq_refl) as [user1 ->].
  destruct (pullTransactions_effect env since w1)
    as (r2 & w2 & s2 & H2 & Q2 & U2 & S2 & _).
  rewrite H2.
  destruct (SupabaseSync.success r2) eqn:E2; simpl.
  - destruct (S2 eq_refl) as [user2 ->].
    destruct (pushCategories_effect env w2) as (r3 & w3 & s3 & H3 & Q3 & _).
    rewrite H3.
    destruct (SupabaseSync.success r3); simpl.
    + destruct (pushTransactions_effect env w3) as (r4 & w4 & s4 & H4 & Q4 & _).
      rewrite H4. simpl.
      exists ([Supabase.GetUser;
               Supabase.Select (SupabaseSync.categories_query user1)]
              ++ [Supabase.GetUser;
                  Supabase.Select (SupabaseSync.transactions_query user2 since)]
              ++ s3 ++ s4)%list.
      split; [rewrite Q4, Q3, Q2, Q1, <- !app_assoc; reflexivity|].
      right. exists user1, user2, (s3 ++ s4)%list. reflexivity.
    + exists ([Supabase.GetUser;
               Supabase.Select (SupabaseSync.categories_query user1)]
              ++ [Supabase.GetUser;
                  Supabase.Select (SupabaseSync.transactions_query user2 since)]
              ++ s3)%list.
      split; [rewrite Q3, Q2, Q1, <- !app_assoc; reflexivity|].
      right. exists user1, user2, s3. reflexivity.
  - exists ([Supabase.GetUser;
             Supabase.Select (SupabaseSync.categories_query user1)]
            ++ s2)%list.
    split; [rewrite Q2, Q1, <- !app_assoc; reflexivity|].
    left. apply Forall_app. split; [repeat constructor|exact U2].
Qed.

(** An incremental cycle of the household since 700: the four requests of
    the pulls come first, and the select on transactions asks for the
    rows updated after 700. *)
Lemma syncAll_pulls_before_pushing_witness :
  take 4 (Runtime.requests
            (snd (SupabaseSync.syncAll (Fixtures.device Fixtures.healthy)
                    false (Some 700) Fixtures.household)))
  = [Supabase.GetUser;
     Supabase.Select (SupabaseSync.categories_query {| Supabase.uid := "u1" |});
     Supabase.GetUser;
     Supabase.Select
       (SupabaseSync.transactions_query {| Supabase.uid := "u1" |} (Some 700))]
  /\ exists sent_now,
      Runtime.requests
        (snd (SupabaseSync.syncAll (Fixtures.device Fixtures.healthy)
                false (Some 700) Fixtures.household))
      = (Runtime.requests Fixtures.household ++ sent_now)%list.
Proof.
  split; [vm_compute; reflexivity|].
  destruct (syncAll_pulls_before_pushing (Fixtures.device Fixtures.healthy)
              false (Some 700) Fixtures.household) as (sent_now & H & _).
  exists sent_now. exact H.
Defined.

Section PullCategoriesFacts.
Import Schemas Supabase Runtime Repository Control SupabaseSync
       SyncVocabulary RemoteQueries.
Variable env : Env.

Lemma apply_category_rows_other (rows : list CategoryRow.t) (w : World)
  (k : string) :
  k ∉ map CategoryRow.id rows ->
  categories (foldl (apply_category_row env) w rows) !! k = categories w !! k.
Proof.
  revert w. induction rows as [|row rows IH]; intros w Hk; [reflexivity|].
  change (foldl (apply_category_row env) w (row :: rows))
    with (foldl (apply_category_row env) (apply_category_row env w row) rows).
  simpl in Hk. apply not_elem_of_cons in Hk. destruct Hk as [Hne Hk].
  rewrite (IH _ Hk), apply_category_row_categories.
  apply lookup_insert_ne. congruence.
Qed.

Lemma categories_query_asks (user : User) (row : CategoryRow.t) :
  requests_category (categories_query user) row = true
  <-> CategoryRow.user_id row = uid user /\ CategoryRow.deleted_at row = None.
Proof.
  unfold requests_category, categories_query. simpl.
  unfold category_passes. simpl.
  rewrite andb_true_r, andb_true_iff, String.eqb_eq.
  destruct (CategoryRow.deleted_at row); simpl; intuition congruence.
Qed.

End PullCategoriesFacts.

(** X13. For an authenticated user, [pullCategories] sends one select on
    [categories] that asks exactly for the rows of the user whose
    [deleted_at] is null, so that a category soft-deleted on the remote
    is not asked for.  It never touches the transactions.  When the
    select succeeds, a local category whose id is not among the rows
    received is left as it was; when the select reports an error, all
    local categories are left as they were. *)
Theorem pullCategories_asks_for_live_rows :
  forall (env : Runtime.Env) (w : Runtime.World) (user : Supabase.User),
    Supabase.auth_getUser (Runtime.backend env) (Runtime.requests w)
    = Supabase.Returns (Some user) ->
    let q := SupabaseSync.categories_query user in
    let w' := snd (SupabaseSync.pullCategories env w) in
    (forall row,
        RemoteQueries.requests_category q row = true
        <-> Supabase.CategoryRow.user_id row = Supabase.uid user
            /\ Supabase.CategoryRow.deleted_at row = None)
    /\ Runtime.requests w'
       = (Runtime.requests w ++ [Supabase.GetUser; Supabase.Select q])%list
    /\ Runtime.transactions w' = Runtime.transactions w
    /\ (forall reply,
          Supabase.select_categories (Runtime.backend env)
            (Runtime.requests w ++ [Supabase.GetUser])%list q
          = Supabase.Returns reply ->
          match Supabase.select_error reply with
          | Some msg =>
              fst (SupabaseSync.pullCategories env w)
              = Supabase.Returns (SupabaseSync.failed msg)
              /\ Runtime.categories w' = Runtime.categories w
          | None =>
              forall k,
                k ∉ map Supabase.CategoryRow.id
                        (default [] (Supabase.data reply)) ->
                Runtime.categories w' !! k = Runtime.categories w !! k
          end).
Proof.
  intros env w user Hauth q w'.
  split; [apply categories_query_asks|].
  assert (Hrun : SupabaseSync.pullCategories env w =
            match Supabase.select_categories (Runtime.backend env)
                    (Runtime.requests w ++ [Supabase.GetUser])%list q with
            | Supabase.Returns reply =>
                match Supabase.select_error reply with
                | Some msg =>
                    (Supabase.Returns (SupabaseSync.failed msg),
                     Runtime.sent (Supabase.Select q)
                       (Runtime.sent Supabase.GetUser
                          (Runtime.enter Runtime.PullCategories w)))
                | None =>
                    (Supabase.Returns SupabaseSync.succeeded,
                     foldl (SupabaseSync.apply_category_row env)
                       (Runtime.sent (Supabase.Select q)
                          (Runtime.sent Supabase.GetUser
                             (Runtime.enter Runtime.PullCategories w)))
                       (default [] (Supabase.data reply)))
                end
            | Supabase.Throws e =>
                (Supabase.Returns
                   (SupabaseSync.failed
                      (SupabaseSync.message_or "Failed to sync categories" e)),
                 Runtime.sent (Supabase.Select q)
                   (Runtime.sent Supabase.GetUser
                      (Runtime.enter Runtime.PullCategories w)))
            end).
  { subst q.
    unfold SupabaseSync.pullCategories, Control.try_catch, Control.bind,
      SupabaseSync.getUser, Control.await, Control.lift, Control.ret.
    simpl. rewrite Hauth. simpl.
    destruct (Supabase.select_categories _ _ _) as [reply|e]; simpl;
      [|reflexivity].
    destruct (Supabase.select_error reply); reflexivity. }
  subst w'. rewrite Hrun.
  split; [|split].
  - destruct (Supabase.select_categories _ _ _) as [reply|e];
      [destruct (Supabase.select_error reply)|]; simpl;
      rewrite <- ?app_assoc; try reflexivity.
    destruct (apply_category_rows_frame env (default [] (Supabase.data reply))
                (Runtime.sent (Supabase.Select q)
                   (Runtime.sent Supabase.GetUser
                      (Runtime.enter Runtime.PullCategories w))))
      as (_ & Hreq & _).
    rewrite Hreq. simpl. rewrite <- app_assoc. reflexivity.
  - destruct (Supabase.select_categories _ _ _) as [reply|e];
      [destruct (Supabase.select_error reply)|]; simpl; try reflexivity.
    destruct (apply_category_rows_frame env (default [] (Supabase.data reply))
                (Runtime.sent (Supabase.Select q)
                   (Runtime.sent Supabase.GetUser
                      (Runtime.enter Runtime.PullCategories w))))
      as (_ & _ & Htx).
    exact Htx.
  - intros reply Hreply. rewrite Hreply.
    destruct (Supabase.select_error reply) as [msg|]; simpl.
    + split; reflexivity.
    + intros k Hk.
      exact (apply_category_rows_other env _ _ k Hk).
Qed.

(** In the household the pull of categories brings back the groceries
    only: leisure is left as it was. *)
Lemma pullCategories_asks_for_live_rows_witness :
  Runtime.requests
    (snd (SupabaseSync.pullCategories (Fixtures.device Fixtures.healthy)
            Fixtures.household))
  = [Supabase.GetUser;
     Supabase.Select
       {| Supabase.table := "categories";
          Supabase.filters :=
            [Supabase.eq "user_id" "u1"; Supabase.is_null "deleted_at"] |}]
  /\ Runtime.categories
       (snd (SupabaseSync.pullCategories (Fixtures.device Fixtures.healthy)
               Fixtures.household)) !! "c2"
     = Some Fixtures.leisure.
Proof.
  split.
  - apply (pullCategories_asks_for_live_rows (Fixtures.device Fixtures.healthy)
             Fixtures.household {| Supabase.uid := "u1" |} eq_refl).
  - vm_compute. reflexivity.
Defined.

(** ** More on the maintenance job *)

Section PurgeCountFacts.
Import Schemas Supabase Runtime Repository Control Maintenance.
Variable env : Env.
Variable config : Config.

Lemma eligible_categories (t : Transaction.t) (days : option Z) (w : World) :
  categories (snd (isTombstoneEligibleForPurge env config t days w))
  = categories w.
Proof.
  unfold isTombstoneEligibleForPurge.
  destruct (Transaction.deleted t); simpl; [|reflexivity].
  destruct (Transaction.syncStatus t); reflexivity.
Qed.

(** What the first loop returns: the keys it started from, followed by
    keys of the pending objects in their order, and no more of them than
    the batch allows. *)
Lemma collect_shape (pending : list (string * Transaction.t))
  (toPurge : list string) (w : World) :
  categories (snd (collect env config pending toPurge w)) = categories w
  /\ (exists added,
         fst (collect env config pending toPurge w) = (toPurge ++ added)%list
         /\ added `sublist_of` map fst pending)
  /\ (length (fst (collect env config pending toPurge w))
      <= Nat.max (S (length toPurge)) (PURGE_BATCH_SIZE config))%nat.
Proof.
  revert toPurge w. induction pending as [|[key t] rest IH]; intros toPurge w.
  - simpl. split; [reflexivity|]. split; [|lia].
    exists []. rewrite app_nil_r. split; [reflexivity|constructor].
  - simpl.
    pose proof (eligible_categories t None w) as Hfr.
    destruct (isTombstoneEligibleForPurge env config t None w) as [ok w1].
    simpl in Hfr. destruct ok.
    + destruct (PURGE_BATCH_SIZE config <=? length (toPurge ++ [key]))%nat
        eqn:Hfull.
      * simpl. split; [exact Hfr|]. split.
        -- exists [key]. split; [reflexivity|].
           apply sublist_skip, sublist_nil_l.
        -- rewrite length_app. simpl. lia.
      * apply Nat.leb_gt in Hfull.
        destruct (IH (toPurge ++ [key])%list w1)
          as (Hcat & (added & Hres & Hsub) & Hlen).
        split; [rewrite Hcat; exact Hfr|]. split.
        -- exists (key :: added). rewrite Hres, <- app_assoc.
           split; [reflexivity|]. apply sublist_skip. exact Hsub.
        -- rewrite length_app in Hlen, Hfull. simpl in Hlen, Hfull. lia.
    + destruct (IH toPurge w1) as (Hcat & (added & Hres & Hsub) & Hlen).
      split; [rewrite Hcat; exact Hfr|]. split.
      * exists added. split; [exact Hres|].
        apply sublist_cons. exact Hsub.
      * exact Hlen.
Qed.

(** The second loop counts one per key, and when the keys are distinct
    and present each of them takes one record away. *)
Lemma delete_counted_size (keys : list string) (state : Z * World) :
  NoDup keys ->
  (forall k, k ∈ keys -> is_Some (transactions (snd state) !! k)) ->
  fst (foldl delete_counted state keys) = fst state + Z.of_nat (length keys)
  /\ (size (transactions (snd (foldl delete_counted state keys)))
      + length keys = size (transactions (snd state)))%nat
  /\ categories (snd (foldl delete_counted state keys))
     = categories (snd state)
  /\ transactions (snd (foldl delete_counted state keys))
     ⊆ transactions (snd state).
Proof.
  revert state. induction keys as [|k0 keys IH]; intros state Hnd Hin.
  - simpl. split; [lia|]. split; [lia|]. split; reflexivity.
  - change (foldl delete_counted state (k0 :: keys))
      with (foldl delete_counted (delete_counted state k0) keys).
    apply NoDup_cons in Hnd. destruct Hnd as [Hk0 Hnd].
    destruct (IH (delete_counted state k0) Hnd) as (Hc & Hs & Hcat & Hsub).
    { intros k Hk. simpl. rewrite lookup_delete_ne.
      - apply Hin. right. exact Hk.
      - intros ->. contradiction. }
    split; [rewrite Hc; simpl; lia|]. split; [|split].
    + simpl in Hs |- *.
      rewrite map_size_delete_Some in Hs by (apply Hin; left).
      assert (size (transactions (snd state)) <> 0)%nat
        by (apply (map_size_ne_0_lookup_2 _ k0), Hin; left).
      lia.
    + rewrite Hcat. reflexivity.
    + etrans; [exact Hsub|]. simpl. apply delete_subseteq.
Qed.

(** With the batch size not below the number of synced tombstones, the
    first loop runs through all of them: an object eligible at the
    readings of the clock the loop can take is collected. *)
Lemma collect_complete (pending : list (string * Transaction.t))
  (toPurge : list string) (w : World) (k : string) (t : Transaction.t) :
  (length toPurge + length pending <= PURGE_BATCH_SIZE config)%nat ->
  Transaction.deleted t = true ->
  Transaction.syncStatus t = synced ->
  (forall n,
      (clock_reads w <= n < clock_reads w + length pending)%nat ->
      Transaction.updatedAt t
      < retentionThreshold env (TOMBSTONE_RETENTION_DAYS config)
                           (wall_clock env n)) ->
  k ∈ toPurge \/ (k, t) ∈ pending ->
  k ∈ fst (collect env config pending toPurge w).
Proof.
  intros Hroom Hd Hs. revert toPurge w Hroom.
  induction pending as [|[key t0] rest IH]; intros toPurge w Hroom Hold Hk.
  - simpl. destruct Hk as [Hk|Hk]; [exact Hk|inversion Hk].
  - simpl.
    pose proof (eligible_iff env config t0 None w) as Hel.
    pose proof (eligible_clock env config t0 None w) as [Hck _].
    destruct (isTombstoneEligibleForPurge env config t0 None w) as [ok w1].
    simpl in Hel, Hroom, Hold, Hck.
    assert (Hnext : k ∈ (toPurge ++ [key])%list \/ (k, t) ∈ rest).
    { destruct Hk as [Hk|Hk]; [left; apply elem_of_app; left; exact Hk|].
      apply elem_of_cons in Hk. destruct Hk as [Hk|Hk]; [|right; exact Hk].
      inversion Hk; subst. left. apply elem_of_app. right. left. }
    assert (Hlater : forall n,
              (clock_reads w1 <= n < clock_reads w1 + length rest)%nat ->
              Transaction.updatedAt t
              < retentionThreshold env (TOMBSTONE_RETENTION_DAYS config)
                                   (wall_clock env n))
      by (intros n Hn; apply Hold; lia).
    destruct ok.
    + destruct (PURGE_BATCH_SIZE config <=? length (toPurge ++ [key]))%nat
        eqn:Hfull.
      * apply Nat.leb_le in Hfull. rewrite length_app in Hfull.
        simpl in Hfull.
        assert (rest = []) by (destruct rest; [reflexivity|simpl in Hroom; lia]).
        subst rest. simpl.
        destruct Hnext as [Hn|Hn]; [exact Hn|inversion Hn].
      * apply IH; [rewrite length_app; simpl; lia|exact Hlater|exact Hnext].
    + apply IH; [lia|exact Hlater|].
      destruct Hk as [Hk|Hk]; [left; exact Hk|].
      apply elem_of_cons in Hk. destruct Hk as [Hk|Hk]; [|right; exact Hk].
      inversion Hk; subst. exfalso.
      assert (false = true); [|discriminate].
      apply Hel. split; [exact Hd|]. split; [exact Hs|]. apply Hold. lia.
Qed.

Lemma delete_counted_gone (keys : list string) (state : Z * World)
  (k : string) :
  k ∈ keys ->
  transactions (snd (foldl delete_counted state keys)) !! k = None.
Proof.
  revert state. induction keys as [|k0 keys IH]; intros state Hk;
    [inversion Hk|].
  change (foldl delete_counted state (k0 :: keys))
    with (foldl delete_counted (delete_counted state k0) keys).
  destruct (decide (k ∈ keys)) as [Hin|Hout]; [apply IH; exact Hin|].
  rewrite (delete_counted_other keys _ k Hout). simpl.
  apply elem_of_cons in Hk. destruct Hk as [->|Hk]; [|contradiction].
  apply lookup_delete_eq.
Qed.

End PurgeCountFacts.

(** X14. With the purge switched on, [purgeOldTombstones] returns the
    number of records it removed: the store has that many transactions
    fewer, every record left is one that was there, unchanged, and the
    categories are not touched.  The count is at most the batch size,
    and at most 1 when the batch size is 0, the size being compared only
    after an object has been collected. *)
Theorem purgeOldTombstones_counts_the_removed :
  forall (env : Runtime.Env) (config : Maintenance.Config) (w : Runtime.World),
    Maintenance.ENABLE_TOMBSTONE_PURGE config = true ->
    exists (n : nat) (w' : Runtime.World),
      Maintenance.purgeOldTombstones env config w
      = (Supabase.Returns (Z.of_nat n), w')
      /\ (size (Runtime.transactions w') + n
          = size (Runtime.transactions w))%nat
      /\ Runtime.transactions w' ⊆ Runtime.transactions w
      /\ Runtime.categories w' = Runtime.categories w
      /\ (n <= Nat.max 1 (Maintenance.PURGE_BATCH_SIZE config))%nat
      /\ (n <= size (Maintenance.deletedTransactions w))%nat.
Proof.
  intros env config w Hon.
  unfold Maintenance.purgeOldTombstones. rewrite Hon. simpl.
  unfold Control.try_catch, Control.lift.
  destruct (collect_spec env config
              (map_to_list (Maintenance.deletedTransactions w)) [] w)
    as [Hkeep _].
  destruct (collect_shape env config
              (map_to_list (Maintenance.deletedTransactions w)) [] w)
    as (Hcat & (added & Hres & Hsub) & Hlen).
  destruct (Maintenance.collect env config
              (map_to_list (Maintenance.deletedTransactions w)) [] w)
    as [toPurge w1].
  simpl in Hkeep, Hcat, Hres, Hlen. subst toPurge.
  assert (Hnd : NoDup added).
  { eapply sublist_NoDup; [|exact Hsub]. apply NoDup_fst_map_to_list. }
  assert (Hin : forall k, k ∈ added ->
                  is_Some (Runtime.transactions (snd (0, w1)) !! k)).
  { intros k Hk. simpl. rewrite Hkeep.
    pose proof (elem_of_sublist _ _ _ Hk Hsub) as Hk'.
    apply list_elem_of_fmap in Hk'. destruct Hk' as ([k' t] & -> & Hkt).
    apply elem_of_map_to_list in Hkt.
    apply map_lookup_filter_Some in Hkt. destruct Hkt as [Hlook _].
    simpl. rewrite Hlook. eauto. }
  destruct (delete_counted_size added (0, w1) Hnd Hin)
    as (Hc & Hs & Hcat' & Hsubm).
  destruct (foldl Maintenance.delete_counted (0, w1) added) as [count w2].
  simpl in Hc, Hs, Hcat', Hsubm.
  exists (length added), w2. subst count.
  split; [reflexivity|]. split; [rewrite Hkeep in Hs; exact Hs|].
  split; [rewrite Hkeep in Hsubm; exact Hsubm|].
  split; [congruence|]. split; [exact Hlen|].
  rewrite <- length_map_to_list,
    <- (length_map fst (map_to_list (Maintenance.deletedTransactions w))).
  apply sublist_length. exact Hsub.
Qed.

(** In the archive one record of three is removed. *)
Lemma purgeOldTombstones_counts_the_removed_witness :
  exists (n : nat) (w' : Runtime.World),
    Maintenance.purgeOldTombstones Fixtures.late_device Fixtures.purging
      Fixtures.archive
    = (Supabase.Returns (Z.of_nat n), w')
    /\ (size (Runtime.transactions w') + n
        = size (Runtime.transactions Fixtures.archive))%nat
    /\ Runtime.transactions w' ⊆ Runtime.transactions Fixtures.archive
    /\ Runtime.categories w' = Runtime.categories Fixtures.archive
    /\ (n <= Nat.max 1 (Maintenance.PURGE_BATCH_SIZE Fixtures.purging))%nat
    /\ (n <= size (Maintenance.deletedTransactions Fixtures.archive))%nat.
Proof.
  apply (purgeOldTombstones_counts_the_removed Fixtures.late_device
           Fixtures.purging Fixtures.archive).
  reflexivity.
Defined.

(** X15. With the purge switched on and no more synced tombstones than
    the batch size, one run of [purgeOldTombstones] removes every synced
    tombstone whose [updatedAt] is before the retention threshold at the
    readings of the clock the run can take, one for each synced
    tombstone. *)
Theorem purgeOldTombstones_removes_the_eligible :
  forall (env : Runtime.Env) (config : Maintenance.Config) (w : Runtime.World)
         (id : string) (t : Schemas.Transaction.t),
    Maintenance.ENABLE_TOMBSTONE_PURGE config = true ->
    (size (Maintenance.deletedTransactions w)
     <= Maintenance.PURGE_BATCH_SIZE config)%nat ->
    Runtime.transactions w !! id = Some t ->
    Schemas.Transaction.deleted t = true ->
    Schemas.Transaction.syncStatus t = Schemas.synced ->
    (forall n,
        (Runtime.clock_reads w <= n
         < Runtime.clock_reads w
           + size (Maintenance.deletedTransactions w))%nat ->
        Schemas.Transaction.updatedAt t
        < Maintenance.retentionThreshold env
            (Maintenance.TOMBSTONE_RETENTION_DAYS config)
            (Runtime.wall_clock env n)) ->
    Runtime.transactions
      (snd (Maintenance.purgeOldTombstones env config w)) !! id = None.
Proof.
  intros env config w id t Hon Hroom Hid Hd Hs Hold.
  unfold Maintenance.purgeOldTombstones. rewrite Hon. simpl.
  unfold Control.try_catch, Control.lift.
  assert (Hmem : id ∈ fst (Maintenance.collect env config
                   (map_to_list (Maintenance.deletedTransactions w)) [] w)).
  { apply (collect_complete env config _ [] w id t); auto.
    - simpl. rewrite length_map_to_list. exact Hroom.
    - rewrite length_map_to_list. exact Hold.
    - right. apply elem_of_map_to_list.
      apply map_lookup_filter_Some. split; [exact Hid|]. split; assumption. }
  destruct (Maintenance.collect env config
              (map_to_list (Maintenance.deletedTransactions w)) [] w)
    as [toPurge w1].
  simpl in Hmem.
  pose proof (delete_counted_gone toPurge (0, w1) id Hmem) as Hgone.
  destruct (foldl Maintenance.delete_counted (0, w1) toPurge) as [count w2].
  exact Hgone.
Qed.

(** In December, in the zone with daylight saving, 90 days back lies in
    summer time and the threshold is 90 days and one hour before the
    reading of the clock: a tombstone updated 90 days and two hours
    before it is removed. *)
Lemma purgeOldTombstones_removes_the_eligible_witness :
  Runtime.transactions
    (snd (Maintenance.purgeOldTombstones Fixtures.december_device
            Fixtures.purging
            (Fixtures.graveyard 1734282000000 (90 * 86400000 + 7200000))))
    !! "t6" = None.
Proof.
  apply (purgeOldTombstones_removes_the_eligible Fixtures.december_device
           Fixtures.purging
           (Fixtures.graveyard 1734282000000 (90 * 86400000 + 7200000))
           "t6"
           (Fixtures.tombstone_aged 1734282000000 (90 * 86400000 + 7200000))).
  - reflexivity.
  - vm_compute. lia.
  - reflexivity.
  - reflexivity.
  - reflexivity.
  - intros n Hn.
    assert (Hsize : size (Maintenance.deletedTransactions
                            (Fixtures.graveyard 1734282000000
                               (90 * 86400000 + 7200000))) = 1%nat)
      by (vm_compute; reflexivity).
    rewrite Hsize in Hn. simpl in Hn.
    destruct n as [|n]; [|lia]. vm_compute. reflexivity.
Defined.

Section StatsFacts.
Import Schemas Supabase Runtime Maintenance MaintenanceStats.
Variable env : Env.
Variable config : Config.

Lemma count_eligible_frame (pending : list (string * Transaction.t))
  (count : nat) (w : World) :
  transactions (snd (count_eligible env config pending count w))
  = transactions w
  /\ categories (snd (count_eligible env config pending count w))
     = categories w
  /\ (count <= fst (count_eligible env config pending count w)
      <= count + length pending)%nat.
Proof.
  revert count w. induction pending as [|[key t] rest IH]; intros count w.
  - simpl. split; [reflexivity|]. split; [reflexivity|lia].
  - simpl.
    pose proof (eligible_frame env config t None w) as Htx.
    pose proof (eligible_categories env config t None w) as Hcat.
    destruct (isTombstoneEligibleForPurge env config t None w) as [ok w1].
    simpl in Htx, Hcat.
    destruct (IH (if ok then S count else count) w1) as (Ht & Hc & Hn).
    split; [congruence|]. split; [congruence|].
    destruct ok; lia.
Qed.

End StatsFacts.

(** X16. The figures of [getMaintenanceStats] are ordered: the tombstones
    eligible for the purge are among the synced tombstones, these among
    the tombstones, these among all transactions.  Computing them leaves
    the records as they are, and the two settings reported are those of
    the configuration. *)
Theorem getMaintenanceStats_ordered :
  forall (env : Runtime.Env) (config : Maintenance.Config) (w : Runtime.World),
    let stats := fst (MaintenanceStats.getMaintenanceStats env config w) in
    let w' := snd (MaintenanceStats.getMaintenanceStats env config w) in
    (MaintenanceStats.eligibleForPurge stats
     <= MaintenanceStats.syncedTombstones stats)%nat
    /\ (MaintenanceStats.syncedTombstones stats
        <= MaintenanceStats.tombstones stats)%nat
    /\ (MaintenanceStats.tombstones stats
        <= MaintenanceStats.totalTransactions stats)%nat
    /\ MaintenanceStats.totalTransactions stats = size (Runtime.transactions w)
    /\ MaintenanceStats.purgeEnabled stats
       = Maintenance.ENABLE_TOMBSTONE_PURGE config
    /\ MaintenanceStats.retentionDays stats
       = Maintenance.TOMBSTONE_RETENTION_DAYS config
    /\ Runtime.transactions w' = Runtime.transactions w
    /\ Runtime.categories w' = Runtime.categories w.
Proof.
  intros env config w stats w'. subst stats w'.
  unfold MaintenanceStats.getMaintenanceStats.
  destruct (count_eligible_frame env config
              (map_to_list (Maintenance.deletedTransactions w)) 0%nat w)
    as (Htx & Hcat & Hn).
  destruct (MaintenanceStats.count_eligible env config
              (map_to_list (Maintenance.deletedTransactions w)) 0%nat w)
    as [n w1].
  simpl in Htx, Hcat, Hn |- *.
  rewrite length_map_to_list in Hn.
  split; [lia|]. split.
  { apply map_subseteq_size.
    unfold Maintenance.deletedTransactions.
    apply map_filter_subseteq_ext. intros i x _ [Hd _]. exact Hd. }
  split; [apply map_size_filter|].
  repeat split; assumption.
Qed.

(** ** The amount field of the transaction modal *)

Section AmountFieldFacts.
Import Float64 Validation Decimal TransactionModal AmountField.

Lemma digit_not_dot (c : ascii) : is_digit c = true -> Ascii.eqb c "." = false.
Proof.
  intros H. destruct (Ascii.eqb_spec c ".") as [->|]; [|reflexivity].
  vm_compute in H. discriminate.
Qed.

Lemma keep_field_text (text : string) :
  field_text (keep_digits_and_dots text) = true.
Proof.
  induction text as [|c r IH]; [reflexivity|]. simpl.
  destruct (is_digit c || Ascii.eqb c ".") eqn:Hc; [|exact IH].
  simpl. unfold field_char. rewrite Hc. exact IH.
Qed.

Lemma keep_fixed (s : string) :
  field_text s = true -> keep_digits_and_dots s = s.
Proof.
  induction s as [|c r IH]; [reflexivity|]. simpl. unfold field_char.
  intros H. apply andb_prop in H. destruct H as [Hc Hr].
  rewrite Hc, (IH Hr). reflexivity.
Qed.

Lemma digits_field_text (w : string) :
  all_digits w = true -> field_text w = true.
Proof.
  induction w as [|c r IH]; [reflexivity|]. simpl. unfold field_char.
  intros H. apply andb_prop in H. destruct H as [Hc Hr].
  rewrite Hc, (IH Hr). reflexivity.
Qed.

Lemma field_text_app (a b : string) :
  field_text a = true -> field_text b = true -> field_text (a ++ b) = true.
Proof.
  intros Ha Hb. induction a as [|c r IH]; [exact Hb|].
  simpl in Ha |- *. apply andb_prop in Ha. destruct Ha as [Hc Hr].
  rewrite Hc, (IH Hr). reflexivity.
Qed.

Lemma split_dots_not_nil (s : string) : split_dots s <> [].
Proof.
  induction s as [|c r IH]; simpl; [discriminate|].
  destruct (Ascii.eqb c "."); [discriminate|].
  destruct (split_dots r); discriminate.
Qed.

(** A text over digits and periods is its leading digits, alone or
    followed by a period and the rest; [split] cuts it there. *)
Lemma field_text_shape (k : string) :
  field_text k = true ->
  exists whole,
    all_digits whole = true
    /\ ((k = whole /\ split_dots k = [whole])
        \/ exists rest, k = whole ++ String "." rest
                        /\ field_text rest = true
                        /\ split_dots k = whole :: split_dots rest).
Proof.
  induction k as [|c r IH]; intros H.
  - exists EmptyString. split; [reflexivity|]. left. split; reflexivity.
  - simpl in H. apply andb_prop in H. destruct H as [Hc Hr].
    unfold field_char in Hc. destruct (is_digit c) eqn:Hd.
    + destruct (IH Hr) as (whole & Hw & Hshape).
      exists (String c whole). split; [simpl; rewrite Hd, Hw; reflexivity|].
      simpl. rewrite (digit_not_dot c Hd).
      destruct Hshape as [[-> Hs]|(rest & -> & Hrest & Hs)]; rewrite Hs.
      * left. split; reflexivity.
      * right. exists rest. split; [reflexivity|]. split; [exact Hrest|].
        reflexivity.
    + simpl in Hc. apply Ascii.eqb_eq in Hc. subst c.
      exists EmptyString. split; [reflexivity|]. right.
      exists r. split; [reflexivity|]. split; [exact Hr|]. reflexivity.
Qed.

Lemma split_dots_digits (w : string) :
  all_digits w = true -> split_dots w = [w].
Proof.
  induction w as [|c r IH]; [reflexivity|]. simpl. intros H.
  apply andb_prop in H. destruct H as [Hc Hr].
  rewrite (digit_not_dot c Hc), (IH Hr). reflexivity.
Qed.

Lemma split_dots_decimal (w f : string) :
  all_digits w = true -> all_digits f = true ->
  split_dots (w ++ String "." f) = [w; f].
Proof.
  intros Hw Hf. induction w as [|c r IH].
  - simpl. rewrite (split_dots_digits f Hf). reflexivity.
  - simpl in Hw |- *. apply andb_prop in Hw. destruct Hw as [Hc Hr].
    rewrite (digit_not_dot c Hc), (IH Hr). reflexivity.
Qed.

(** The texts over digits and periods that pass the two checks. *)
Lemma accepted_shape (k : string) :
  field_text k = true ->
  (2 <? length (split_dots k))%nat = false ->
  ((length (split_dots k) =? 2)%nat
   && (2 <? String.length (nth 1 (split_dots k) EmptyString))%nat) = false ->
  exists whole,
    all_digits whole = true
    /\ (k = whole
        \/ exists frac, k = whole ++ String "." frac
                        /\ all_digits frac = true
                        /\ (String.length frac <= 2)%nat).
Proof.
  intros Hk Hparts Hfrac.
  destruct (field_text_shape k Hk) as (whole & Hw & [[-> _]|(rest & -> & Hrest & Hs)]).
  - exists whole. split; [exact Hw|]. left. reflexivity.
  - exists whole. split; [exact Hw|]. right.
    rewrite Hs in Hparts, Hfrac.
    destruct (field_text_shape rest Hrest)
      as (frac & Hf & [[-> Hs2]|(more & -> & _ & Hs2)]);
      rewrite Hs2 in Hparts, Hfrac.
    + exists frac. split; [reflexivity|]. split; [exact Hf|].
      simpl in Hfrac. apply Nat.ltb_ge in Hfrac. exact Hfrac.
    + exfalso. pose proof (split_dots_not_nil more) as Hne.
      destruct (split_dots more); [congruence|]. simpl in Hparts.
      discriminate.
Qed.

Lemma strip_leading_zeros_digits (w : string) :
  all_digits w = true -> all_digits (strip_leading_zeros w) = true.
Proof.
  induction w as [|c r IH]; [reflexivity|]. intros H. simpl.
  destruct (Ascii.eqb c "0"); [|exact H].
  simpl in H. apply andb_prop in H. destruct H as [_ Hr]. exact (IH Hr).
Qed.

Lemma strip_leading_zeros_app (w f : string) :
  strip_leading_zeros (w ++ String "." f)
  = strip_leading_zeros w ++ String "." f.
Proof.
  induction w as [|c r IH]; [reflexivity|]. simpl.
  destruct (Ascii.eqb c "0"); [exact IH|reflexivity].
Qed.

Lemma strip_leading_zeros_head (s : string) (c : ascii) (r : string) :
  strip_leading_zeros s = String c r -> Ascii.eqb c "0" = false.
Proof.
  induction s as [|c0 r0 IH]; simpl; [discriminate|].
  destruct (Ascii.eqb c0 "0") eqn:H0; [exact IH|].
  intros H. inversion H; subst. exact H0.
Qed.

(** After the removal of the leading zeros a zero at the head is alone
    or followed by a period. *)
Lemma drop_leading_zeros_head (k : string) (c : ascii) (r : string) :
  drop_leading_zeros k = String "0" (String c r) -> c = "."%char.
Proof.
  unfold drop_leading_zeros.
  destruct k as [|c0 [|c1 r1]]; try discriminate.
  destruct (Ascii.eqb c0 "0" && negb (Ascii.eqb c1 ".")) eqn:Hz.
  - intros H. apply strip_leading_zeros_head in H. discriminate.
  - intros H. inversion H; subst.
    simpl in Hz. destruct (Ascii.eqb_spec c "."); [assumption|discriminate].
Qed.

Lemma drop_leading_zeros_shape (k whole : string) :
  all_digits whole = true ->
  (k = whole -> all_digits (drop_leading_zeros k) = true)
  /\ (forall frac, k = whole ++ String "." frac ->
        exists whole', all_digits whole' = true
                       /\ drop_leading_zeros k = whole' ++ String "." frac).
Proof.
  intros Hw. split.
  - intros ->. unfold drop_leading_zeros.
    destruct whole as [|c0 [|c1 r1]]; try exact Hw.
    destruct (Ascii.eqb c0 "0" && negb (Ascii.eqb c1 ".")); [|exact Hw].
    apply strip_leading_zeros_digits. exact Hw.
  - intros frac ->. unfold drop_leading_zeros.
    destruct (whole ++ String "." frac) as [|c0 [|c1 r1]] eqn:Hk.
    + destruct whole; discriminate.
    + exists whole. split; [exact Hw|symmetry; exact Hk].
    + destruct (Ascii.eqb c0 "0" && negb (Ascii.eqb c1 ".")).
      * rewrite <- Hk, strip_leading_zeros_app.
        exists (strip_leading_zeros whole).
        split; [apply strip_leading_zeros_digits; exact Hw|reflexivity].
      * exists whole. split; [exact Hw|symmetry; exact Hk].
Qed.

Lemma drop_leading_zeros_fixed (s : string) :
  (forall c r, s = String "0" (String c r) -> c = "."%char) ->
  drop_leading_zeros s = s.
Proof.
  intros H. unfold drop_leading_zeros.
  destruct s as [|c0 [|c1 r1]]; try reflexivity.
  destruct (Ascii.eqb_spec c0 "0") as [->|]; [|reflexivity].
  rewrite (H c1 r1 eq_refl). reflexivity.
Qed.

(** What the handler sets, in terms of the text it was given. *)
Lemma handleAmountChange_sets (text s : string) :
  handleAmountChange text = Some s ->
  s <> EmptyString
  /\ (exists whole,
         all_digits whole = true
         /\ (s = whole
             \/ exists frac, s = whole ++ String "." frac
                             /\ all_digits frac = true
                             /\ (String.length frac <= 2)%nat))
  /\ (forall c r, s = String "0" (String c r) -> c = "."%char).
Proof.
  unfold handleAmountChange. set (k := keep_digits_and_dots text).
  pose proof (keep_field_text text) as Hk. fold k in Hk.
  destruct (2 <? length (split_dots k))%nat eqn:Hparts; [discriminate|].
  destruct ((length (split_dots k) =? 2)%nat
            && (2 <? String.length (nth 1 (split_dots k) EmptyString))%nat)
    eqn:Hfrac; [discriminate|].
  destruct (accepted_shape k Hk Hparts Hfrac) as (whole & Hw & Hshape).
  destruct (drop_leading_zeros_shape k whole Hw) as [Hint Hdec].
  pose proof (drop_leading_zeros_head k) as Hhead.
  destruct (drop_leading_zeros k) as [|c0 r0] eqn:Hdrop.
  - intros H. inversion H; subst s. split; [discriminate|]. split.
    + exists "0". split; [reflexivity|]. left. reflexivity.
    + intros c r Heq. discriminate.
  - intros H. inversion H; subst s. split; [discriminate|]. split.
    + destruct Hshape as [Hkw|(frac & Hkw & Hf & Hlen)].
      * exists (String c0 r0). split; [exact (Hint Hkw)|]. left. reflexivity.
      * destruct (Hdec frac Hkw) as (whole' & Hw' & Heq).
        exists whole'. split; [exact Hw'|]. right.
        exists frac. split; [exact Heq|]. split; [exact Hf|exact Hlen].
    + intros c r Heq. apply (Hhead c r). exact Heq.
Qed.

Lemma field_text_normalize (s : string) :
  field_text s = true -> normalize s = s.
Proof.
  unfold normalize. induction s as [|c r IH]; [reflexivity|].
  simpl. intros H. apply andb_prop in H. destruct H as [Hc Hr].
  unfold amount_char. unfold field_char in Hc. rewrite Hc. simpl.
  assert (Hcomma : Ascii.eqb c "," = false).
  { destruct (Ascii.eqb_spec c ",") as [->|]; [|reflexivity].
    vm_compute in Hc. discriminate. }
  rewrite Hcomma, (IH Hr). reflexivity.
Qed.

(** A text over digits and periods is read as a number that is not
    negative. *)
Lemma parseFloat_field_text (s : string) :
  field_text s = true ->
  parseFloat s = NaN \/ exists n d, parseFloat s = of_ratio false n d.
Proof.
  intros H. unfold parseFloat.
  assert (Hsign : match s with
                  | String "-" r => (true, r)
                  | String "+" r => (false, r)
                  | _ => (false, s)
                  end = (false, s)).
  { destruct s as [|c r]; [reflexivity|].
    simpl in H. apply andb_prop in H. destruct H as [Hc _].
    destruct (Ascii.eqb_spec c "-") as [->|Hm];
      [vm_compute in Hc; discriminate|].
    destruct (Ascii.eqb_spec c "+") as [->|Hp];
      [vm_compute in Hc; discriminate|].
    destruct c as [[] [] [] [] [] [] [] []]; try reflexivity; congruence. }
  rewrite Hsign.
  destruct (span_digits s) as [ip after_ip].
  destruct ip; [|right; eauto].
  destruct (match after_ip with
            | String "." r => fst (span_digits r)
            | _ => EmptyString
            end); [left; reflexivity|right; eauto].
Qed.

End AmountFieldFacts.

(** X17. Whatever is typed or pasted, the amount [handleAmountChange]
    sets is never empty and is written with digits, at most one period
    and at most two digits after it; a zero at its head is alone or
    followed by the period.  Such a text is left as it is when given to
    the handler again. *)
Theorem handleAmountChange_keeps_a_decimal :
  forall (text s : string),
    TransactionModal.handleAmountChange text = Some s ->
    s <> EmptyString
    /\ (exists whole,
           Decimal.all_digits whole = true
           /\ (s = whole
               \/ exists frac, s = whole ++ String "." frac
                               /\ Decimal.all_digits frac = true
                               /\ (String.length frac <= 2)%nat))
    /\ (forall c r, s = String "0" (String c r) -> c = "."%char)
    /\ TransactionModal.handleAmountChange s = Some s.
Proof.
  intros text s H.
  destruct (handleAmountChange_sets text s H) as (Hne & Hshape & Hhead).
  split; [exact Hne|]. split; [exact Hshape|]. split; [exact Hhead|].
  destruct Hshape as (whole & Hw & Hs).
  assert (Hft : AmountField.field_text s = true).
  { destruct Hs as [->|(frac & -> & Hf & _)].
    - apply digits_field_text. exact Hw.
    - apply field_text_app; [apply digits_field_text; exact Hw|].
      simpl. apply digits_field_text. exact Hf. }
  unfold TransactionModal.handleAmountChange.
  rewrite (keep_fixed s Hft), (drop_leading_zeros_fixed s Hhead).
  destruct Hs as [->|(frac & -> & Hf & Hlen)].
  - rewrite (split_dots_digits whole Hw). simpl.
    destruct whole; [congruence|reflexivity].
  - rewrite (split_dots_decimal whole frac Hw Hf). simpl.
    apply Nat.ltb_ge in Hlen. rewrite Hlen.
    destruct whole; reflexivity.
Qed.

(** Pasting a price with its currency sign and zeros in front. *)
Lemma handleAmountChange_keeps_a_decimal_witness :
  TransactionModal.handleAmountChange "7.50" = Some "7.50".
Proof.
  apply (handleAmountChange_keeps_a_decimal "$007.50" "7.50").
  reflexivity.
Defined.

(** X18. For an amount set by [handleAmountChange], the cents the modal
    shows, [getAmountCents], are the cents the validation stores: when
    [amountInputSchema] accepts the text, its result is
    [getAmountCents] of the text. *)
Theorem getAmountCents_is_the_validated_amount :
  forall (text s : string) (cents : Float64.number),
    TransactionModal.handleAmountChange text = Some s ->
    Validation.amountInputSchema (Validation.Str s) = inr cents ->
    TransactionModal.getAmountCents s = cents.
Proof.
  intros text s cents Hset Hvalid.
  destruct (handleAmountChange_sets text s Hset) as (Hne & (whole & Hw & Hs) & _).
  assert (Hft : AmountField.field_text s = true).
  { destruct Hs as [->|(frac & -> & Hf & _)].
    - apply digits_field_text. exact Hw.
    - apply field_text_app; [apply digits_field_text; exact Hw|].
      simpl. apply digits_field_text. exact Hf. }
  unfold Validation.amountInputSchema, Validation.amount_number in Hvalid.
  destruct s as [|c r]; [congruence|].
  rewrite (field_text_normalize _ Hft) in Hvalid.
  apply amount_pipe_accepts in Hvalid.
  destruct Hvalid as (Hfin & _ & ->).
  unfold TransactionModal.getAmountCents.
  destruct (parseFloat_field_text _ Hft) as [Hnan|(n & d & Hpos)].
  - rewrite Hnan in Hfin. discriminate.
  - rewrite Hpos in Hfin |- *. rewrite abs_of_ratio.
    rewrite (isFinite_not_NaN _ Hfin). reflexivity.
Qed.

(** Seven and a half: 750 cents on the screen and in the store. *)
Lemma getAmountCents_is_the_validated_amount_witness :
  TransactionModal.getAmountCents "7.50" = Float64.of_Z 750.
Proof.
  apply (getAmountCents_is_the_validated_amount "$007.50" "7.50").
  - reflexivity.
  - vm_compute. reflexivity.
Defined.

(** ** Preferences and the manual sync *)

(** X19. Called with the preferences the screen last read,
    [updatePreferences] does not throw.  It leaves one preferences
    record: the keys given are set, the other ones keep their value, or
    take the default ([light], [month-to-date], [USD], no sync time and
    no token) when the record had to be created; a [lastSyncAt] given as
    null clears the sync time.  [lastOpenedAt] is a reading of the clock
    taken during the call, and the transactions and categories are not
    touched. *)
Theorem updatePreferences_sets_the_given_keys :
  forall (env : Runtime.Env) (updates : PreferencesStore.Updates)
         (a : PreferencesStore.App),
    let before :=
      default
        {| PreferencesStore.Preferences.id := "preferences";
           PreferencesStore.Preferences.theme := PreferencesStore.light;
           PreferencesStore.Preferences.dashboardPeriod := "month-to-date";
           PreferencesStore.Preferences.currency := "USD";
           PreferencesStore.Preferences.lastOpenedAt := 0;
           PreferencesStore.Preferences.lastSyncAt := None;
           PreferencesStore.Preferences.syncToken := None |}
        (PreferencesStore.preferences a) in
    let out :=
      PreferencesStore.updatePreferences env updates
        (PreferencesStore.preferences a) a in
    fst out = Supabase.Returns tt
    /\ exists after n,
         PreferencesStore.preferences (snd out) = Some after
         /\ PreferencesStore.Preferences.id after
            = PreferencesStore.Preferences.id before
         /\ PreferencesStore.Preferences.dashboardPeriod after
            = PreferencesStore.Preferences.dashboardPeriod before
         /\ PreferencesStore.Preferences.currency after
            = default (PreferencesStore.Preferences.currency before)
                      (PreferencesStore.u_currency updates)
         /\ PreferencesStore.Preferences.theme after
            = default (PreferencesStore.Preferences.theme before)
                      (PreferencesStore.u_theme updates)
         /\ PreferencesStore.Preferences.lastSyncAt after
            = default (PreferencesStore.Preferences.lastSyncAt before)
                      (PreferencesStore.u_lastSyncAt updates)
         /\ PreferencesStore.Preferences.syncToken after
            = default (PreferencesStore.Preferences.syncToken before)
                      (PreferencesStore.u_syncToken updates)
         /\ PreferencesStore.Preferences.lastOpenedAt after
            = Runtime.wall_clock env n
         /\ (Runtime.clock_reads (PreferencesStore.world a) <= n
             < Runtime.clock_reads (PreferencesStore.world (snd out)))%nat
         /\ Runtime.transactions (PreferencesStore.world (snd out))
            = Runtime.transactions (PreferencesStore.world a)
         /\ Runtime.categories (PreferencesStore.world (snd out))
            = Runtime.categories (PreferencesStore.world a).
Proof.
  intros env updates a before out. subst before out.
  unfold PreferencesStore.updatePreferences, PreferencesStore.ensurePreferences.
  destruct (PreferencesStore.preferences a) as [p|] eqn:Hp; simpl.
  - rewrite Hp. simpl. split; [reflexivity|].
    exists (PreferencesStore.apply_updates updates
              (Runtime.wall_clock env
                 (Runtime.clock_reads (PreferencesStore.world a))) p),
      (Runtime.clock_reads (PreferencesStore.world a)).
    simpl. repeat split; lia.
  - split; [reflexivity|].
    eexists _, (S (Runtime.clock_reads (PreferencesStore.world a))).
    simpl. repeat split; lia.
Qed.

Section ManualSyncFacts.
Import Schemas Supabase Runtime Control SupabaseSync SyncVocabulary.
Variable env : Env.

Lemma syncAll_returns (isInitialSync : bool) (lastSyncAt : option Z)
  (w : World) :
  exists r w', syncAll env isInitialSync lastSyncAt w = (Returns r, w').
Proof.
  unfold syncAll, bind.
  destruct (pullCategories_completes env w) as (r1 & w1 & H1 & _).
  rewrite H1. destruct (success r1); simpl; [|eauto].
  destruct (pullTransactions_completes env
              (if negb isInitialSync then lastSyncAt else None) w1)
    as (r2 & w2 & H2 & _).
  rewrite H2. destruct (success r2); simpl; [|eauto].
  destruct (pushCategories_completes env w2) as (r3 & w3 & H3 & _).
  rewrite H3. destruct (success r3); simpl; [|eauto].
  destruct (pushTransactions_completes env w3) as (r4 & w4 & H4 & _).
  rewrite H4. simpl. eauto.
Qed.

End ManualSyncFacts.

(** X20. [handleSync] runs [syncAll] from the sync time of the
    preferences and does not throw.  When the sync fails, the screen gets
    an error message that is not empty and the preferences are left as
    they were, so that the sync time is not moved.  When it succeeds, no
    error is set and [lastSyncAt] becomes a reading of the clock taken
    once the sync has returned; currency, theme and token are kept, and
    what the sync wrote is what the store holds. *)
Theorem handleSync_records_the_sync_time :
  forall (env : Runtime.Env) (isInitialSync : bool)
         (a : PreferencesStore.App),
    let sync :=
      SupabaseSync.syncAll env isInitialSync
        (AccountScreen.lastSyncTime (PreferencesStore.preferences a))
        (PreferencesStore.world a) in
    let out :=
      AccountScreen.handleSync env (PreferencesStore.preferences a)
        isInitialSync a in
    exists r,
      fst sync = Supabase.Returns r
      /\ Runtime.transactions (PreferencesStore.world (snd out))
         = Runtime.transactions (snd sync)
      /\ Runtime.categories (PreferencesStore.world (snd out))
         = Runtime.categories (snd sync)
      /\ (SupabaseSync.success r = false ->
          (exists msg, fst out = Supabase.Returns (Some msg)
                       /\ msg <> EmptyString)
          /\ PreferencesStore.preferences (snd out)
             = PreferencesStore.preferences a)
      /\ (SupabaseSync.success r = true ->
          fst out = Supabase.Returns None
          /\ exists after,
               PreferencesStore.preferences (snd out) = Some after
               /\ PreferencesStore.Preferences.lastSyncAt after
                  = Some (Runtime.wall_clock env
                            (Runtime.clock_reads (snd sync)))
               /\ forall p, PreferencesStore.preferences a = Some p ->
                    PreferencesStore.Preferences.currency after
                    = PreferencesStore.Preferences.currency p
                    /\ PreferencesStore.Preferences.theme after
                       = PreferencesStore.Preferences.theme p
                    /\ PreferencesStore.Preferences.syncToken after
                       = PreferencesStore.Preferences.syncToken p).
Proof.
  intros env isInitialSync a sync out. subst sync out.
  unfold AccountScreen.handleSync.
  destruct (syncAll_returns env isInitialSync
              (AccountScreen.lastSyncTime (PreferencesStore.preferences a))
              (PreferencesStore.world a)) as (r & w1 & Hsync).
  rewrite Hsync. exists r. simpl.
  destruct (SupabaseSync.success r) eqn:Hok.
  - unfold PreferencesStore.updatePreferences,
      PreferencesStore.ensurePreferences.
    destruct (PreferencesStore.preferences a) as [p|] eqn:Hp; simpl;
      rewrite ?Hp; simpl.
    + split; [reflexivity|]. split; [reflexivity|].
      split; [reflexivity|]. split; [discriminate|].
      intros _. split; [reflexivity|].
      eexists. split; [reflexivity|]. split; [reflexivity|].
      intros p0 Hp0. inversion Hp0; subst p0. repeat split.
    + split; [reflexivity|]. split; [reflexivity|].
      split; [reflexivity|]. split; [discriminate|].
      intros _. split; [reflexivity|].
      eexists. split; [reflexivity|]. split; [reflexivity|].
      intros p0 Hp0. discriminate.
  - simpl. split; [reflexivity|]. split; [reflexivity|].
    split; [reflexivity|]. split; [|discriminate].
    intros _. split; [|reflexivity].
    unfold AccountScreen.error_or_default.
    destruct (SupabaseSync.error r) as [[|c s]|];
      eexists; (split; [reflexivity|discriminate]).
Qed.

(** A first sync of the household against the healthy remote: the sync
    time is set; against the remote that refuses the categories, the
    error of the remote is shown and no preferences are written. *)
Lemma handleSync_records_the_sync_time_witness :
  fst (AccountScreen.handleSync (Fixtures.device Fixtures.refusing_categories)
         None true
         {| PreferencesStore.world := Fixtures.household;
            PreferencesStore.preferences := None |})
  = Supabase.Returns (Some "permission denied")
  /\ exists r,
      fst (SupabaseSync.syncAll (Fixtures.device Fixtures.healthy) true None
             Fixtures.household) = Supabase.Returns r
      /\ SupabaseSync.success r = true
      /\ fst (AccountScreen.handleSync (Fixtures.device Fixtures.healthy)
                None true
                {| PreferencesStore.world := Fixtures.household;
                   PreferencesStore.preferences := None |})
         = Supabase.Returns None.
Proof.
  split; [vm_compute; reflexivity|].
  destruct (handleSync_records_the_sync_time (Fixtures.device Fixtures.healthy)
              true
              {| PreferencesStore.world := Fixtures.household;
                 PreferencesStore.preferences := None |})
    as (r & Hr & _ & _ & _ & Hok).
  exists r. split; [exact Hr|].
  assert (Hs : SupabaseSync.success r = true).
  { vm_compute in Hr. inversion Hr. reflexivity. }
  split; [exact Hs|]. exact (proj1 (Hok Hs)).
Defined.

(** ** Saving a transaction *)

Section SaveFacts.
Import Float64 Schemas Supabase Runtime Repository Validation TransactionEntry.
Variable is_uuid : string -> bool.
Variable Date_parse : string -> option Z.

Lemma validated_fields (now : Z) (input : RawDraft)
  (d : ValidatedTransactionDraft) :
  validateTransactionDraft is_uuid Date_parse now input = Valid d ->
  idSchema is_uuid (raw_id input) = inr (Validation.id d)
  /\ transactionTypeSchema (raw_type input) = inr (Validation.type d)
  /\ amountInputSchema (raw_amount input) = inr (Validation.amountCents d)
  /\ categoryIdSchema (raw_categoryId input) = inr (Validation.categoryId d)
  /\ timestampSchema Date_parse now (raw_timestamp input)
     = Valid (Validation.timestamp d).
Proof.
  unfold validateTransactionDraft. intros H.
  destruct (timestampSchema Date_parse now (raw_timestamp input)),
           (idSchema is_uuid (raw_id input)),
           (transactionTypeSchema (raw_type input)),
           (amountInputSchema (raw_amount input)),
           (categoryIdSchema (raw_categoryId input));
    try discriminate.
  inversion H; subst d. simpl. repeat split.
Qed.

Lemma type_name_read (ty ty' : TransactionType) :
  transactionTypeSchema (Str (type_name ty)) = inr ty' -> ty' = ty.
Proof. destruct ty; simpl; intros H; inversion H; reflexivity. Qed.

Lemma categoryId_read (s c : string) :
  categoryIdSchema (Str s) = inr c -> c = s.
Proof. destruct s; simpl; intros H; inversion H; reflexivity. Qed.

End SaveFacts.

(** X21. When [saveTransaction] does not return an id, because the
    validation or the write threw, no record has been written and the
    registered sync callback has not been run: transactions, categories
    and the requests sent are as they were, whatever the callback
    does. *)
Theorem saveTransaction_rejected_writes_nothing :
  forall (is_uuid : string -> bool) (Date_parse : string -> option Z)
         (realm_int : Float64.number -> string + Z) (env : Runtime.Env)
         (input : TransactionEntry.TransactionInput)
         (syncCallback : option (Runtime.World -> Runtime.World))
         (w : Runtime.World),
    let out :=
      TransactionEntry.saveTransaction is_uuid Date_parse realm_int env
        input syncCallback w in
    (forall id, fst out <> Validation.Valid id) ->
    Runtime.transactions (snd out) = Runtime.transactions w
    /\ Runtime.categories (snd out) = Runtime.categories w
    /\ Runtime.requests (snd out) = Runtime.requests w.
Proof.
  intros is_uuid Date_parse realm_int env input syncCallback w out.
  subst out. unfold TransactionEntry.saveTransaction.
  destruct (TransactionEntry.input_timestamp input) as [ts|]; simpl;
    (destruct (Validation.validateTransactionDraft _ _ _ _) as [d|issues|msg];
     [|intros _; repeat split|intros _; repeat split]);
    (destruct (Validation.id d); simpl;
     (destruct (realm_int (Validation.amountCents d)) as [msg|cents]; simpl;
      [intros _; repeat split|intros H; exfalso; exact (H _ eq_refl)])).
Qed.

(** An amount that is not a number. *)
Lemma saveTransaction_rejected_writes_nothing_witness :
  Runtime.transactions
    (snd (TransactionEntry.saveTransaction (fun _ => true) (fun _ => None)
            (fun x => match Float64.to_Z x with
                      | Some z => inr z
                      | None => inl "not an integer"
                      end)
            (Fixtures.device Fixtures.healthy)
            {| TransactionEntry.input_id := None;
               TransactionEntry.input_type := Schemas.expense;
               TransactionEntry.input_amount := Validation.Str "abc";
               TransactionEntry.input_categoryId := "c1";
               TransactionEntry.input_timestamp := None |}
            (Some (Runtime.set_transactions (fun _ => ∅)))
            Fixtures.household))
  = Runtime.transactions Fixtures.household.
Proof.
  apply (saveTransaction_rejected_writes_nothing (fun _ => true) (fun _ => None)).
  intros id H. vm_compute in H. discriminate H.
Defined.

(** X22. When [saveTransaction] returns an id, it is the id given, or a
    fresh one when none was given, and before the sync callback runs the
    store holds under it a record with the type and category given, the
    cents the validation made of the amount, the timestamp given or the
    reading of the clock taken at the start, the status [local] and
    [deleted = false]; no other transaction and no category is changed.
    Saving under the id of a synced record so makes it local again. *)
Theorem saveTransaction_stores_a_local_record :
  forall (is_uuid : string -> bool) (Date_parse : string -> option Z)
         (realm_int : Float64.number -> string + Z) (env : Runtime.Env)
         (input : TransactionEntry.TransactionInput)
         (syncCallback : option (Runtime.World -> Runtime.World))
         (w : Runtime.World) (id : string),
    fst (TransactionEntry.saveTransaction is_uuid Date_parse realm_int env
           input syncCallback w) = Validation.Valid id ->
    exists (w3 : Runtime.World) (t : Schemas.Transaction.t)
           (cents : Float64.number),
      snd (TransactionEntry.saveTransaction is_uuid Date_parse realm_int env
             input syncCallback w)
      = match syncCallback with Some callback => callback w3 | None => w3 end
      /\ Runtime.transactions w3 !! id = Some t
      /\ Schemas.Transaction.id t = id
      /\ Schemas.Transaction.type t = TransactionEntry.input_type input
      /\ Schemas.Transaction.categoryId t
         = TransactionEntry.input_categoryId input
      /\ Validation.amountInputSchema (TransactionEntry.input_amount input)
         = inr cents
      /\ realm_int cents = inr (Schemas.Transaction.amountCents t)
      /\ Schemas.Transaction.timestamp t
         = default (Runtime.wall_clock env (Runtime.clock_reads w))
                   (TransactionEntry.input_timestamp input)
      /\ Schemas.Transaction.syncStatus t = Schemas.local
      /\ Schemas.Transaction.deleted t = false
      /\ id = default (Runtime.fresh_uuid env (Runtime.uuids_made w))
                      (TransactionEntry.input_id input)
      /\ (forall k, k <> id ->
            Runtime.transactions w3 !! k = Runtime.transactions w !! k)
      /\ Runtime.categories w3 = Runtime.categories w.
Proof.
  intros is_uuid Date_parse realm_int env input syncCallback w id.
  unfold TransactionEntry.saveTransaction.
  set (start := match TransactionEntry.input_timestamp input with
                | Some t => (t, w)
                | None => Runtime.now env w
                end).
  assert (Hstart : fst start
                   = default (Runtime.wall_clock env (Runtime.clock_reads w))
                             (TransactionEntry.input_timestamp input)
                   /\ Runtime.transactions (snd start) = Runtime.transactions w
                   /\ Runtime.categories (snd start) = Runtime.categories w
                   /\ Runtime.uuids_made (snd start) = Runtime.uuids_made w).
  { subst start. destruct (TransactionEntry.input_timestamp input);
      simpl; repeat split. }
  destruct start as [timestamp w1]. simpl in Hstart.
  destruct Hstart as (Hts & Htx & Hcat & Huu).
  destruct (Validation.validateTransactionDraft is_uuid Date_parse timestamp _)
    as [d|issues|msg] eqn:Hvalid; try discriminate.
  apply validated_fields in Hvalid. simpl in Hvalid.
  destruct Hvalid as (Hid & Hty & Hamt & Hc & Htime).
  apply type_name_read in Hty. apply categoryId_read in Hc.
  inversion Htime as [Htime'].
  assert (Hnew : exists w2,
            match Validation.id d with
            | Some i => (i, w1)
            | None => Runtime.generateId env w1
            end
            = (default (Runtime.fresh_uuid env (Runtime.uuids_made w))
                       (TransactionEntry.input_id input), w2)
            /\ Runtime.transactions w2 = Runtime.transactions w
            /\ Runtime.categories w2 = Runtime.categories w).
  { destruct (TransactionEntry.input_id input) as [i|]; simpl in Hid |- *.
    - destruct (is_uuid i); [|discriminate]. inversion Hid as [Hd].
      exists w1. repeat split; assumption.
    - inversion Hid as [Hd]. unfold Runtime.generateId. rewrite Huu.
      eexists. split; [reflexivity|]. simpl. split; assumption. }
  destruct Hnew as (w2 & -> & Htx2 & Hcat2).
  destruct (realm_int (Validation.amountCents d)) as [msg|z] eqn:Hint;
    [discriminate|].
  simpl. intros Hret. inversion Hret as [Hret']. clear Hret.
  eexists _, _, (Validation.amountCents d).
  split; [reflexivity|]. simpl.
  split; [apply lookup_insert_eq|]. simpl.
  split; [reflexivity|]. split; [exact Hty|]. split; [exact Hc|].
  split; [exact Hamt|]. split; [exact Hint|].
  split; [rewrite <- Htime'; exact Hts|].
  split; [reflexivity|]. split; [reflexivity|]. split; [reflexivity|].
  split; [|exact Hcat2].
  intros k Hk. rewrite lookup_insert_ne by congruence. rewrite Htx2.
  reflexivity.
Qed.

(** Two and a half, spent in the groceries. *)
Lemma saveTransaction_stores_a_local_record_witness :
  exists (w3 : Runtime.World) (t : Schemas.Transaction.t),
    Runtime.transactions w3 !! "a-uuid" = Some t
    /\ Schemas.Transaction.syncStatus t = Schemas.local
    /\ Schemas.Transaction.amountCents t = 250.
Proof.
  destruct (saveTransaction_stores_a_local_record
              (fun _ => true) (fun _ => None)
              (fun x => match Float64.to_Z x with
                        | Some z => inr z
                        | None => inl "not an integer"
                        end)
              (Fixtures.device Fixtures.healthy)
              {| TransactionEntry.input_id := None;
                 TransactionEntry.input_type := Schemas.expense;
                 TransactionEntry.input_amount := Validation.Str "2.50";
                 TransactionEntry.input_categoryId := "c1";
                 TransactionEntry.input_timestamp := None |}
              None Fixtures.household "a-uuid")
    as (w3 & t & cents & _ & Hlook & _ & _ & _ & Hamt & Hint & _ & Hlocal & _).
  - vm_compute. reflexivity.
  - exists w3, t. split; [exact Hlook|]. split; [exact Hlocal|].
    vm_compute in Hamt. inversion Hamt; subst cents.
    vm_compute in Hint. inversion Hint as [H250]. symmetry. exact H250.
Defined.

(** ** Tombstones made on the device *)

(** X23. A transaction soft-deleted on the device is out of reach of the
    purge: [softDeleteTransaction] leaves it with the status [local], a
    push sends it without changing that, and [purgeOldTombstones] run
    after either of them, under any configuration and at any time, keeps
    the tombstone as it is. *)
Theorem local_tombstone_survives_the_purge :
  forall (env : Runtime.Env) (config : Maintenance.Config) (id : string)
         (w : Runtime.World) (t : Schemas.Transaction.t),
    Runtime.transactions w !! id = Some t ->
    let w1 := snd (Repository.softDeleteTransaction env id w) in
    let w2 := snd (SupabaseSync.pushTransactions env w1) in
    exists t',
      Runtime.transactions w1 !! id = Some t'
      /\ Schemas.Transaction.deleted t' = true
      /\ Schemas.Transaction.syncStatus t' = Schemas.local
      /\ Runtime.transactions
           (snd (Maintenance.purgeOldTombstones env config w1)) !! id
         = Some t'
      /\ Runtime.transactions
           (snd (Maintenance.purgeOldTombstones env config w2)) !! id
         = Some t'.
Proof.
  intros env config id w t Ht w1 w2.
  assert (Hkept : forall w0 t0,
            Runtime.transactions w0 !! id = Some t0 ->
            Schemas.Transaction.syncStatus t0 = Schemas.local ->
            Runtime.transactions
              (snd (Maintenance.purgeOldTombstones env config w0)) !! id
            = Some t0).
  { intros w0 t0 Hid Hlocal.
    destruct (decide (Runtime.transactions
                        (snd (Maintenance.purgeOldTombstones env config w0))
                        !! id = Some t0)) as [Hk|Hgone]; [exact Hk|].
    destruct (purge_removes_only_eligible env config w0 id t0 Hid Hgone)
      as (_ & Hsynced & _).
    congruence. }
  assert (H1 : Runtime.transactions w1 !! id
               = Some (Repository.mark_deleted
                         (Runtime.wall_clock env (Runtime.clock_reads w)) t)).
  { subst w1. unfold Repository.softDeleteTransaction. rewrite Ht. simpl.
    apply lookup_insert_eq. }
  exists (Repository.mark_deleted
            (Runtime.wall_clock env (Runtime.clock_reads w)) t).
  split; [exact H1|]. split; [reflexivity|]. split; [reflexivity|].
  split; [apply Hkept; [exact H1|reflexivity]|].
  apply Hkept; [|reflexivity].
  subst w2.
  destruct (pushTransactions_effect env w1) as (r & w' & s & Hrun & _ & Htx & _).
  rewrite Hrun. simpl. rewrite Htx. exact H1.
Qed.

(** The bread of the household, deleted, pushed, and still there after a
    purge run 115 days after the epoch. *)
Lemma local_tombstone_survives_the_purge_witness :
  exists t',
    Runtime.transactions
      (snd (Maintenance.purgeOldTombstones Fixtures.late_device
              Fixtures.purging
              (snd (SupabaseSync.pushTransactions Fixtures.late_device
                      (snd (Repository.softDeleteTransaction
                              Fixtures.late_device "t1"
                              Fixtures.household)))))) !! "t1"
    = Some t'
    /\ Schemas.Transaction.deleted t' = true.
Proof.
  destruct (local_tombstone_survives_the_purge Fixtures.late_device
              Fixtures.purging "t1" Fixtures.household Fixtures.bread
              eq_refl)
    as (t' & _ & Hd & _ & _ & Hkept).
  exists t'. split; [exact Hkept|exact Hd].
Defined.
